(** * Podcast-Aggregator: the analytics layer of the serverless API

    A shallow embedding of the pure JavaScript helpers of
    [api/search/podcasts.js], [api/search/episodes.js], [api/podcasts/[id].js]
    and [api/episodes.js]: duration formatting, episode analytics, publishing
    frequency labels and the two popularity heuristics; and of the four
    request handlers, as functions of the request and of what the upstream
    requests return.

    Conventions of the embedding.
    - A JavaScript number is a [number A]: [NaN], a signed [Infinity] or a
      finite value of carrier [A].  Arithmetic is exact: the carrier is [Q]
      for ordinary numbers, [Z] for the integral results of [Math.floor],
      [Math.round] and [%], and [R] where [Math.log10] is involved.  Binary64
      rounding, the sign of zero and the exponent notation that
      [Number.prototype.toString] uses from 1e21 on are outside the model.
    - A property of an upstream record is a [nullable]: absent ([Undefined]),
      [Null] or a value of the type the upstream service documents.
    - [table[key]] on an object literal looks at the literal's own
      properties and then at [Object.prototype].
    - Operations that can throw return a [result].
    - [Date.parse] and [Date.prototype.toISOString] are the members of the
      class [DateBuiltins]; [iso8601] is an instance for the timestamps the
      upstream service sends.  [parseInt] and
      [String.prototype.toLowerCase] are the members of [StringBuiltins], with
      the instance [ascii_strings]. *)

From Stdlib Require Import ZArith QArith Qround Qminmax Qreals List String Ascii Bool Lia.
From Stdlib Require Import DecimalString DecimalPos DecimalZ Permutation Sorted.
From Stdlib Require Import Reals Lra.
From Stdlib Require Lqa.
From Bignums Require BigZ.
Import ListNotations.

Close Scope R_scope.
Close Scope Q_scope.
Local Open Scope string_scope.
Local Open Scope Z_scope.

(* ================================================================== *)
(** * JavaScript values *)

Inductive nullable (A : Type) : Type :=
| Undefined
| Null
| Val (a : A).
Arguments Undefined {A}.
Arguments Null {A}.
Arguments Val {A} a.

Inductive number (A : Type) : Type :=
| NaN
| Infinity (negative : bool)
| Fin (x : A).
Arguments NaN {A}.
Arguments Infinity {A} negative.
Arguments Fin {A} x.

Module Num.

(** [ToNumber] of an integral number: the same value as a rational. *)
Definition of_int (n : number Z) : number Q :=
  match n with
  | NaN => NaN
  | Infinity s => Infinity s
  | Fin z => Fin (inject_Z z)
  end.

Definition isneg (q : Q) : bool := Qle_bool q 0 && negb (Qeq_bool q 0).

Definition neg (a : number Q) : number Q :=
  match a with
  | NaN => NaN
  | Infinity s => Infinity (negb s)
  | Fin x => Fin (- x)%Q
  end.

(** [a + b] *)
Definition add (a b : number Q) : number Q :=
  match a, b with
  | NaN, _ | _, NaN => NaN
  | Infinity s, Infinity t => if Bool.eqb s t then Infinity s else NaN
  | Infinity s, Fin _ | Fin _, Infinity s => Infinity s
  | Fin x, Fin y => Fin (x + y)%Q
  end.

(** [a - b] *)
Definition sub (a b : number Q) : number Q := add a (neg b).

(** [a * b] *)
Definition mul (a b : number Q) : number Q :=
  match a, b with
  | NaN, _ | _, NaN => NaN
  | Infinity s, Infinity t => Infinity (xorb s t)
  | Infinity s, Fin y | Fin y, Infinity s =>
      if Qeq_bool y 0 then NaN else Infinity (xorb s (isneg y))
  | Fin x, Fin y => Fin (x * y)%Q
  end.

(** [a / b] *)
Definition div (a b : number Q) : number Q :=
  match a, b with
  | NaN, _ | _, NaN => NaN
  | Infinity _, Infinity _ => NaN
  | Infinity s, Fin y => Infinity (xorb s (isneg y))
  | Fin _, Infinity _ => Fin 0%Q
  | Fin x, Fin y =>
      if Qeq_bool y 0
      then (if Qeq_bool x 0 then NaN else Infinity (isneg x))
      else Fin (x / y)%Q
  end.

(** The abstract relational comparison: [None] when an operand is NaN. *)
Definition compare (a b : number Q) : option comparison :=
  match a, b with
  | NaN, _ | _, NaN => None
  | Infinity s, Infinity t =>
      Some (if Bool.eqb s t then Eq else if s then Lt else Gt)
  | Infinity s, Fin _ => Some (if s then Lt else Gt)
  | Fin _, Infinity t => Some (if t then Gt else Lt)
  | Fin x, Fin y => Some (x ?= y)%Q
  end.

(** [a > b] *)
Definition gt (a b : number Q) : bool :=
  match compare a b with Some Gt => true | _ => false end.

(** [a <= b] *)
Definition le (a b : number Q) : bool :=
  match compare a b with Some Lt | Some Eq => true | _ => false end.

(** [a % b] on integral operands (the only use the sources make of it). *)
Definition rem (a b : number Z) : number Z :=
  match a, b with
  | NaN, _ | _, NaN => NaN
  | Infinity _, _ => NaN
  | Fin x, Infinity _ => Fin x
  | Fin x, Fin y => if (y =? 0)%Z then NaN else Fin (Z.rem x y)
  end.

Definition isNaN {A} (a : number A) : bool :=
  match a with NaN => true | _ => false end.

(** [ToBoolean] of a number: [NaN] and zero are falsy. *)
Definition truthy (a : number Q) : bool :=
  match a with
  | NaN => false
  | Infinity _ => true
  | Fin x => negb (Qeq_bool x 0)
  end.

(** [Number.prototype.toString] of an integral number. *)
Definition toString (n : number Z) : string :=
  match n with
  | NaN => "NaN"
  | Infinity false => "Infinity"
  | Infinity true => "-Infinity"
  | Fin z => NilZero.string_of_int (Z.to_int z)
  end.

End Num.

Declare Scope js_scope.
Delimit Scope js_scope with js.
Infix "+" := Num.add : js_scope.
Infix "-" := Num.sub : js_scope.
Infix "*" := Num.mul : js_scope.
Infix "/" := Num.div : js_scope.
Infix ">" := Num.gt : js_scope.
Infix "<=" := Num.le : js_scope.
Infix "rem" := Num.rem (at level 40, no associativity) : js_scope.

(** A numeric literal with an integral value. *)
Definition lit (z : Z) : number Q := Fin (inject_Z z).

Definition Math_floor (a : number Q) : number Z :=
  match a with
  | NaN => NaN
  | Infinity s => Infinity s
  | Fin x => Fin (Qfloor x)
  end.

(** [Math.round]: the nearest integer, a tie going up. *)
Definition Math_round (a : number Q) : number Z :=
  match a with
  | NaN => NaN
  | Infinity s => Infinity s
  | Fin x => Fin (Qfloor (x + (1 # 2)))
  end.

Definition Math_min (a b : number Q) : number Q :=
  match Num.compare a b with
  | None => NaN
  | Some Gt => b
  | Some _ => a
  end.

(** [ToNumber] and [ToBoolean] of a numeric property that may be missing. *)
Definition ToNumber (v : nullable (number Q)) : number Q :=
  match v with
  | Undefined => NaN
  | Null => lit 0
  | Val n => n
  end.

Definition truthy_num (v : nullable (number Q)) : bool :=
  match v with
  | Val n => Num.truthy n
  | _ => false
  end.

(** [ToBoolean] of a string property: only the empty string is falsy. *)
Definition truthy_str (v : nullable string) : bool :=
  match v with
  | Val s => negb (String.eqb s "")
  | _ => false
  end.

(** [a || b] on string properties. *)
Definition or_str (a b : nullable string) : nullable string :=
  if truthy_str a then a else b.

(** [v === s] for a string literal [s]. *)
Definition strict_eq (v : nullable string) (s : string) : bool :=
  match v with
  | Val s' => String.eqb s' s
  | _ => false
  end.

(* ================================================================== *)
(** * Strings *)

(** The first [n] characters of the endless repetition of [fill]; [cur] is
    what is left of the copy being read. *)
Fixpoint repeat_to (n : nat) (fill cur : string) : string :=
  match n with
  | O => ""
  | S n' =>
      match cur with
      | String c cur' => String c (repeat_to n' fill cur')
      | EmptyString =>
          match fill with
          | String c fill' => String c (repeat_to n' fill fill')
          | EmptyString => ""
          end
      end
  end.

(** [String.prototype.padStart]. *)
Definition padStart (s : string) (targetLength : nat) (padString : string) : string :=
  if (targetLength <=? String.length s)%nat then s
  else repeat_to (targetLength - String.length s) padString padString ++ s.

(* ================================================================== *)
(** * Exceptions *)

Inductive exn : Type :=
| TypeError (msg : string)
| RangeError (msg : string).

Inductive result (A : Type) : Type :=
| Ok (a : A)
| Throw (e : exn).
Arguments Ok {A} a.
Arguments Throw {A} e.

Definition bind {A B} (m : result A) (k : A -> result B) : result B :=
  match m with
  | Ok a => k a
  | Throw e => Throw e
  end.

Notation "x <- m ;; k" := (bind m (fun x => k))
  (at level 61, m at next level, right associativity).

(* ================================================================== *)
(** * formatDuration ([api/search/episodes.js], [api/episodes.js]) *)

(** The same function in both files: [src/unnamed/part_000], lines 103 to
    114, and [src/api/search/api/podcasts/[id].js], lines 245 to 256. *)

Definition formatDuration (ms : nullable (number Q)) : string :=
  if negb (truthy_num ms) then "0:00"
  else
    let totalSeconds := Math_floor (ToNumber ms / lit 1000)%js in
    let hours := Math_floor (Num.of_int totalSeconds / lit 3600)%js in
    let minutes :=
      Math_floor (Num.of_int (totalSeconds rem Fin 3600) / lit 60)%js in
    let seconds := (totalSeconds rem Fin 60)%js in
    if (Num.of_int hours > lit 0)%js
    then Num.toString hours ++ ":" ++ padStart (Num.toString minutes) 2 "0"
           ++ ":" ++ padStart (Num.toString seconds) 2 "0"
    else Num.toString minutes ++ ":" ++ padStart (Num.toString seconds) 2 "0".

(* ================================================================== *)
(** * Publishing-frequency labels *)

(** [estimateSchedule] of [api/podcasts/[id].js] (lines 136 to 144). *)
Definition estimateSchedule (avgDays : nullable (number Q)) : string :=
  if negb (truthy_num avgDays) then "unknown"
  else if (ToNumber avgDays <= Fin (3 # 2)%Q)%js then "daily"
  else if (ToNumber avgDays <= lit 4)%js then "2-3 times per week"
  else if (ToNumber avgDays <= lit 9)%js then "weekly"
  else if (ToNumber avgDays <= lit 18)%js then "biweekly"
  else if (ToNumber avgDays <= lit 35)%js then "monthly"
  else "irregular".

(** [estimateFrequency] of [api/episodes.js] (lines 297 to 305). *)
Definition estimateFrequency (avgDays : nullable (number Q)) : string :=
  if negb (truthy_num avgDays) then "unknown"
  else if (ToNumber avgDays <= Fin (3 # 2)%Q)%js then "daily"
  else if (ToNumber avgDays <= lit 4)%js then "multiple times per week"
  else if (ToNumber avgDays <= lit 9)%js then "weekly"
  else if (ToNumber avgDays <= lit 18)%js then "biweekly"
  else if (ToNumber avgDays <= lit 35)%js then "monthly"
  else "irregular".

(* ================================================================== *)
(** * Dates *)

(** The two members of [Date] whose results depend on a calendar.
    [Date_parse] returns [None] for NaN, else the time value in
    milliseconds since the epoch. *)
Class DateBuiltins : Type := {
  Date_parse : string -> option Z;
  Date_toISOString : Z -> string
}.

(** A [Date] object is its time value; [None] is the invalid date. *)
Abbreviation Date := (option Z) (only parsing).

Definition getTime (d : Date) : number Z :=
  match d with
  | Some t => Fin t
  | None => NaN
  end.

(** [new Date(v)] for a property holding a timestamp string. *)
Definition new_Date `{DateBuiltins} (v : nullable string) : Date :=
  match v with
  | Undefined => None
  | Null => Some 0
  | Val s => Date_parse s
  end.

(** [ToNumber] of an array element that should be a [Date]; reading past
    the end of an array gives [undefined]. *)
Definition Date_ToNumber (o : option Date) : number Q :=
  match o with
  | Some d => Num.of_int (getTime d)
  | None => NaN
  end.

(** [d.toISOString()] on an array element. *)
Definition toISOString `{DateBuiltins} (o : option Date) : result string :=
  match o with
  | None => Throw (TypeError "Cannot read properties of undefined")
  | Some None => Throw (RangeError "Invalid time value")
  | Some (Some t) => Ok (Date_toISOString t)
  end.

(** [Array.prototype.sort] with a comparator: a stable insertion sort; an
    element moves behind its neighbour when the comparator is positive. *)
Section Sort.
Context {A : Type} (cmp : A -> A -> number Q).

Fixpoint insert (x : A) (l : list A) : list A :=
  match l with
  | [] => [x]
  | y :: l' => if (cmp x y > lit 0)%js then y :: insert x l' else x :: l
  end.

Definition sort (l : list A) : list A := fold_right insert [] l.
End Sort.

(** The comparator [(a, b) => b - a] on dates. *)
Definition newest_first (a b : Date) : number Q :=
  (Num.of_int (getTime b) - Num.of_int (getTime a))%js.

(** The interval loop shared by the two analyzers:
    [for (i = 0; i < Math.min(dates.length - 1, cap); i++)
       intervals.push((dates[i] - dates[i + 1]) / (1000 * 60 * 60 * 24))]. *)
Definition intervals (cap : nat) (dates : list Date) : list (number Q) :=
  map (fun i =>
         ((Date_ToNumber (nth_error dates i)
           - Date_ToNumber (nth_error dates (i + 1)))
          / (lit 1000 * lit 60 * lit 60 * lit 24))%js)
      (seq 0 (Nat.min (List.length dates - 1) cap)).

(** [xs.reduce((a, b) => a + b, 0)]. *)
Definition sum (xs : list (number Q)) : number Q :=
  fold_left Num.add xs (lit 0).

Definition length_num {A} (l : list A) : number Q :=
  lit (Z.of_nat (List.length l)).

(** [avgDaysBetween]: [null] unless more than one date is left. *)
Definition avgDaysBetween (cap : nat) (dates : list Date) : nullable (number Q) :=
  if (1 <? List.length dates)%nat
  then let ivs := intervals cap dates in Val (sum ivs / length_num ivs)%js
  else Null.

(** [avgDuration] from the list of durations in seconds. *)
Definition avgDuration (seconds : list (number Q)) : number Q :=
  let durations := filter (fun d => (d > lit 0)%js) seconds in
  if (0 <? List.length durations)%nat
  then (sum durations / length_num durations)%js
  else lit 0.

(** [episodes.map(ep => new Date(...)).filter(d => !isNaN(d.getTime()))
      .sort((a, b) => b - a)]. *)
Definition sorted_dates `{DateBuiltins} (stamps : list (nullable string)) : list Date :=
  sort newest_first
       (filter (fun d => negb (Num.isNaN (getTime d))) (map new_Date stamps)).

(** [avgDaysBetween ? Math.round(avgDaysBetween) : null]. *)
Definition round_or_null (avg : nullable (number Q)) : nullable (number Z) :=
  if truthy_num avg then Val (Math_round (ToNumber avg)) else Null.

(* ================================================================== *)
(** * Upstream records *)

Module RawEpisode.
Record t : Type := {
  trackId : nullable Z;
  collectionId : nullable Z;
  collectionName : nullable string;
  artistName : nullable string;
  trackName : nullable string;
  description : nullable string;
  releaseDate : nullable string;
  trackTimeMillis : nullable (number Q);
  trackViewUrl : nullable string;
  episodeUrl : nullable string;
  previewUrl : nullable string;
  artworkUrl60 : nullable string;
  artworkUrl160 : nullable string;
  artworkUrl600 : nullable string;
  contentAdvisoryRating : nullable string;
  country : nullable string;
  genres : nullable (list string);
  primaryGenreName : nullable string;
  kind : nullable string;
  wrapperType : nullable string
}.
End RawEpisode.

Module RawPodcast.
Record t : Type := {
  collectionId : nullable Z;
  collectionName : nullable string;
  artistName : nullable string;
  collectionCensoredName : nullable string;
  artworkUrl60 : nullable string;
  artworkUrl100 : nullable string;
  artworkUrl600 : nullable string;
  feedUrl : nullable string;
  collectionViewUrl : nullable string;
  genres : nullable (list string);
  primaryGenreName : nullable string;
  trackCount : nullable (number Q);
  releaseDate : nullable string;
  country : nullable string;
  languageCodesISO2A : nullable (list string);
  contentAdvisoryRating : nullable string
}.
End RawPodcast.

(** [v?.toString()] on a numeric identifier. *)
Definition toString_opt (v : nullable Z) : nullable string :=
  match v with
  | Val z => Val (Num.toString (Fin z))
  | _ => Undefined
  end.

(** [v.toString()]: a TypeError when the property is missing. *)
Definition toString_req (v : nullable Z) : result string :=
  match v with
  | Val z => Ok (Num.toString (Fin z))
  | Null => Throw (TypeError "Cannot read properties of null")
  | Undefined => Throw (TypeError "Cannot read properties of undefined")
  end.

(** [v || []] on a list property. *)
Definition or_nil {A} (v : nullable (list A)) : list A :=
  match v with
  | Val l => l
  | _ => []
  end.

(* ================================================================== *)
(** * Episode normalization *)

(** The shape built by [api/episodes.js] (lines 205 to 215). *)
Module Episode.
Record t : Type := {
  id : nullable string;
  title : nullable string;
  description : nullable string;
  release_date : nullable string;
  duration_ms : nullable (number Q);
  duration_formatted : string;
  url : nullable string;
  audio_url : nullable string;
  artwork : nullable string
}.

Definition normalize (ep : RawEpisode.t) : t := {|
  id := toString_opt (RawEpisode.trackId ep);
  title := RawEpisode.trackName ep;
  description := RawEpisode.description ep;
  release_date := RawEpisode.releaseDate ep;
  duration_ms := RawEpisode.trackTimeMillis ep;
  duration_formatted := formatDuration (RawEpisode.trackTimeMillis ep);
  url := RawEpisode.trackViewUrl ep;
  audio_url := RawEpisode.previewUrl ep;
  artwork := or_str (RawEpisode.artworkUrl600 ep) (RawEpisode.artworkUrl160 ep)
|}.
End Episode.

(** The shape built by [api/search/episodes.js]
    ([src/unnamed/part_000], lines 44 to 73). *)
Module SearchEpisode.
Record artwork_t : Type := {
  small : nullable string;
  medium : nullable string;
  large : nullable string
}.

Record t : Type := {
  episode_id : nullable string;
  podcast_id : nullable string;
  podcast_name : nullable string;
  podcast_publisher : nullable string;
  title : nullable string;
  description : nullable string;
  release_date : nullable string;
  duration_ms : nullable (number Q);
  duration_formatted : string;
  url : nullable string;
  audio_url : nullable string;
  artwork : artwork_t;
  content_rating : nullable string;
  country : nullable string;
  genres : list string;
  primary_genre : nullable string
}.

Definition normalize (episode : RawEpisode.t) : t := {|
  episode_id := toString_opt (RawEpisode.trackId episode);
  podcast_id := toString_opt (RawEpisode.collectionId episode);
  podcast_name := RawEpisode.collectionName episode;
  podcast_publisher := RawEpisode.artistName episode;
  title := RawEpisode.trackName episode;
  description := RawEpisode.description episode;
  release_date := RawEpisode.releaseDate episode;
  duration_ms := RawEpisode.trackTimeMillis episode;
  duration_formatted := formatDuration (RawEpisode.trackTimeMillis episode);
  url := RawEpisode.trackViewUrl episode;
  audio_url := or_str (RawEpisode.episodeUrl episode) (RawEpisode.previewUrl episode);
  artwork := {| small := RawEpisode.artworkUrl60 episode;
                medium := RawEpisode.artworkUrl160 episode;
                large := RawEpisode.artworkUrl600 episode |};
  content_rating := RawEpisode.contentAdvisoryRating episode;
  country := RawEpisode.country episode;
  genres := or_nil (RawEpisode.genres episode);
  primary_genre := RawEpisode.primaryGenreName episode
|}.

(** [item.kind === 'podcast-episode' || item.wrapperType === 'podcastEpisode'] *)
Definition is_episode (item : RawEpisode.t) : bool :=
  strict_eq (RawEpisode.kind item) "podcast-episode"
  || strict_eq (RawEpisode.wrapperType item) "podcastEpisode".

Definition normalize_all (results : list RawEpisode.t) : list t :=
  map normalize (filter is_episode results).
End SearchEpisode.

(* ================================================================== *)
(** * Episode analytics *)

(** [generateEpisodeAnalytics] of [api/episodes.js] (lines 258 to 295). *)
Module EpisodeAnalytics.
Record t : Type := {
  total_episodes : nat;
  average_duration_seconds : number Z;
  average_duration_formatted : string;
  first_episode_date : nullable string;
  latest_episode_date : nullable string;
  average_days_between_episodes : nullable (number Z);
  publishing_frequency : string
}.
End EpisodeAnalytics.

Definition generateEpisodeAnalytics `{DateBuiltins} (episodes : list Episode.t)
  : result (nullable EpisodeAnalytics.t) :=
  if (List.length episodes =? 0)%nat then Ok Null
  else
    let avgDuration :=
      avgDuration
        (map (fun ep => (ToNumber (Episode.duration_ms ep) / lit 1000)%js) episodes) in
    let dates := sorted_dates (map Episode.release_date episodes) in
    let avgDaysBetween := avgDaysBetween 20 dates in
    first <- (if (0 <? List.length dates)%nat
              then s <- toISOString (nth_error dates (List.length dates - 1)) ;; Ok (Val s)
              else Ok Null) ;;
    latest <- (if (0 <? List.length dates)%nat
               then s <- toISOString (nth_error dates 0) ;; Ok (Val s)
               else Ok Null) ;;
    Ok (Val {|
      EpisodeAnalytics.total_episodes := List.length episodes;
      EpisodeAnalytics.average_duration_seconds := Math_round avgDuration;
      EpisodeAnalytics.average_duration_formatted :=
        formatDuration (Val (avgDuration * lit 1000)%js);
      EpisodeAnalytics.first_episode_date := first;
      EpisodeAnalytics.latest_episode_date := latest;
      EpisodeAnalytics.average_days_between_episodes := round_or_null avgDaysBetween;
      EpisodeAnalytics.publishing_frequency := estimateFrequency avgDaysBetween
    |}).

(** [analyzeEpisodes] of [api/podcasts/[id].js] (lines 98 to 134). *)
Module EpisodeInsights.
Record t : Type := {
  average_duration_seconds : number Z;
  average_duration_minutes : number Z;
  publishing_frequency_days : nullable (number Z);
  estimated_schedule : string;
  total_analyzed : nat
}.
End EpisodeInsights.

Definition analyzeEpisodes `{DateBuiltins} (episodes : list RawEpisode.t)
  : nullable EpisodeInsights.t :=
  if (List.length episodes =? 0)%nat then Null
  else
    let avgDuration :=
      avgDuration
        (map (fun ep => (ToNumber (RawEpisode.trackTimeMillis ep) / lit 1000)%js)
             episodes) in
    let dates := sorted_dates (map RawEpisode.releaseDate episodes) in
    let avgDaysBetween := avgDaysBetween 10 dates in
    Val {|
      EpisodeInsights.average_duration_seconds := Math_round avgDuration;
      EpisodeInsights.average_duration_minutes := Math_round (avgDuration / lit 60)%js;
      EpisodeInsights.publishing_frequency_days := round_or_null avgDaysBetween;
      EpisodeInsights.estimated_schedule := estimateSchedule avgDaysBetween;
      EpisodeInsights.total_analyzed := List.length episodes
    |}.

(* ================================================================== *)
(** * Property lookup on an object literal *)

(** What [table[key]] evaluates to: a number stored in the literal, a
    function or object inherited from [Object.prototype], or [undefined]. *)
Inductive property : Type :=
| Missing
| NumProp (q : Q)
| ObjProp (name : string).

(** The property names every object literal inherits. *)
Definition Object_prototype : list string :=
  [ "constructor"; "__defineGetter__"; "__defineSetter__"; "hasOwnProperty";
    "__lookupGetter__"; "__lookupSetter__"; "isPrototypeOf";
    "propertyIsEnumerable"; "toString"; "valueOf"; "__proto__";
    "toLocaleString" ].

Definition inherited (key : string) : bool :=
  existsb (String.eqb key) Object_prototype.

Fixpoint own (table : list (string * Q)) (key : string) : option Q :=
  match table with
  | [] => None
  | (k, v) :: rest => if String.eqb k key then Some v else own rest key
  end.

(** [table[key]]: own properties first, then the prototype. *)
Definition get (table : list (string * Q)) (key : string) : property :=
  match own table key with
  | Some q => NumProp q
  | None => if inherited key then ObjProp key else Missing
  end.

(** [ToPropertyKey] of a string property that may be missing. *)
Definition ToPropertyKey (v : nullable string) : string :=
  match v with
  | Undefined => "undefined"
  | Null => "null"
  | Val s => s
  end.

Definition truthy_prop (p : property) : bool :=
  match p with
  | Missing => false
  | NumProp q => negb (Qeq_bool q 0)
  | ObjProp _ => true
  end.

(** [a || b] on looked-up properties. *)
Definition or_prop (a b : property) : property :=
  if truthy_prop a then a else b.

(** [ToNumber] of a looked-up property: an object or function is NaN. *)
Definition prop_ToNumber (p : property) : number Q :=
  match p with
  | NumProp q => Fin q
  | _ => NaN
  end.

(* ================================================================== *)
(** * Search-context popularity ([api/search/podcasts.js]) *)

(** [estimateListeners], [src/unnamed/part_001], lines 101 to 120. *)

Definition baseMultiplier : list (string * Q) :=
  [ ("True Crime", inject_Z 15000);
    ("News", inject_Z 12000);
    ("Comedy", inject_Z 10000);
    ("Business", inject_Z 8000);
    ("Technology", inject_Z 7000);
    ("Sports", inject_Z 9000);
    ("Health & Fitness", inject_Z 6000);
    ("Education", inject_Z 5000);
    ("Society & Culture", inject_Z 5500);
    ("default", inject_Z 4000) ].

Definition estimateListeners (episodeCount : nullable (number Q))
                             (genre : nullable string) : number Z :=
  let multiplier :=
    or_prop (get baseMultiplier (ToPropertyKey genre)) (get baseMultiplier "default") in
  let episodeFactor := Math_min (ToNumber episodeCount / lit 100)%js (lit 5) in
  Math_floor (prop_ToNumber multiplier * (lit 1 + episodeFactor))%js.

(* ================================================================== *)
(** * Detail-context popularity ([api/podcasts/[id].js]) *)

(** Numbers over the reals, for [Math.log10]. *)
Module RNum.

Definition of_Q (a : number Q) : number R :=
  match a with
  | NaN => NaN
  | Infinity s => Infinity s
  | Fin q => Fin (Q2R q)
  end.

Definition of_int (a : number Z) : number R :=
  match a with
  | NaN => NaN
  | Infinity s => Infinity s
  | Fin z => Fin (IZR z)
  end.

Definition isneg (x : R) : bool := if Rlt_dec x 0 then true else false.

Definition iszero (x : R) : bool := if Req_dec_T x 0 then true else false.

Definition add (a b : number R) : number R :=
  match a, b with
  | NaN, _ | _, NaN => NaN
  | Infinity s, Infinity t => if Bool.eqb s t then Infinity s else NaN
  | Infinity s, Fin _ | Fin _, Infinity s => Infinity s
  | Fin x, Fin y => Fin (x + y)%R
  end.

Definition mul (a b : number R) : number R :=
  match a, b with
  | NaN, _ | _, NaN => NaN
  | Infinity s, Infinity t => Infinity (xorb s t)
  | Infinity s, Fin y | Fin y, Infinity s =>
      if iszero y then NaN else Infinity (xorb s (isneg y))
  | Fin x, Fin y => Fin (x * y)%R
  end.

(** [Math.floor] *)
Definition floor (a : number R) : number Z :=
  match a with
  | NaN => NaN
  | Infinity s => Infinity s
  | Fin x => Fin (Int_part x)
  end.

(** [Math.log10] *)
Definition log10 (a : number R) : number R :=
  match a with
  | NaN => NaN
  | Infinity true => NaN
  | Infinity false => Infinity false
  | Fin x =>
      if iszero x then Infinity true
      else if isneg x then NaN
      else Fin (ln x / ln 10)%R
  end.

End RNum.

Definition genreMultipliers : list (string * Q) :=
  [ ("True Crime", 5 # 2);
    ("News", 2 # 1);
    ("Comedy", 9 # 5);
    ("Business", 8 # 5);
    ("Technology", 3 # 2);
    ("Sports", 17 # 10);
    ("Health & Fitness", 7 # 5);
    ("default", 1 # 1) ]%Q.

Module Metrics.
Record t : Type := {
  estimated_weekly_listeners : number Z;
  estimated_downloads_per_episode : number Z;
  confidence : string;
  note : string
}.
End Metrics.

(** [estimateMetrics] (lines 146 to 171); [episodeCount] is
    [episodes.length] at the only call site. *)
Definition estimateMetrics (podcast : RawPodcast.t) (episodeCount : nat) : Metrics.t :=
  let multiplier :=
    or_prop (get genreMultipliers (ToPropertyKey (RawPodcast.primaryGenreName podcast)))
            (get genreMultipliers "default") in
  let episodeFactor := RNum.log10 (RNum.add (Fin (INR episodeCount)) (Fin 1%R)) in
  let baseListeners : number R := Fin 5000%R in
  let estimatedWeeklyListeners :=
    RNum.floor
      (RNum.mul (RNum.mul baseListeners (RNum.of_Q (prop_ToNumber multiplier)))
                episodeFactor) in
  let estimatedDownloadsPerEpisode :=
    RNum.floor (RNum.mul (RNum.of_int estimatedWeeklyListeners) (Fin (7 / 10)%R)) in
  {| Metrics.estimated_weekly_listeners := estimatedWeeklyListeners;
     Metrics.estimated_downloads_per_episode := estimatedDownloadsPerEpisode;
     Metrics.confidence := "low";
     Metrics.note := "Estimates based on genre, episode count, and industry averages" |}.

(* ================================================================== *)
(** * Podcast details ([api/podcasts/[id].js]) *)

(** [v || d] where the result is used as a string. *)
Definition or_default (v : nullable string) (d : string) : string :=
  match v with
  | Val s => if String.eqb s "" then d else s
  | _ => d
  end.

(** [v?.substring(0, n)] *)
Definition substring_opt (n : nat) (v : nullable string) : nullable string :=
  match v with
  | Val s => Val (substring 0 n s)
  | _ => Undefined
  end.

(** [v?.[0]] *)
Definition first_opt (v : nullable (list string)) : nullable string :=
  match v with
  | Val (s :: _) => Val s
  | _ => Undefined
  end.

(** [a || b] where [a] is a numeric property and [b] a number. *)
Definition or_num (a : nullable (number Q)) (b : number Q) : number Q :=
  if truthy_num a then ToNumber a else b.

Module PodcastDetails.
Record artwork_t : Type := {
  url_60 : nullable string;
  url_100 : nullable string;
  url_600 : nullable string
}.

Record metadata_t : Type := {
  feed_url : nullable string;
  itunes_url : nullable string;
  itunes_id : nullable Z;
  copyright : nullable string;
  author : nullable string
}.

Record categories_t : Type := {
  genres : list string;
  primary_genre : nullable string
}.

Record stats_t : Type := {
  episode_count : number Q;
  release_date : nullable string;
  latest_episode_date : nullable string;
  country : nullable string;
  language : string;
  explicit : bool
}.

Record recent_t : Type := {
  recent_id : nullable string;
  recent_title : nullable string;
  recent_description : string;
  recent_release_date : nullable string;
  recent_duration : nullable (number Q);
  recent_url : nullable string
}.

Record t : Type := {
  id : string;
  name : nullable string;
  publisher : nullable string;
  description : nullable string;
  artwork : artwork_t;
  metadata : metadata_t;
  categories : categories_t;
  stats : stats_t;
  episode_insights : nullable EpisodeInsights.t;
  recent_episodes : list recent_t;
  estimated_metrics : Metrics.t
}.

Definition recent (ep : RawEpisode.t) : recent_t := {|
  recent_id := toString_opt (RawEpisode.trackId ep);
  recent_title := RawEpisode.trackName ep;
  recent_description := or_default (substring_opt 200 (RawEpisode.description ep)) "";
  recent_release_date := RawEpisode.releaseDate ep;
  recent_duration := RawEpisode.trackTimeMillis ep;
  recent_url := RawEpisode.trackViewUrl ep
|}.

(** The [podcastDetails] object of the handler (lines 36 to 85), from
    the first result and the remaining ones. *)
Definition normalize `{DateBuiltins} (podcastInfo : RawPodcast.t)
                     (episodes : list RawEpisode.t) : result t :=
  let episodeAnalysis := analyzeEpisodes episodes in
  id_ <- toString_req (RawPodcast.collectionId podcastInfo) ;;
  Ok {|
    id := id_;
    name := RawPodcast.collectionName podcastInfo;
    publisher := RawPodcast.artistName podcastInfo;
    description := RawPodcast.collectionCensoredName podcastInfo;
    artwork := {| url_60 := RawPodcast.artworkUrl60 podcastInfo;
                  url_100 := RawPodcast.artworkUrl100 podcastInfo;
                  url_600 := RawPodcast.artworkUrl600 podcastInfo |};
    metadata := {| feed_url := RawPodcast.feedUrl podcastInfo;
                   itunes_url := RawPodcast.collectionViewUrl podcastInfo;
                   itunes_id := RawPodcast.collectionId podcastInfo;
                   copyright := Null;
                   author := RawPodcast.artistName podcastInfo |};
    categories := {| genres := or_nil (RawPodcast.genres podcastInfo);
                     primary_genre := RawPodcast.primaryGenreName podcastInfo |};
    stats := {| episode_count :=
                  or_num (RawPodcast.trackCount podcastInfo) (length_num episodes);
                release_date := RawPodcast.releaseDate podcastInfo;
                latest_episode_date :=
                  match nth_error episodes 0 with
                  | Some ep => RawEpisode.releaseDate ep
                  | None => Undefined
                  end;
                country := RawPodcast.country podcastInfo;
                language :=
                  or_default (first_opt (RawPodcast.languageCodesISO2A podcastInfo)) "en";
                explicit :=
                  strict_eq (RawPodcast.contentAdvisoryRating podcastInfo) "Explicit" |};
    episode_insights := episodeAnalysis;
    recent_episodes := map recent (firstn 10 episodes);
    estimated_metrics := estimateMetrics podcastInfo (List.length episodes)
  |}.
End PodcastDetails.

(* ================================================================== *)
(** * An instance of the date builtins

    The upstream service sends timestamps of the form
    [YYYY-MM-DDTHH:mm:ssZ]; [Iso8601.parse] reads that form, with or without
    milliseconds, rejecting a date the calendar does not have, and
    [Iso8601.format] prints the form [toISOString] produces for years
    0 to 9999. *)

Module Iso8601.

Definition digit (c : ascii) : option Z :=
  let n := nat_of_ascii c in
  if ((48 <=? n) && (n <=? 57))%nat then Some (Z.of_nat (n - 48)) else None.

(** Read [n] decimal digits. *)
Fixpoint digits (n : nat) (acc : Z) (s : string) : option (Z * string) :=
  match n with
  | O => Some (acc, s)
  | S n' =>
      match s with
      | String c s' =>
          match digit c with
          | Some d => digits n' (10 * acc + d) s'
          | None => None
          end
      | EmptyString => None
      end
  end.

Definition expect (c : ascii) (s : string) : option string :=
  match s with
  | String c' s' => if Ascii.eqb c c' then Some s' else None
  | EmptyString => None
  end.

Definition leap (y : Z) : bool :=
  ((y mod 4 =? 0) && negb (y mod 100 =? 0) || (y mod 400 =? 0))%Z.

Definition days_in_month (y m : Z) : Z :=
  if (m =? 2)%Z then (if leap y then 29 else 28)
  else if ((m =? 4) || (m =? 6) || (m =? 9) || (m =? 11))%Z then 30
  else 31.

(** Days from 1970-01-01 to the civil date [y]-[m]-[d]. *)
Definition days_from_civil (y m d : Z) : Z :=
  let y' := if (m <=? 2)%Z then y - 1 else y in
  let era := y' / 400 in
  let yoe := y' - era * 400 in
  let doy := (153 * (if (2 <? m)%Z then m - 3 else m + 9) + 2) / 5 + d - 1 in
  let doe := yoe * 365 + yoe / 4 - yoe / 100 + doy in
  era * 146097 + doe - 719468.

(** The civil date [(y, m, d)] of a day count. *)
Definition civil_from_days (z : Z) : Z * Z * Z :=
  let z' := z + 719468 in
  let era := z' / 146097 in
  let doe := z' - era * 146097 in
  let yoe := (doe - doe / 1460 + doe / 36524 - doe / 146096) / 365 in
  let doy := doe - (365 * yoe + yoe / 4 - yoe / 100) in
  let mp := (5 * doy + 2) / 153 in
  let d := doy - (153 * mp + 2) / 5 + 1 in
  let m := if (mp <? 10)%Z then mp + 3 else mp - 9 in
  let y := yoe + era * 400 in
  (if (m <=? 2)%Z then y + 1 else y, m, d).

Definition bind_opt {A B} (o : option A) (k : A -> option B) : option B :=
  match o with
  | Some a => k a
  | None => None
  end.

(** The optional [.sss] after the seconds. *)
Definition fraction (s : string) : option (Z * string) :=
  match expect "." s with
  | Some s' => digits 3 0 s'
  | None => Some (0, s)
  end.

Definition parse (s : string) : option Z :=
  bind_opt (digits 4 0 s) (fun '(y, s) =>
  bind_opt (expect "-" s) (fun s =>
  bind_opt (digits 2 0 s) (fun '(m, s) =>
  bind_opt (expect "-" s) (fun s =>
  bind_opt (digits 2 0 s) (fun '(d, s) =>
  bind_opt (expect "T" s) (fun s =>
  bind_opt (digits 2 0 s) (fun '(h, s) =>
  bind_opt (expect ":" s) (fun s =>
  bind_opt (digits 2 0 s) (fun '(mi, s) =>
  bind_opt (expect ":" s) (fun s =>
  bind_opt (digits 2 0 s) (fun '(sec, s) =>
  bind_opt (fraction s) (fun '(ms, s) =>
  if String.eqb s "Z"
     && ((1 <=? m) && (m <=? 12) && (1 <=? d) && (d <=? days_in_month y m)
         && (h <=? 23) && (mi <=? 59) && (sec <=? 59))%Z
  then Some ((((days_from_civil y m d * 24 + h) * 60 + mi) * 60 + sec) * 1000 + ms)
  else None)))))))))))).

Definition pad (n : nat) (z : Z) : string :=
  padStart (Num.toString (Fin z)) n "0".

Definition format (t : Z) : string :=
  let '(y, m, d) := civil_from_days (t / 86400000) in
  let ms := t mod 86400000 in
  pad 4 y ++ "-" ++ pad 2 m ++ "-" ++ pad 2 d ++ "T"
    ++ pad 2 (ms / 3600000) ++ ":" ++ pad 2 (ms / 60000 mod 60) ++ ":"
    ++ pad 2 (ms / 1000 mod 60) ++ "." ++ pad 3 (ms mod 1000) ++ "Z".

End Iso8601.

#[export] Instance iso8601 : DateBuiltins := {|
  Date_parse := Iso8601.parse;
  Date_toISOString := Iso8601.format
|}.

(* ================================================================== *)
(** * More of the language: slices, strings, promises *)

(** [ToIntegerOrInfinity]: the fraction is dropped, NaN is 0. *)
Definition truncate (q : Q) : Z :=
  if Qle_bool 0 q then Qfloor q else Qceiling q.

(** The bound [Array.prototype.slice] derives from an argument: a negative
    index counts from the end, and the result stays within the array. *)
Definition relative_index (len : nat) (i : number Q) : nat :=
  match i with
  | NaN => 0
  | Infinity true => 0
  | Infinity false => len
  | Fin q =>
      if (truncate q <? 0)%Z
      then Z.to_nat (Z.max (Z.of_nat len + truncate q) 0)
      else Nat.min (Z.to_nat (truncate q)) len
  end.

(** [l.slice(start, end)] *)
Definition slice {A : Type} (l : list A) (start end_ : number Q) : list A :=
  let k := relative_index (List.length l) start in
  let final := relative_index (List.length l) end_ in
  firstn (final - k) (skipn k l).

(** [l.slice(start)] *)
Definition slice_from {A : Type} (l : list A) (start : number Q) : list A :=
  skipn (relative_index (List.length l) start) l.

(** [s.includes(needle)] *)
Fixpoint includes (s needle : string) : bool :=
  String.prefix needle s
  || match s with
     | EmptyString => false
     | String _ s' => includes s' needle
     end.

(** [parseInt] and [String.prototype.toLowerCase], whose results depend on
    the Unicode tables. *)
Class StringBuiltins : Type := {
  parseInt : string -> number Z;
  toLowerCase : string -> string
}.

(** [l.map((x, idx) => f idx x)] *)
Fixpoint mapi_from {A B : Type} (f : nat -> A -> B) (i : nat) (l : list A) : list B :=
  match l with
  | [] => []
  | x :: l' => f i x :: mapi_from f (S i) l'
  end.

Definition mapi {A B : Type} (f : nat -> A -> B) (l : list A) : list B :=
  mapi_from f 0 l.

(** [await Promise.all(l)]: the values in order, or a rejection when a
    promise rejects.  Which rejection is reported when several promises
    reject depends on the order they settle in; here it is the first of the
    list. *)
Fixpoint Promise_all {A : Type} (l : list (result A)) : result (list A) :=
  match l with
  | [] => Ok []
  | p :: l' =>
      match p, Promise_all l' with
      | Ok a, Ok rest => Ok (a :: rest)
      | Throw e, _ => Throw e
      | Ok _, Throw e => Throw e
      end
  end.

(** What a handler sends: [res.status(n).end()], [res.status(n).json(body)]
    or [res.status(n).json({ error, ... })].  The CORS headers every handler
    sets first, and the [message] field that carries the text of a caught
    exception, are not represented. *)
Inductive response (A : Type) : Type :=
| End (status : Z)
| Json (status : Z) (body : A)
| Fail (status : Z) (error : string).
Arguments End {A} status.
Arguments Json {A} status body.
Arguments Fail {A} status error.

Definition status_of {A : Type} (r : response A) : Z :=
  match r with
  | End s => s
  | Json s _ => s
  | Fail s _ => s
  end.

(** [try { ... } catch (error) { return res.status(500).json(...) }] *)
Definition catch_500 {A : Type} (error : string) (body : result (response A)) : response A :=
  match body with
  | Ok r => r
  | Throw _ => Fail 500 error
  end.

(** One element of [lookupData.results]: the handlers read the first as a
    podcast and the others as episodes. *)
Module Upstream.
Record t : Type := {
  podcast : RawPodcast.t;
  episode : RawEpisode.t
}.
End Upstream.

(** [const { p = d } = req.query; parseInt(p)]: the default is used when
    the parameter is absent. *)
Definition parse_param `{StringBuiltins} (default : Z) (v : nullable string) : number Z :=
  match v with
  | Undefined => Fin default
  | Null => parseInt "null"
  | Val s => parseInt s
  end.

(* ================================================================== *)
(** * The handler of [api/podcasts/[id].js] (lines 6 to 96) *)

(** [lookup] is what [fetch] and [json()] give for the lookup request:
    [lookupData.results], or an exception. *)
Definition detail_handler `{DateBuiltins} (method : string) (id : nullable string)
    (lookup : result (nullable (list Upstream.t))) : response PodcastDetails.t :=
  if String.eqb method "OPTIONS" then End 200
  else if negb (truthy_str id) then Fail 400 "Podcast ID is required"
  else
    catch_500 "Failed to fetch podcast details"
      (results <- lookup ;;
       match results with
       | Val (first :: rest) =>
           let podcastInfo := Upstream.podcast first in
           let episodes := map Upstream.episode (slice_from (first :: rest) (lit 1)) in
           podcastDetails <- PodcastDetails.normalize podcastInfo episodes ;;
           Ok (Json 200 podcastDetails)
       | _ => Ok (Fail 404 "Podcast not found")
       end).

(* ================================================================== *)
(** * The handler of [api/episodes.js] (lines 177 to 243) *)

Module EpisodesPage.
Record t : Type := {
  podcast_id : string;
  total_episodes : nat;
  offset : number Z;
  limit : number Z;
  episodes : list Episode.t;
  analytics : nullable EpisodeAnalytics.t
}.
End EpisodesPage.

(** [episodes.slice(parseInt(offset), parseInt(offset) + parseInt(limit))] *)
Definition paginate {A : Type} (episodes : list A) (offset limit : number Z) : list A :=
  slice episodes (Num.of_int offset) (Num.of_int offset + Num.of_int limit)%js.

Definition episodes_handler `{DateBuiltins} `{StringBuiltins} (method : string)
    (podcast_id limit offset : nullable string)
    (lookup : result (nullable (list Upstream.t))) : response EpisodesPage.t :=
  if String.eqb method "OPTIONS" then End 200
  else if negb (truthy_str podcast_id) then Fail 400 "podcast_id is required"
  else
    catch_500 "Failed to fetch episodes"
      (results <- lookup ;;
       match results with
       | Val (first :: rest) =>
           let episodes :=
             map (fun r => Episode.normalize (Upstream.episode r))
                 (slice_from (first :: rest) (lit 1)) in
           let total := List.length episodes in
           let paginatedEpisodes :=
             paginate episodes (parse_param 0 offset) (parse_param 100 limit) in
           analytics <- generateEpisodeAnalytics episodes ;;
           Ok (Json 200 {|
             EpisodesPage.podcast_id := ToPropertyKey podcast_id;
             EpisodesPage.total_episodes := total;
             EpisodesPage.offset := parse_param 0 offset;
             EpisodesPage.limit := parse_param 100 limit;
             EpisodesPage.episodes := paginatedEpisodes;
             EpisodesPage.analytics := analytics
           |})
       | _ => Ok (Fail 404 "Podcast not found")
       end).

(* ================================================================== *)
(** * The handler of [api/search/episodes.js] ([src/unnamed/part_000]) *)

Module EpisodeSearch.
Record t : Type := {
  results : list SearchEpisode.t;
  result_count : nat;
  query : string;
  podcast_id : nullable string
}.

(** [v?.toLowerCase().includes(queryLower)], as a condition. *)
Definition mentions `{StringBuiltins} (queryLower : string) (v : nullable string) : bool :=
  match v with
  | Val s => includes (toLowerCase s) queryLower
  | _ => false
  end.

(** The filter of lines 78 to 81. *)
Definition matches `{StringBuiltins} (queryLower : string) (ep : SearchEpisode.t) : bool :=
  mentions queryLower (SearchEpisode.title ep)
  || mentions queryLower (SearchEpisode.description ep).

(** The comparator of line 85:
    [(a, b) => new Date(b.release_date) - new Date(a.release_date)]. *)
Definition by_release `{DateBuiltins} (a b : SearchEpisode.t) : number Q :=
  newest_first (new_Date (SearchEpisode.release_date a))
               (new_Date (SearchEpisode.release_date b)).

(** Lines 44 to 82: filter, normalize, search within the podcast. *)
Definition candidates `{StringBuiltins} (query : string)
    (podcast_id : nullable string) (data : list RawEpisode.t) : list SearchEpisode.t :=
  let episodes := SearchEpisode.normalize_all data in
  if truthy_str podcast_id && negb (String.eqb query "")
  then filter (matches (toLowerCase query)) episodes
  else episodes.

(** Lines 44 to 85: the candidates, sorted.  When a release date is invalid
    the comparator returns NaN and the language leaves the order to the
    engine; [sort] then gives one such order. *)
Definition select `{DateBuiltins} `{StringBuiltins} (query : string)
    (podcast_id : nullable string) (data : list RawEpisode.t) : list SearchEpisode.t :=
  sort by_release (candidates query podcast_id data).

(** The time value of a valid release date. *)
Definition release_time `{DateBuiltins} (ep : SearchEpisode.t) : Z :=
  match new_Date (SearchEpisode.release_date ep) with
  | Some t => t
  | None => 0
  end.

(** The episode was released at time value [t]. *)
Definition released_at `{DateBuiltins} (t : Z) (ep : SearchEpisode.t) : bool :=
  match new_Date (SearchEpisode.release_date ep) with
  | Some u => (u =? t)%Z
  | None => false
  end.

(** [a] is not older than [b], both release dates being valid. *)
Definition not_older `{DateBuiltins} (a b : SearchEpisode.t) : Prop :=
  exists t u,
    new_Date (SearchEpisode.release_date a) = Some t
    /\ new_Date (SearchEpisode.release_date b) = Some u
    /\ u <= t.

Definition handler `{DateBuiltins} `{StringBuiltins} (method : string)
    (query podcast_id : nullable string)
    (search : result (nullable (list RawEpisode.t))) : response t :=
  if String.eqb method "OPTIONS" then End 200
  else if negb (truthy_str query) then Fail 400 "Query parameter is required"
  else
    catch_500 "Failed to search episodes"
      (data <- search ;;
       match data with
       | Val (first :: rest) =>
           let episodes := select (ToPropertyKey query) podcast_id (first :: rest) in
           Ok (Json 200 {|
             results := episodes;
             result_count := List.length episodes;
             query := ToPropertyKey query;
             podcast_id := if truthy_str podcast_id then podcast_id else Null
           |})
       | _ =>
           Ok (Json 200 {|
             results := [];
             result_count := 0;
             query := ToPropertyKey query;
             podcast_id := Undefined
           |})
       end).
End EpisodeSearch.

(* ================================================================== *)
(** * The handler of [api/search/podcasts.js] ([src/unnamed/part_001]) *)

Module PodcastSearch.

(** A search result; [genreIds] is read by this handler only. *)
Record podcast_t : Type := {
  info : RawPodcast.t;
  genreIds : nullable (list string)
}.

Record artwork_t : Type := {
  small : nullable string;
  medium : nullable string;
  large : nullable string
}.

Record recent_t : Type := {
  recent_id : nullable string;
  recent_title : nullable string;
  recent_description : nullable string;
  recent_release_date : nullable string;
  recent_duration : nullable (number Q);
  recent_url : nullable string
}.

Record enriched_t : Type := {
  id : string;
  name : nullable string;
  publisher : nullable string;
  description : nullable string;
  artwork : artwork_t;
  feed_url : nullable string;
  itunes_url : nullable string;
  genres : list (nullable string);
  primary_genre : nullable string;
  episode_count : number Q;
  country : nullable string;
  language : string;
  release_date : nullable string;
  content_rating : string;
  estimated_listeners : number Z;
  recent_episodes : list recent_t
}.

(** A result of the search: the enriched podcast, or the minimal record of
    the [catch] block, whose [error] is ['Partial data available']. *)
Inductive item : Type :=
| Enriched (e : enriched_t)
| Partial (id : string) (name publisher : nullable string).

Record t : Type := {
  results : list item;
  result_count : nat;
  query : string
}.

Definition recent (ep : RawEpisode.t) : recent_t := {|
  recent_id := toString_opt (RawEpisode.trackId ep);
  recent_title := RawEpisode.trackName ep;
  recent_description := RawEpisode.description ep;
  recent_release_date := RawEpisode.releaseDate ep;
  recent_duration := RawEpisode.trackTimeMillis ep;
  recent_url := RawEpisode.trackViewUrl ep
|}.

(** [podcast.genreIds?.map((id, idx) => podcast.genres?.[idx]) || []] *)
Definition genres_of (podcast : podcast_t) : list (nullable string) :=
  match genreIds podcast with
  | Val ids =>
      mapi (fun idx _ =>
              match RawPodcast.genres (info podcast) with
              | Val g => match nth_error g idx with
                         | Some s => Val s
                         | None => Undefined
                         end
              | _ => Undefined
              end)
           ids
  | _ => []
  end.

(** The [try] block of lines 32 to 72; [lookup] is [lookupData.results] or
    the exception of the request. *)
Definition attempt (podcast : podcast_t)
    (lookup : result (nullable (list RawEpisode.t))) : result item :=
  results <- lookup ;;
  let recentEpisodes :=
    match results with
    | Val l => slice l (lit 1) (lit 6)
    | _ => []
    end in
  let estimatedListeners :=
    estimateListeners (RawPodcast.trackCount (info podcast))
                      (RawPodcast.primaryGenreName (info podcast)) in
  id_ <- toString_req (RawPodcast.collectionId (info podcast)) ;;
  Ok (Enriched {|
    id := id_;
    name := RawPodcast.collectionName (info podcast);
    publisher := RawPodcast.artistName (info podcast);
    description := RawPodcast.collectionCensoredName (info podcast);
    artwork := {| small := RawPodcast.artworkUrl60 (info podcast);
                  medium := RawPodcast.artworkUrl100 (info podcast);
                  large := RawPodcast.artworkUrl600 (info podcast) |};
    feed_url := RawPodcast.feedUrl (info podcast);
    itunes_url := RawPodcast.collectionViewUrl (info podcast);
    genres := genres_of podcast;
    primary_genre := RawPodcast.primaryGenreName (info podcast);
    episode_count := or_num (RawPodcast.trackCount (info podcast)) (lit 0);
    country := RawPodcast.country (info podcast);
    language :=
      or_default (first_opt (RawPodcast.languageCodesISO2A (info podcast))) "en";
    release_date := RawPodcast.releaseDate (info podcast);
    content_rating :=
      or_default (RawPodcast.contentAdvisoryRating (info podcast)) "clean";
    estimated_listeners := estimatedListeners;
    recent_episodes := map recent recentEpisodes
  |}).

(** The [try] with its [catch] of lines 73 to 81, which reads
    [podcast.collectionId.toString()] again. *)
Definition enrich (podcast : podcast_t)
    (lookup : result (nullable (list RawEpisode.t))) : result item :=
  match attempt podcast lookup with
  | Ok r => Ok r
  | Throw _ =>
      id_ <- toString_req (RawPodcast.collectionId (info podcast)) ;;
      Ok (Partial id_ (RawPodcast.collectionName (info podcast))
                  (RawPodcast.artistName (info podcast)))
  end.

(** [search] is [itunesData.results] or the exception of the search
    request; [lookup i] is the same for the lookup of the [i]-th result. *)
Definition handler (method : string) (query : nullable string)
    (search : result (nullable (list podcast_t)))
    (lookup : nat -> result (nullable (list RawEpisode.t))) : response t :=
  if String.eqb method "OPTIONS" then End 200
  else if negb (truthy_str query) then Fail 400 "Query parameter is required"
  else
    catch_500 "Failed to search podcasts"
      (data <- search ;;
       enrichedResults <-
         Promise_all (mapi (fun i podcast => enrich podcast (lookup i)) (or_nil data)) ;;
       Ok (Json 200 {|
         results := enrichedResults;
         result_count := List.length enrichedResults;
         query := ToPropertyKey query
       |})).

End PodcastSearch.

(* ================================================================== *)
(** * An instance of the string builtins

    [parseInt] and [toLowerCase] on strings of ASCII characters. *)

Module AsciiStrings.

Definition is_space (c : ascii) : bool :=
  let n := nat_of_ascii c in
  ((9 <=? n) && (n <=? 13) || (n =? 32))%nat.

Fixpoint trim_start (s : string) : string :=
  match s with
  | String c s' => if is_space c then trim_start s' else s
  | EmptyString => s
  end.

(** The value of a digit in the given radix. *)
Definition digit (radix : Z) (c : ascii) : option Z :=
  let n := Z.of_nat (nat_of_ascii c) in
  let v := if ((48 <=? n) && (n <=? 57))%Z then Some (n - 48)
           else if ((97 <=? n) && (n <=? 122))%Z then Some (n - 87)
           else if ((65 <=? n) && (n <=? 90))%Z then Some (n - 55)
           else None in
  match v with
  | Some d => if (d <? radix)%Z then Some d else None
  | None => None
  end.

(** The value of the longest prefix of digits; [acc] is [None] until a
    digit is read. *)
Fixpoint digits (radix : Z) (acc : option Z) (s : string) : option Z :=
  match s with
  | String c s' =>
      match digit radix c with
      | Some d =>
          digits radix (Some (radix * match acc with Some a => a | None => 0 end + d)) s'
      | None => acc
      end
  | EmptyString => acc
  end.

Definition parseInt (s : string) : number Z :=
  let s := trim_start s in
  let '(negative, s) :=
    match s with
    | String "-" s' => (true, s')
    | String "+" s' => (false, s')
    | _ => (false, s)
    end in
  let '(radix, s) :=
    match s with
    | String "0" (String "x" s') => (16, s')
    | String "0" (String "X" s') => (16, s')
    | _ => (10, s)
    end in
  match digits radix None s with
  | Some n => Fin (if negative then - n else n)
  | None => NaN
  end.

Definition lower (c : ascii) : ascii :=
  let n := nat_of_ascii c in
  if ((65 <=? n) && (n <=? 90))%nat then ascii_of_nat (n + 32) else c.

Fixpoint toLowerCase (s : string) : string :=
  match s with
  | String c s' => String (lower c) (toLowerCase s')
  | EmptyString => EmptyString
  end.

End AsciiStrings.

#[export] Instance ascii_strings : StringBuiltins := {|
  parseInt := AsciiStrings.parseInt;
  toLowerCase := AsciiStrings.toLowerCase
|}.

(* ================================================================== *)
(** * The specification's wording

    Definitions written from the sentences of the specification, to be
    compared with the functions above; [timestamps], [reported_days] and
    [reported_label] name what the analyzers keep and report, for the
    statements about them. *)

Module Spec.

(** [{n:02}]: at least two digits. *)
Definition two_digits (z : Z) : string :=
  if ((0 <=? z) && (z <? 10))%Z
  then "0" ++ Num.toString (Fin z)
  else Num.toString (Fin z).

(** Section 4.1 on a finite number of milliseconds. *)
Definition formatSeconds (totalSeconds : Z) : string :=
  let hours := totalSeconds / 3600 in
  let minutes := Z.rem totalSeconds 3600 / 60 in
  let seconds := Z.rem totalSeconds 60 in
  if (0 <? hours)%Z
  then Num.toString (Fin hours) ++ ":" ++ two_digits minutes ++ ":" ++ two_digits seconds
  else Num.toString (Fin minutes) ++ ":" ++ two_digits seconds.

(** Section 4.1 on a number that is not falsy; on an infinite input the
    hours are infinite and minutes and seconds are NaN. *)
Definition formatDuration (ms : number Q) : string :=
  match ms with
  | Fin q => formatSeconds (Qfloor (q / inject_Z 1000))
  | Infinity false => "Infinity:NaN:NaN"
  | Infinity true => "NaN:NaN"
  | NaN => "NaN:NaN"
  end.

(** Reverse parsing of [H:MM:SS] and [M:SS]. *)
Fixpoint split_colon (s : string) : list string :=
  match s with
  | EmptyString => [""]
  | String c s' =>
      if Ascii.eqb c ":" then "" :: split_colon s'
      else match split_colon s' with
           | part :: parts => String c part :: parts
           | [] => [String c ""]
           end
  end.

Fixpoint colon_free (s : string) : Prop :=
  match s with
  | EmptyString => True
  | String c s' => c <> ":"%char /\ colon_free s'
  end.

Definition parse_int (s : string) : option Z :=
  option_map Z.of_int (NilZero.int_of_string s).

Definition parseDuration (s : string) : option Z :=
  match map parse_int (split_colon s) with
  | [Some h; Some m; Some sec] => Some (h * 3600 + m * 60 + sec)
  | [Some m; Some sec] => Some (m * 60 + sec)
  | _ => None
  end.

(** The time values of the release dates the analyzers keep. *)
Definition timestamps `{DateBuiltins} (stamps : list (nullable string)) : list Z :=
  flat_map (fun v => match new_Date v with Some t => [t] | None => [] end) stamps.

(** Most recent first. *)
Fixpoint insert_desc (x : Z) (l : list Z) : list Z :=
  match l with
  | [] => [x]
  | y :: l' => if (x <? y)%Z then y :: insert_desc x l' else x :: l
  end.

Definition descending (l : list Z) : list Z := fold_right insert_desc [] l.

(** [f] on every pair of neighbours. *)
Fixpoint adjacent {A B : Type} (f : A -> A -> B) (l : list A) : list B :=
  match l with
  | a :: (b :: _) as rest => f a b :: adjacent f rest
  | _ => []
  end.

(** Consecutive-pair gaps, in days. *)
Definition gap (a b : Z) : Q := (inject_Z (a - b) / inject_Z 86400000)%Q.

Definition gaps (ts : list Z) : list Q := adjacent gap ts.

Definition total (l : list Q) : Q := fold_right Qplus 0%Q l.

Definition mean (l : list Q) : Q :=
  (total l / inject_Z (Z.of_nat (List.length l)))%Q.

(** The average over at most the first [K] pairs. *)
Definition window_mean (K : nat) (ts : list Z) : Q :=
  mean (firstn K (gaps (descending ts))).

Definition round (q : Q) : Z := Qfloor (q + (1 # 2))%Q.

(** Section 4.2, step 5; [few] is the wording of the second bucket. *)
Definition label (few : string) (avg : Q) : string :=
  if Qle_bool avg (3 # 2) then "daily"
  else if Qle_bool avg (4 # 1) then few
  else if Qle_bool avg (9 # 1) then "weekly"
  else if Qle_bool avg (18 # 1) then "biweekly"
  else if Qle_bool avg (35 # 1) then "monthly"
  else "irregular".

(** What the analyzers report for an average [m]: the rounded average
    and its label, a zero average counting as no average. *)
Definition reported_days (m : Q) : nullable (number Z) :=
  if Qeq_bool m 0 then Null else Val (Fin (round m)).

Definition reported_label (few : string) (m : Q) : string :=
  if Qeq_bool m 0 then "unknown" else label few m.

(** Section 4.3, the search-context table. *)
Definition search_multiplier (genre : string) : Z :=
  if String.eqb genre "True Crime" then 15000
  else if String.eqb genre "News" then 12000
  else if String.eqb genre "Comedy" then 10000
  else if String.eqb genre "Business" then 8000
  else if String.eqb genre "Technology" then 7000
  else if String.eqb genre "Sports" then 9000
  else if String.eqb genre "Health & Fitness" then 6000
  else if String.eqb genre "Education" then 5000
  else if String.eqb genre "Society & Culture" then 5500
  else 4000.

(** [floor(multiplier * (1 + min(episodeCount/100, 5)))] *)
Definition listeners (multiplier episodeCount : Z) : Z :=
  Qfloor (inject_Z multiplier
          * (1 + Qmin (inject_Z episodeCount / inject_Z 100) (inject_Z 5)))%Q.

(** Section 4.3, the detail-context table. *)
Definition detail_multiplier (genre : string) : Q :=
  (if String.eqb genre "True Crime" then 5 # 2
   else if String.eqb genre "News" then 2 # 1
   else if String.eqb genre "Comedy" then 9 # 5
   else if String.eqb genre "Business" then 8 # 5
   else if String.eqb genre "Technology" then 3 # 2
   else if String.eqb genre "Sports" then 17 # 10
   else if String.eqb genre "Health & Fitness" then 7 # 5
   else 1 # 1)%Q.

(** [floor(5000 * multiplier * log10(episodeCount + 1))] *)
Definition weekly_listeners (multiplier : Q) (episodeCount : nat) : Z :=
  Int_part (5000 * Q2R multiplier * (ln (INR episodeCount + 1) / ln 10))%R.

(** [floor(weeklyListeners * 0.7)] *)
Definition downloads (weeklyListeners : Z) : Z :=
  Int_part (IZR weeklyListeners * (7 / 10))%R.

End Spec.

(* ================================================================== *)
(** * Sample records *)

Definition episode_at (release : nullable string) (ms : nullable (number Q))
  : Episode.t := {|
  Episode.id := Undefined;
  Episode.title := Undefined;
  Episode.description := Undefined;
  Episode.release_date := release;
  Episode.duration_ms := ms;
  Episode.duration_formatted := formatDuration ms;
  Episode.url := Undefined;
  Episode.audio_url := Undefined;
  Episode.artwork := Undefined
|}.

Definition raw_episode_at (release : nullable string) (ms : nullable (number Q))
  : RawEpisode.t := {|
  RawEpisode.trackId := Undefined;
  RawEpisode.collectionId := Undefined;
  RawEpisode.collectionName := Undefined;
  RawEpisode.artistName := Undefined;
  RawEpisode.trackName := Undefined;
  RawEpisode.description := Undefined;
  RawEpisode.releaseDate := release;
  RawEpisode.trackTimeMillis := ms;
  RawEpisode.trackViewUrl := Undefined;
  RawEpisode.episodeUrl := Undefined;
  RawEpisode.previewUrl := Undefined;
  RawEpisode.artworkUrl60 := Undefined;
  RawEpisode.artworkUrl160 := Undefined;
  RawEpisode.artworkUrl600 := Undefined;
  RawEpisode.contentAdvisoryRating := Undefined;
  RawEpisode.country := Undefined;
  RawEpisode.genres := Undefined;
  RawEpisode.primaryGenreName := Undefined;
  RawEpisode.kind := Undefined;
  RawEpisode.wrapperType := Undefined
|}.

Definition podcast_of_genre (genre : nullable string) : RawPodcast.t := {|
  RawPodcast.collectionId := Val 1;
  RawPodcast.collectionName := Undefined;
  RawPodcast.artistName := Undefined;
  RawPodcast.collectionCensoredName := Undefined;
  RawPodcast.artworkUrl60 := Undefined;
  RawPodcast.artworkUrl100 := Undefined;
  RawPodcast.artworkUrl600 := Undefined;
  RawPodcast.feedUrl := Undefined;
  RawPodcast.collectionViewUrl := Undefined;
  RawPodcast.genres := Undefined;
  RawPodcast.primaryGenreName := genre;
  RawPodcast.trackCount := Undefined;
  RawPodcast.releaseDate := Undefined;
  RawPodcast.country := Undefined;
  RawPodcast.languageCodesISO2A := Undefined;
  RawPodcast.contentAdvisoryRating := Undefined
|}.

Definition day : Z := 86400000.

(** 2024-01-08T00:00:00Z *)
Definition monday : Z := 1704672000000.

(** One episode per time value, stamped as [toISOString] prints it. *)
Definition episodes_at (times : list Z) : list Episode.t :=
  map (fun t => episode_at (Val (Iso8601.format t)) (Val (lit 1800000))) times.

Definition raw_episodes_at (times : list Z) : list RawEpisode.t :=
  map (fun t => raw_episode_at (Val (Iso8601.format t)) (Val (lit 1800000))) times.

(** Three episodes a week apart. *)
Definition weekly_times : list Z := [monday; monday - 7 * day; monday - 14 * day].

(** Two episodes released at the same instant. *)
Definition same_instant_times : list Z := [monday; monday].

(** 21 episodes a day apart. *)
Definition daily_times : list Z :=
  map (fun i => monday - day * Z.of_nat i) (seq 0 21).

(** The same 21 episodes, then a gap of 1000 days and four older episodes
    a day apart: 25 episodes, the long gap being the 21st pair. *)
Definition long_gap_times : list Z :=
  daily_times
  ++ map (fun i => monday - day * 1020 - day * Z.of_nat i) (seq 0 4).

(** Two dated episodes a week apart and one whose release date is null. *)
Definition null_date_episodes : list Episode.t :=
  episodes_at [monday; monday - 7 * day] ++ [episode_at Null (Val (lit 1800000))].

Definition null_date_raw_episodes : list RawEpisode.t :=
  raw_episodes_at [monday; monday - 7 * day]
  ++ [raw_episode_at Null (Val (lit 1800000))].

(** A hit of the episode search: an episode with a title, released at
    time value [t]. *)
Definition search_hit (title : string) (t : Z) : RawEpisode.t := {|
  RawEpisode.trackId := Undefined;
  RawEpisode.collectionId := Undefined;
  RawEpisode.collectionName := Undefined;
  RawEpisode.artistName := Undefined;
  RawEpisode.trackName := Val title;
  RawEpisode.description := Undefined;
  RawEpisode.releaseDate := Val (Iso8601.format t);
  RawEpisode.trackTimeMillis := Val (lit 1800000);
  RawEpisode.trackViewUrl := Undefined;
  RawEpisode.episodeUrl := Undefined;
  RawEpisode.previewUrl := Undefined;
  RawEpisode.artworkUrl60 := Undefined;
  RawEpisode.artworkUrl160 := Undefined;
  RawEpisode.artworkUrl600 := Undefined;
  RawEpisode.contentAdvisoryRating := Undefined;
  RawEpisode.country := Undefined;
  RawEpisode.genres := Undefined;
  RawEpisode.primaryGenreName := Undefined;
  RawEpisode.kind := Val "podcast-episode";
  RawEpisode.wrapperType := Undefined
|}.

(** Three hits, two of them released at the same instant, and a result
    that is not an episode. *)
Definition search_hits : list RawEpisode.t :=
  [search_hit "Older news" (monday - 7 * day);
   search_hit "News" monday;
   raw_episode_at Undefined Undefined;
   search_hit "More NEWS" monday].

(** A search result of the podcast search with the given [collectionId]
    and [trackCount]. *)
Definition found_podcast (id : nullable Z) (trackCount : nullable (number Q))
  : PodcastSearch.podcast_t := {|
  PodcastSearch.info := {|
    RawPodcast.collectionId := id;
    RawPodcast.collectionName := Val "A podcast";
    RawPodcast.artistName := Undefined;
    RawPodcast.collectionCensoredName := Undefined;
    RawPodcast.artworkUrl60 := Undefined;
    RawPodcast.artworkUrl100 := Undefined;
    RawPodcast.artworkUrl600 := Undefined;
    RawPodcast.feedUrl := Undefined;
    RawPodcast.collectionViewUrl := Undefined;
    RawPodcast.genres := Val ["News"; "Podcasts"];
    RawPodcast.primaryGenreName := Val "News";
    RawPodcast.trackCount := trackCount;
    RawPodcast.releaseDate := Undefined;
    RawPodcast.country := Undefined;
    RawPodcast.languageCodesISO2A := Undefined;
    RawPodcast.contentAdvisoryRating := Undefined
  |};
  PodcastSearch.genreIds := Val ["1489"; "26"; "1311"]
|}.

(** The results of a lookup: the podcast, then its episodes. *)
Definition lookup_of (podcast : RawPodcast.t) (episodes : list RawEpisode.t)
  : list Upstream.t :=
  {| Upstream.podcast := podcast; Upstream.episode := raw_episode_at Undefined Undefined |}
  :: map (fun ep => {| Upstream.podcast := podcast_of_genre Undefined;
                       Upstream.episode := ep |})
         episodes.

(* ================================================================== *)
(** * Tactics for the genre tables *)

(** Split on the next key of a table literal. *)
Ltac table_entry key :=
  match goal with
  | |- context [String.eqb ?k key] =>
      destruct (String.eqb_spec k key) as [<- | ?]; [reflexivity |]
  end.

(** Resolve the comparisons of the specification's table. *)
Ltac spec_entries key :=
  repeat match goal with
         | N : ?k <> key |- context [String.eqb key ?k] =>
             rewrite (proj2 (String.eqb_neq key k)) by congruence
         end.


(* ================================================================== *)
(** * Evaluation on sample inputs *)

Example iso8601_parse_epoch : Iso8601.parse "1970-01-01T00:00:00Z" = Some 0.
Proof. reflexivity. Qed.

Example iso8601_parse_2024 :
  Iso8601.parse "2024-01-08T00:00:00Z" = Some 1704672000000.
Proof. reflexivity. Qed.

Example iso8601_format_2024 :
  Iso8601.format 1704672000000 = "2024-01-08T00:00:00.000Z".
Proof. vm_compute. reflexivity. Qed.

Example iso8601_roundtrip_2024 :
  Iso8601.parse (Iso8601.format 1704672000123) = Some 1704672000123.
Proof. vm_compute. reflexivity. Qed.

Example formatDuration_negative : formatDuration (Val (lit (-500000))) = "-9:-20".
Proof. vm_compute. reflexivity. Qed.

Example formatDuration_infinite :
  formatDuration (Val (Infinity false)) = "Infinity:NaN:NaN".
Proof. vm_compute. reflexivity. Qed.

(* ================================================================== *)
(** * Arithmetic on finite numbers *)

Lemma Qeq_bool_inject_Z_pos (p : positive) : Qeq_bool (inject_Z (Zpos p)) 0 = false.
Proof. reflexivity. Qed.

Lemma div_Fin_pos (x : Q) (p : positive) :
  (Fin x / lit (Zpos p))%js = Fin (x / inject_Z (Zpos p))%Q.
Proof. reflexivity. Qed.

Lemma Qfloor_div_pos (a : Z) (p : positive) :
  Qfloor (inject_Z a / inject_Z (Zpos p)) = a / Zpos p.
Proof.
  unfold Qdiv, Qmult, Qinv, inject_Z, Qfloor; simpl.
  now rewrite Z.mul_1_r.
Qed.

Lemma floor_div_pos (a : Z) (p : positive) :
  Math_floor (Num.of_int (Fin a) / lit (Zpos p))%js = Fin (a / Zpos p).
Proof.
  cbn [Num.of_int]. rewrite div_Fin_pos. cbn [Math_floor].
  now rewrite Qfloor_div_pos.
Qed.

Lemma rem_Fin_pos (a : Z) (p : positive) :
  (Fin a rem Fin (Zpos p))%js = Fin (Z.rem a (Zpos p)).
Proof. reflexivity. Qed.

Lemma compare_Fin (x y : Q) :
  Num.compare (Fin x) (Fin y)
  = Some (if Qle_bool x y then (if Qle_bool y x then Eq else Lt) else Gt).
Proof.
  unfold Num.compare. f_equal.
  destruct (Qcompare_spec x y) as [C | C | C].
  - assert (H1 : Qle_bool x y = true) by (apply Qle_bool_iff; rewrite C; apply Qle_refl).
    assert (H2 : Qle_bool y x = true) by (apply Qle_bool_iff; rewrite C; apply Qle_refl).
    now rewrite H1, H2.
  - assert (H1 : Qle_bool x y = true) by (now apply Qle_bool_iff, Qlt_le_weak).
    rewrite H1. destruct (Qle_bool y x) eqn:H2; trivial.
    apply Qle_bool_iff in H2. now apply Qlt_not_le in C.
  - destruct (Qle_bool x y) eqn:H1; trivial.
    apply Qle_bool_iff in H1. now apply Qlt_not_le in C.
Qed.

Lemma gt_Fin (x y : Q) : (Fin x > Fin y)%js = negb (Qle_bool x y).
Proof.
  unfold Num.gt. rewrite compare_Fin.
  now destruct (Qle_bool x y), (Qle_bool y x).
Qed.

Lemma le_Fin (x y : Q) : (Fin x <= Fin y)%js = Qle_bool x y.
Proof.
  unfold Num.le. rewrite compare_Fin.
  now destruct (Qle_bool x y), (Qle_bool y x).
Qed.

Lemma gt_zero_int (z : Z) : (Num.of_int (Fin z) > lit 0)%js = (0 <? z).
Proof.
  cbn [Num.of_int]. unfold lit. rewrite gt_Fin.
  destruct (0 <? z) eqn:E.
  - apply Z.ltb_lt in E. destruct (Qle_bool (inject_Z z) (inject_Z 0)) eqn:L; trivial.
    apply Qle_bool_iff in L. rewrite <- Zle_Qle in L. lia.
  - apply Z.ltb_ge in E. rewrite (Zle_Qle z 0) in E.
    apply Qle_bool_iff in E. now rewrite E.
Qed.

(* ================================================================== *)
(** * Decimal strings *)

Lemma to_int_proper (z : Z) :
  Z.to_int z <> Decimal.Pos Decimal.Nil /\ Z.to_int z <> Decimal.Neg Decimal.Nil.
Proof.
  destruct z as [|p|p]; simpl; split; try discriminate;
    intros [= H]; now apply (DecimalPos.Unsigned.to_uint_nonnil p).
Qed.

Lemma parse_toString (z : Z) : Spec.parse_int (Num.toString (Fin z)) = Some z.
Proof.
  unfold Spec.parse_int, Num.toString.
  destruct (to_int_proper z) as [H1 H2].
  rewrite (NilZero.isi _ H1 H2). simpl. now rewrite DecimalZ.of_to.
Qed.

Lemma toString_digit (z : Z) :
  0 <= z < 10 -> Num.toString (Fin z) = String (ascii_of_nat (48 + Z.to_nat z)) "".
Proof.
  intros H.
  assert (E : z = 0 \/ z = 1 \/ z = 2 \/ z = 3 \/ z = 4 \/ z = 5 \/ z = 6 \/ z = 7
              \/ z = 8 \/ z = 9) by lia.
  repeat (destruct E as [-> | E]; [reflexivity | ]). now subst.
Qed.

Lemma toString_short (z : Z) :
  (String.length (Num.toString (Fin z)) <= 1)%nat -> 0 <= z < 10.
Proof.
  intros L. pose proof (parse_toString z) as P.
  destruct (Num.toString (Fin z)) as [|c [|c' s]].
  - discriminate P.
  - destruct c as [[] [] [] [] [] [] [] []]; vm_compute in P;
      first [discriminate P | injection P as <-; lia].
  - simpl in L. lia.
Qed.

Lemma padStart_two_digits (z : Z) :
  padStart (Num.toString (Fin z)) 2 "0" = Spec.two_digits z.
Proof.
  unfold Spec.two_digits, padStart.
  destruct ((0 <=? z) && (z <? 10)) eqn:E.
  - assert (H : 0 <= z < 10) by lia.
    rewrite (toString_digit z H). reflexivity.
  - destruct (2 <=? String.length (Num.toString (Fin z)))%nat eqn:L; trivial.
    apply Nat.leb_gt in L.
    assert (0 <= z < 10) by (apply toString_short; lia). lia.
Qed.

(* ================================================================== *)
(** * formatDuration *)

Lemma formatDuration_finite (q : Q) :
  Qeq_bool q 0 = false ->
  formatDuration (Val (Fin q)) = Spec.formatSeconds (Qfloor (q / inject_Z 1000)).
Proof.
  intros T. unfold formatDuration, Spec.formatSeconds.
  cbn [truthy_num Num.truthy ToNumber]. rewrite T. cbn [negb].
  rewrite div_Fin_pos. cbn [Math_floor].
  set (t := Qfloor (q / inject_Z 1000)).
  rewrite !rem_Fin_pos, !floor_div_pos, gt_zero_int, !padStart_two_digits.
  reflexivity.
Qed.

Lemma formatDuration_truthy (n : number Q) :
  Num.truthy n = true -> formatDuration (Val n) = Spec.formatDuration n.
Proof.
  destruct n as [|[]|q]; intros T.
  - discriminate T.
  - reflexivity.
  - reflexivity.
  - simpl in T. apply negb_true_iff in T. now apply formatDuration_finite.
Qed.

Lemma falsy_cases (ms : nullable (number Q)) :
  truthy_num ms = false <->
  ms = Undefined \/ ms = Null \/ ms = Val NaN \/ exists q, ms = Val (Fin q) /\ (q == 0)%Q.
Proof.
  split.
  - destruct ms as [| |[|s|q]]; simpl; intros H; auto; try discriminate.
    right; right; right. exists q. split; trivial.
    apply negb_false_iff in H. now apply Qeq_bool_iff.
  - intros [-> | [-> | [-> | (q & -> & H)]]]; trivial.
    simpl. apply negb_false_iff. now apply Qeq_bool_iff.
Qed.



(* ================================================================== *)
(** * The two frequency classifiers *)

Lemma le_neg_infinity (y : Q) : (Infinity true <= Fin y)%js = true.
Proof. reflexivity. Qed.

Lemma le_pos_infinity (y : Q) : (Infinity false <= Fin y)%js = false.
Proof. reflexivity. Qed.

Lemma classifiers_on_Fin (few : string) (q : Q) :
  Qeq_bool q 0 = false ->
  estimateSchedule (Val (Fin q)) = Spec.label "2-3 times per week" q
  /\ estimateFrequency (Val (Fin q)) = Spec.label "multiple times per week" q.
Proof.
  intros T. unfold estimateSchedule, estimateFrequency, Spec.label, lit.
  cbn [truthy_num Num.truthy ToNumber]. rewrite T. cbn [negb].
  rewrite !le_Fin. split; reflexivity.
Qed.

(** C9.  The classifier of the podcast-detail endpoint and the one of the
    episode-list endpoint give the same label on every input, falsy inputs
    included (both give ["unknown"]), except on a number in (1.5, 4], where
    the first says ["2-3 times per week"] and the second
    ["multiple times per week"]. *)
Theorem classifiers_agree (avgDays : nullable (number Q)) :
  (truthy_num avgDays = false ->
     estimateSchedule avgDays = "unknown" /\ estimateFrequency avgDays = "unknown")
  /\ (forall q, avgDays = Val (Fin q) -> (3 # 2 < q)%Q -> (q <= 4 # 1)%Q ->
        estimateSchedule avgDays = "2-3 times per week"
        /\ estimateFrequency avgDays = "multiple times per week")
  /\ ((forall q, avgDays = Val (Fin q) -> ~ ((3 # 2 < q)%Q /\ (q <= 4 # 1)%Q)) ->
        estimateSchedule avgDays = estimateFrequency avgDays).
Proof.
  split; [| split].
  - intros F. unfold estimateSchedule, estimateFrequency. now rewrite F.
  - intros q -> L U.
    assert (T : Qeq_bool q 0 = false).
    { destruct (Qeq_bool q 0) eqn:E; trivial. apply Qeq_bool_iff in E.
      rewrite E in L. discriminate L. }
    destruct (classifiers_on_Fin "" q T) as [-> ->]. unfold Spec.label.
    assert (L' : Qle_bool q (3 # 2) = false).
    { destruct (Qle_bool q (3 # 2)) eqn:E; trivial. apply Qle_bool_iff in E.
      now apply Qlt_not_le in L. }
    apply Qle_bool_iff in U. rewrite L', U. split; reflexivity.
  - intros H. destruct avgDays as [| |[|[]|q]]; try reflexivity.
    destruct (Qeq_bool q 0) eqn:T.
    + unfold estimateSchedule, estimateFrequency. simpl. now rewrite T.
    + destruct (classifiers_on_Fin "" q T) as [-> ->]. unfold Spec.label.
      destruct (Qle_bool q (3 # 2)) eqn:L; trivial.
      destruct (Qle_bool q (4 # 1)) eqn:U; trivial.
      exfalso. apply (H q eq_refl). split.
      * apply Qnot_le_lt. intros C. apply Qle_bool_iff in C. congruence.
      * now apply Qle_bool_iff.
Qed.

(** The classifiers at 3 days (the bucket they word differently), at 7
    days and at null. *)
Lemma classifiers_agree_witness :
  (estimateSchedule (Val (lit 3)) = "2-3 times per week"
   /\ estimateFrequency (Val (lit 3)) = "multiple times per week")
  /\ estimateSchedule (Val (lit 7)) = estimateFrequency (Val (lit 7))
  /\ estimateSchedule Null = "unknown".
Proof.
  split; [| split].
  - apply (proj1 (proj2 (classifiers_agree (Val (lit 3)))) (inject_Z 3) eq_refl);
      [reflexivity | discriminate].
  - apply (proj2 (proj2 (classifiers_agree (Val (lit 7))))).
    intros q [= <-] [_ U]. now apply U.
  - now apply (proj1 (classifiers_agree Null)).
Defined.

(* ================================================================== *)
(** * Reverse parsing of a formatted duration *)

Lemma split_colon_free (s : string) :
  Spec.colon_free s -> Spec.split_colon s = [s].
Proof.
  induction s as [|c s IH]; simpl; trivial.
  intros [Hc Hs]. rewrite (IH Hs).
  destruct (Ascii.eqb_spec c ":"); [contradiction | reflexivity].
Qed.

Lemma split_colon_app (a b : string) :
  Spec.colon_free a ->
  Spec.split_colon (a ++ String ":" b) = a :: Spec.split_colon b.
Proof.
  induction a as [|c a IH]; simpl.
  - reflexivity.
  - intros [Hc Ha]. rewrite (IH Ha).
    destruct (Ascii.eqb_spec c ":"); [contradiction | reflexivity].
Qed.

Lemma colon_free_uint (d : Decimal.uint) :
  Spec.colon_free (NilEmpty.string_of_uint d).
Proof. induction d; simpl; trivial; split; trivial; discriminate. Qed.

Lemma colon_free_toString (z : Z) : Spec.colon_free (Num.toString (Fin z)).
Proof.
  unfold Num.toString, NilZero.string_of_int, NilZero.string_of_uint.
  destruct (Z.to_int z) as [d | d].
  - destruct d; try apply colon_free_uint. simpl. split; [discriminate | trivial].
  - simpl. split; [discriminate |].
    destruct d; try apply colon_free_uint. simpl. split; [discriminate | trivial].
Qed.

Lemma colon_free_two_digits (z : Z) : Spec.colon_free (Spec.two_digits z).
Proof.
  unfold Spec.two_digits. destruct ((0 <=? z) && (z <? 10)).
  - simpl. split; [discriminate | apply colon_free_toString].
  - apply colon_free_toString.
Qed.

Lemma parse_two_digits (z : Z) :
  0 <= z -> Spec.parse_int (Spec.two_digits z) = Some z.
Proof.
  intros H. unfold Spec.two_digits.
  destruct ((0 <=? z) && (z <? 10)) eqn:E.
  - assert (D : z = 0 \/ z = 1 \/ z = 2 \/ z = 3 \/ z = 4 \/ z = 5 \/ z = 6 \/ z = 7
                \/ z = 8 \/ z = 9) by lia.
    repeat (destruct D as [-> | D]; [reflexivity | ]). now subst.
  - apply parse_toString.
Qed.

Lemma parse_formatSeconds (t : Z) :
  0 <= t -> Spec.parseDuration (Spec.formatSeconds t) = Some t.
Proof.
  intros H. unfold Spec.formatSeconds, Spec.parseDuration.
  rewrite !Z.rem_mod_nonneg by lia.
  assert (Hm : 0 <= t mod 3600 / 60) by (apply Z.div_pos; [apply Z.mod_pos_bound |]; lia).
  assert (Hs : 0 <= t mod 60) by (apply Z.mod_pos_bound; lia).
  destruct (0 <? t / 3600) eqn:E.
  - cbn [append].
    rewrite !split_colon_app, split_colon_free
      by auto using colon_free_toString, colon_free_two_digits.
    cbn [map]. rewrite parse_toString, !parse_two_digits by assumption.
    f_equal. clear E Hm Hs. Z.div_mod_to_equations. lia.
  - cbn [append].
    rewrite !split_colon_app, split_colon_free
      by auto using colon_free_toString, colon_free_two_digits.
    cbn [map]. rewrite parse_toString, !parse_two_digits by assumption.
    f_equal. apply Z.ltb_ge in E. clear Hm Hs. Z.div_mod_to_equations. lia.
Qed.



(* ================================================================== *)
(** * The date pipeline of the analyzers *)

Section Dates.
Context `{DateBuiltins}.

Lemma valid_dates (stamps : list (nullable string)) :
  filter (fun d => negb (Num.isNaN (getTime d))) (map new_Date stamps)
  = map Some (Spec.timestamps stamps).
Proof.
  induction stamps as [|v stamps IH]; simpl; trivial.
  destruct (new_Date v); simpl; now rewrite IH.
Qed.

Lemma newest_first_gt (x y : Z) :
  (newest_first (Some x) (Some y) > lit 0)%js = (x <? y).
Proof.
  unfold newest_first, lit. cbn [getTime Num.of_int Num.sub Num.neg Num.add].
  rewrite gt_Fin.
  destruct (x <? y) eqn:E.
  - apply Z.ltb_lt in E. apply negb_true_iff.
    destruct (Qle_bool _ _) eqn:L; trivial. apply Qle_bool_iff in L.
    rewrite <- inject_Z_opp, <- inject_Z_plus, <- Zle_Qle in L. lia.
  - apply Z.ltb_ge in E. apply negb_false_iff, Qle_bool_iff.
    rewrite <- inject_Z_opp, <- inject_Z_plus, <- Zle_Qle. lia.
Qed.

Lemma insert_Some (x : Z) (l : list Z) :
  insert newest_first (Some x) (map Some l) = map Some (Spec.insert_desc x l).
Proof.
  induction l as [|y l IH]; simpl; trivial.
  rewrite newest_first_gt. destruct (x <? y); simpl; now rewrite ?IH.
Qed.

Lemma sort_Some (l : list Z) :
  sort newest_first (map Some l) = map Some (Spec.descending l).
Proof.
  induction l as [|x l IH]; trivial.
  cbn [map Spec.descending]. unfold sort, Spec.descending in *.
  cbn [fold_right]. rewrite IH. apply insert_Some.
Qed.

(** The dates an analyzer works on are the valid time values, most
    recent first. *)
Lemma sorted_dates_spec (stamps : list (nullable string)) :
  sorted_dates stamps = map Some (Spec.descending (Spec.timestamps stamps)).
Proof. unfold sorted_dates. rewrite valid_dates. apply sort_Some. Qed.

End Dates.

Lemma insert_desc_perm (x : Z) (l : list Z) :
  Permutation (Spec.insert_desc x l) (x :: l).
Proof.
  induction l as [|y l IH]; simpl; trivial.
  destruct (x <? y); trivial.
  rewrite IH. apply perm_swap.
Qed.

Lemma descending_perm (l : list Z) : Permutation (Spec.descending l) l.
Proof.
  induction l as [|x l IH]; simpl; trivial.
  rewrite insert_desc_perm. now constructor.
Qed.

Lemma insert_desc_sorted (x : Z) (l : list Z) :
  Sorted Z.ge l -> Sorted Z.ge (Spec.insert_desc x l).
Proof.
  induction l as [|y l IH]; simpl; intros S.
  - repeat constructor.
  - destruct (x <? y) eqn:E.
    + inversion S as [|? ? S' Hd]; subst. constructor; [now apply IH |].
      destruct l as [|z l]; simpl.
      * constructor. apply Z.ltb_lt in E. lia.
      * destruct (x <? z); constructor.
        -- inversion Hd; subst. assumption.
        -- apply Z.ltb_lt in E. lia.
    + constructor; trivial. constructor. apply Z.ltb_ge in E. lia.
Qed.

Lemma descending_sorted (l : list Z) : Sorted Z.ge (Spec.descending l).
Proof.
  induction l as [|x l IH]; simpl; [constructor | now apply insert_desc_sorted].
Qed.

Lemma descending_length (l : list Z) :
  List.length (Spec.descending l) = List.length l.
Proof. apply Permutation_length, descending_perm. Qed.

(* ================================================================== *)
(** * The interval loop *)

Lemma loop_adjacent {A B : Type} (F : option A -> option A -> B) (l : list A) (cap : nat) :
  map (fun i => F (nth_error l i) (nth_error l (i + 1)))
      (seq 0 (Nat.min (List.length l - 1) cap))
  = firstn cap (Spec.adjacent (fun a b => F (Some a) (Some b)) l).
Proof.
  revert cap. induction l as [|a l IH]; intros cap.
  - simpl. now destruct cap.
  - destruct l as [|b l].
    + simpl. now destruct cap.
    + destruct cap as [|cap].
      * reflexivity.
      * specialize (IH cap). cbn [List.length] in *.
        replace (S (S (List.length l)) - 1)%nat with (S (S (List.length l) - 1)) by lia.
        rewrite <- Nat.succ_min_distr.
        cbn [seq map nth_error Nat.add].
        change (Spec.adjacent ?f (a :: b :: l)) with (f a b :: Spec.adjacent f (b :: l)).
        cbn [firstn]. f_equal. rewrite <- seq_shift, map_map, <- IH.
        apply map_ext. intros i. reflexivity.
Qed.

(** The quotient the loop computes for two neighbours. *)
Lemma interval_gap (a b : Z) :
  exists q,
    ((Date_ToNumber (Some (Some a)) - Date_ToNumber (Some (Some b)))
     / (lit 1000 * lit 60 * lit 60 * lit 24))%js = Fin q
    /\ (q == Spec.gap a b)%Q.
Proof.
  eexists. split; [reflexivity |].
  unfold Spec.gap. rewrite <- inject_Z_opp, <- inject_Z_plus.
  apply Qeq_refl.
Qed.

Lemma adjacent_map {A B C : Type} (f : B -> B -> C) (g : A -> B) (l : list A) :
  Spec.adjacent f (map g l) = Spec.adjacent (fun a b => f (g a) (g b)) l.
Proof.
  induction l as [|a [|b l] IH]; trivial.
  change (Spec.adjacent f (g a :: g b :: map g l)
          = f (g a) (g b) :: Spec.adjacent (fun a b => f (g a) (g b)) (b :: l)).
  rewrite <- IH. reflexivity.
Qed.

Lemma intervals_spec (cap : nat) (l : list Z) :
  exists qs,
    intervals cap (map Some l) = map Fin qs
    /\ Forall2 Qeq qs (firstn cap (Spec.gaps l)).
Proof.
  unfold intervals.
  rewrite (loop_adjacent
    (fun x y : option Date =>
       ((Date_ToNumber x - Date_ToNumber y) / (lit 1000 * lit 60 * lit 60 * lit 24))%js)
    (map Some l) cap), adjacent_map.
  unfold Spec.gaps. revert cap.
  induction l as [|a l IH]; intros cap.
  - exists []. destruct cap; split; constructor.
  - destruct l as [|b l].
    + exists []. destruct cap; split; constructor.
    + destruct cap as [|cap].
      * exists []. split; constructor.
      * destruct (IH cap) as (qs & E & F).
        destruct (interval_gap a b) as (q & Eq & Hq).
        exists (q :: qs).
        change (Spec.adjacent ?f (a :: b :: l)) with (f a b :: Spec.adjacent f (b :: l)).
        cbn [firstn map]. cbv beta. split.
        -- now rewrite Eq, E.
        -- now constructor.
Qed.

Lemma sum_Fin (qs : list Q) (a : Q) :
  fold_left Num.add (map Fin qs) (Fin a) = Fin (fold_left Qplus qs a).
Proof.
  revert a. induction qs as [|q qs IH]; intros a; simpl; auto.
Qed.

Lemma fold_left_Qplus (qs : list Q) (a : Q) :
  (fold_left Qplus qs a == a + Spec.total qs)%Q.
Proof.
  revert a. induction qs as [|q qs IH]; intros a; simpl.
  - now rewrite Qplus_0_r.
  - rewrite IH. unfold Spec.total. simpl. now rewrite Qplus_assoc.
Qed.

Lemma total_Forall2 (xs ys : list Q) :
  Forall2 Qeq xs ys -> (Spec.total xs == Spec.total ys)%Q.
Proof.
  induction 1 as [|x y xs ys E _ IH]; simpl; [reflexivity |].
  unfold Spec.total in *. simpl. now rewrite E, IH.
Qed.

Lemma div_Fin_length (x : Q) (n : nat) :
  (0 < n)%nat ->
  (Fin x / lit (Z.of_nat n))%js = Fin (x / inject_Z (Z.of_nat n))%Q.
Proof.
  intros Hn. destruct n as [|n]; [lia |].
  rewrite Nat2Z.inj_succ, <- Z.add_1_r.
  destruct (Z.of_nat n + 1) eqn:E; try lia. reflexivity.
Qed.

Lemma adjacent_length {A B : Type} (f : A -> A -> B) (l : list A) :
  List.length (Spec.adjacent f l) = (List.length l - 1)%nat.
Proof.
  induction l as [|a [|b l] IH]; trivial.
  change (Spec.adjacent f (a :: b :: l)) with (f a b :: Spec.adjacent f (b :: l)).
  cbn [List.length] in *. rewrite IH. lia.
Qed.

(** The average the analyzers compute is the mean of the first [cap]
    neighbour gaps. *)
Lemma avgDaysBetween_spec (cap : nat) (l : list Z) :
  (0 < cap)%nat -> (2 <= List.length l)%nat ->
  exists q,
    avgDaysBetween cap (map Some l) = Val (Fin q)
    /\ (q == Spec.mean (firstn cap (Spec.gaps l)))%Q.
Proof.
  intros Hc Hl. unfold avgDaysBetween. rewrite length_map.
  replace (1 <? List.length l)%nat with true by (symmetry; apply Nat.ltb_lt; lia).
  destruct (intervals_spec cap l) as (qs & E & F).
  rewrite E. unfold sum, length_num, lit. rewrite sum_Fin, length_map.
  assert (Hlen : List.length qs = List.length (firstn cap (Spec.gaps l)))
    by (eapply Forall2_length; eassumption).
  assert (Hpos : (0 < List.length qs)%nat).
  { rewrite Hlen, length_firstn. unfold Spec.gaps. rewrite adjacent_length. lia. }
  rewrite (div_Fin_length _ _ Hpos).
  eexists. split; [reflexivity |].
  unfold Spec.mean. rewrite fold_left_Qplus, <- Hlen, (total_Forall2 _ _ F).
  change (inject_Z 0) with 0%Q. now rewrite Qplus_0_l.
Qed.

Lemma avgDaysBetween_few (cap : nat) (dates : list Date) :
  (List.length dates <= 1)%nat -> avgDaysBetween cap dates = Null.
Proof.
  intros Hl. unfold avgDaysBetween.
  replace (1 <? List.length dates)%nat with false; trivial.
  symmetry. apply Nat.ltb_ge. lia.
Qed.

(* ================================================================== *)
(** * What is reported for an average *)

Lemma label_Qeq (few : string) (x y : Q) :
  (x == y)%Q -> Spec.label few x = Spec.label few y.
Proof.
  intros E. unfold Spec.label.
  assert (L : forall c, Qle_bool x c = Qle_bool y c).
  { intros c. destruct (Qle_bool x c) eqn:A, (Qle_bool y c) eqn:B; trivial.
    - apply Qle_bool_iff in A. rewrite E in A. apply Qle_bool_iff in A. congruence.
    - apply Qle_bool_iff in B. rewrite <- E in B. apply Qle_bool_iff in B. congruence. }
  now rewrite !L.
Qed.

Lemma Qeq_bool_Qeq (x y : Q) : (x == y)%Q -> Qeq_bool x 0 = Qeq_bool y 0.
Proof.
  intros E. destruct (Qeq_bool x 0) eqn:A, (Qeq_bool y 0) eqn:B; trivial.
  - apply Qeq_bool_iff in A. rewrite E in A. apply Qeq_bool_iff in A. congruence.
  - apply Qeq_bool_iff in B. rewrite <- E in B. apply Qeq_bool_iff in B. congruence.
Qed.

Lemma round_or_null_spec (q m : Q) :
  (q == m)%Q -> round_or_null (Val (Fin q)) = Spec.reported_days m.
Proof.
  intros E. unfold round_or_null, Spec.reported_days, Spec.round.
  cbn [truthy_num Num.truthy ToNumber Math_round].
  rewrite (Qeq_bool_Qeq q m E). destruct (Qeq_bool m 0); cbn [negb]; trivial.
  do 2 f_equal. apply Qfloor_comp. now rewrite E.
Qed.

Lemma estimateFrequency_spec (q m : Q) :
  (q == m)%Q ->
  estimateFrequency (Val (Fin q)) = Spec.reported_label "multiple times per week" m.
Proof.
  intros E. unfold Spec.reported_label. rewrite <- (Qeq_bool_Qeq q m E).
  destruct (Qeq_bool q 0) eqn:T.
  - unfold estimateFrequency. simpl. now rewrite T.
  - rewrite (proj2 (classifiers_on_Fin "" q T)). now apply label_Qeq.
Qed.

Lemma estimateSchedule_spec (q m : Q) :
  (q == m)%Q ->
  estimateSchedule (Val (Fin q)) = Spec.reported_label "2-3 times per week" m.
Proof.
  intros E. unfold Spec.reported_label. rewrite <- (Qeq_bool_Qeq q m E).
  destruct (Qeq_bool q 0) eqn:T.
  - unfold estimateSchedule. simpl. now rewrite T.
  - rewrite (proj1 (classifiers_on_Fin "" q T)). now apply label_Qeq.
Qed.

(* ================================================================== *)
(** * The analyzers on any episode list *)

Section Analyzers.
Context `{DateBuiltins}.

Lemma timestamps_length (stamps : list (nullable string)) :
  (List.length (Spec.timestamps stamps) <= List.length stamps)%nat.
Proof.
  induction stamps as [|v stamps IH]; simpl; trivial.
  destruct (new_Date v); simpl; lia.
Qed.

Lemma nth_error_last (l : list Z) (d : Z) :
  l <> [] ->
  nth_error (map Some l) (List.length (map Some l) - 1) = Some (Some (last l d)).
Proof.
  induction l as [|a l IH]; [congruence |]. intros _.
  destruct l as [|b l]; trivial.
  specialize (IH ltac:(discriminate)). cbn [map List.length] in *.
  replace (S (S (List.length (map Some l))) - 1)%nat
    with (S (S (List.length (map Some l)) - 1)) by lia.
  cbn [nth_error]. rewrite IH. reflexivity.
Qed.

(** [generateEpisodeAnalytics] returns a record on every non-empty list;
    [ts] are the valid time values, most recent first. *)
Lemma generateEpisodeAnalytics_value (episodes : list Episode.t) :
  episodes <> [] ->
  exists a,
    generateEpisodeAnalytics episodes = Ok (Val a)
    /\ EpisodeAnalytics.total_episodes a = List.length episodes
    /\ EpisodeAnalytics.average_days_between_episodes a
       = round_or_null
           (avgDaysBetween 20
              (map Some (Spec.descending
                           (Spec.timestamps (map Episode.release_date episodes)))))
    /\ EpisodeAnalytics.publishing_frequency a
       = estimateFrequency
           (avgDaysBetween 20
              (map Some (Spec.descending
                           (Spec.timestamps (map Episode.release_date episodes)))))
    /\ EpisodeAnalytics.average_duration_seconds a
       = Math_round
           (avgDuration
              (map (fun ep => (ToNumber (Episode.duration_ms ep) / lit 1000)%js) episodes))
    /\ EpisodeAnalytics.average_duration_formatted a
       = formatDuration
           (Val (avgDuration
                   (map (fun ep => (ToNumber (Episode.duration_ms ep) / lit 1000)%js)
                        episodes)
                 * lit 1000)%js)
    /\ EpisodeAnalytics.first_episode_date a
       = match Spec.descending (Spec.timestamps (map Episode.release_date episodes)) with
         | [] => Null
         | t :: ts => Val (Date_toISOString (last (t :: ts) 0))
         end
    /\ EpisodeAnalytics.latest_episode_date a
       = match Spec.descending (Spec.timestamps (map Episode.release_date episodes)) with
         | [] => Null
         | t :: _ => Val (Date_toISOString t)
         end.
Proof.
  intros Hne. unfold generateEpisodeAnalytics.
  replace (List.length episodes =? 0)%nat with false
    by (symmetry; apply Nat.eqb_neq; now destruct episodes).
  rewrite sorted_dates_spec.
  destruct (Spec.descending (Spec.timestamps (map Episode.release_date episodes)))
    as [|t ts] eqn:E.
  - cbn. eexists. repeat split.
  - rewrite (nth_error_last (t :: ts) 0) by discriminate.
    cbn [map List.length Nat.ltb Nat.leb nth_error toISOString bind].
    eexists. repeat split.
Qed.

Lemma generateEpisodeAnalytics_empty : generateEpisodeAnalytics [] = Ok Null.
Proof. reflexivity. Qed.

Lemma analyzeEpisodes_value (episodes : list RawEpisode.t) :
  episodes <> [] ->
  exists a,
    analyzeEpisodes episodes = Val a
    /\ EpisodeInsights.total_analyzed a = List.length episodes
    /\ EpisodeInsights.publishing_frequency_days a
       = round_or_null
           (avgDaysBetween 10
              (map Some (Spec.descending
                           (Spec.timestamps (map RawEpisode.releaseDate episodes)))))
    /\ EpisodeInsights.estimated_schedule a
       = estimateSchedule
           (avgDaysBetween 10
              (map Some (Spec.descending
                           (Spec.timestamps (map RawEpisode.releaseDate episodes)))))
    /\ EpisodeInsights.average_duration_seconds a
       = Math_round
           (avgDuration
              (map (fun ep => (ToNumber (RawEpisode.trackTimeMillis ep) / lit 1000)%js)
                   episodes)).
Proof.
  intros Hne. unfold analyzeEpisodes.
  replace (List.length episodes =? 0)%nat with false
    by (symmetry; apply Nat.eqb_neq; now destruct episodes).
  rewrite sorted_dates_spec. eexists. repeat split.
Qed.

Lemma analyzeEpisodes_null (episodes : list RawEpisode.t) :
  analyzeEpisodes episodes = Null <-> episodes = [].
Proof.
  split.
  - destruct episodes as [|ep episodes]; trivial.
    destruct (analyzeEpisodes_value (ep :: episodes)) as (a & E & _); [discriminate |].
    rewrite E. discriminate.
  - now intros ->.
Qed.

Lemma generateEpisodeAnalytics_null (episodes : list Episode.t) :
  generateEpisodeAnalytics episodes = Ok Null <-> episodes = [].
Proof.
  split.
  - destruct episodes as [|ep episodes]; trivial.
    destruct (generateEpisodeAnalytics_value (ep :: episodes)) as (a & E & _);
      [discriminate |].
    rewrite E. discriminate.
  - now intros ->.
Qed.

Lemma single_date_few (v : nullable string) :
  (List.length (map Some (Spec.descending (Spec.timestamps [v]))) <= 1)%nat.
Proof.
  rewrite length_map, descending_length.
  apply (timestamps_length [v]).
Qed.

(** C2.  The analyzers turn degenerate inputs into null and ["unknown"],
    not into an error: both return null on the empty list, and only on
    it; the [episode_insights] of the podcast details are null exactly
    when the episode list is empty; on a single episode the average
    number of days between episodes is null and the frequency label is
    ["unknown"], while the record and its other fields are produced. *)
Theorem degenerate_inputs :
  analyzeEpisodes [] = Null
  /\ generateEpisodeAnalytics [] = Ok Null
  /\ (forall episodes, analyzeEpisodes episodes = Null <-> episodes = [])
  /\ (forall episodes, generateEpisodeAnalytics episodes = Ok Null <-> episodes = [])
  /\ (forall episodes, exists r, generateEpisodeAnalytics episodes = Ok r)
  /\ (forall podcastInfo episodes details,
        PodcastDetails.normalize podcastInfo episodes = Ok details ->
        (PodcastDetails.episode_insights details = Null <-> episodes = []))
  /\ (forall ep, exists a,
        generateEpisodeAnalytics [ep] = Ok (Val a)
        /\ EpisodeAnalytics.average_days_between_episodes a = Null
        /\ EpisodeAnalytics.publishing_frequency a = "unknown"
        /\ EpisodeAnalytics.total_episodes a = 1%nat
        /\ EpisodeAnalytics.average_duration_seconds a
           = Math_round
               (avgDuration [(ToNumber (Episode.duration_ms ep) / lit 1000)%js]))
  /\ (forall ep, exists a,
        analyzeEpisodes [ep] = Val a
        /\ EpisodeInsights.publishing_frequency_days a = Null
        /\ EpisodeInsights.estimated_schedule a = "unknown"
        /\ EpisodeInsights.total_analyzed a = 1%nat).
Proof.
  repeat apply conj.
  - reflexivity.
  - reflexivity.
  - exact analyzeEpisodes_null.
  - exact generateEpisodeAnalytics_null.
  - intros [|ep episodes].
    + now exists Null.
    + destruct (generateEpisodeAnalytics_value (ep :: episodes)) as (a & E & _);
        [discriminate |].
      now exists (Val a).
  - intros podcastInfo episodes details. unfold PodcastDetails.normalize.
    destruct (toString_req (RawPodcast.collectionId podcastInfo)); cbn [bind];
      [| discriminate].
    intros [= <-]. cbn [PodcastDetails.episode_insights]. apply analyzeEpisodes_null.
  - intros ep.
    destruct (generateEpisodeAnalytics_value [ep]) as (a & E & Ht & Hd & Hf & Hs & _);
      [discriminate |].
    exists a. cbn [map] in *.
    rewrite (avgDaysBetween_few 20 _ (single_date_few _)) in Hd, Hf.
    repeat split; assumption.
  - intros ep.
    destruct (analyzeEpisodes_value [ep]) as (a & E & Ht & Hd & Hf & _);
      [discriminate |].
    exists a. cbn [map] in *.
    rewrite (avgDaysBetween_few 10 _ (single_date_few _)) in Hd, Hf.
    repeat split; assumption.
Qed.

End Analyzers.

(** The podcast details of a podcast without episodes have null
    [episode_insights]. *)
Lemma degenerate_inputs_witness :
  match PodcastDetails.normalize (podcast_of_genre (Val "News")) [] with
  | Ok details => PodcastDetails.episode_insights details = Null
  | Throw _ => False
  end.
Proof.
  destruct (PodcastDetails.normalize (podcast_of_genre (Val "News")) [])
    as [details | e] eqn:E.
  - apply (proj1 (proj2 (proj2 (proj2 (proj2 (proj2 (@degenerate_inputs iso8601))))))
             _ _ _ E).
    reflexivity.
  - discriminate E.
Defined.

(** The podcast details are built whenever [collectionId] is present, with
    its decimal string as [id], the analysis of the episodes and at most ten
    recent episodes; when [collectionId] is absent or null,
    [collectionId.toString()] throws a TypeError. *)
Theorem podcast_details_need_id :
  forall (D : DateBuiltins) (podcastInfo : RawPodcast.t) (episodes : list RawEpisode.t),
  (forall z,
     RawPodcast.collectionId podcastInfo = Val z ->
     exists details,
       PodcastDetails.normalize podcastInfo episodes = Ok details
       /\ PodcastDetails.id details = Num.toString (Fin z)
       /\ PodcastDetails.episode_insights details = analyzeEpisodes episodes
       /\ List.length (PodcastDetails.recent_episodes details)
          = Nat.min 10 (List.length episodes))
  /\ (RawPodcast.collectionId podcastInfo = Undefined
      \/ RawPodcast.collectionId podcastInfo = Null ->
      exists msg, PodcastDetails.normalize podcastInfo episodes = Throw (TypeError msg)).
Proof.
  intros D podcastInfo episodes. unfold PodcastDetails.normalize. split.
  - intros z ->. cbn [toString_req bind]. eexists. split; [reflexivity |].
    cbn [PodcastDetails.id PodcastDetails.episode_insights PodcastDetails.recent_episodes].
    repeat split. now rewrite length_map, length_firstn.
  - intros [-> | ->]; cbn [toString_req bind]; eexists; reflexivity.
Qed.

(** The details of a podcast whose [collectionId] is 1. *)
Lemma podcast_details_need_id_witness :
  exists details,
    PodcastDetails.normalize (podcast_of_genre (Val "News")) (raw_episodes_at weekly_times)
    = Ok details
    /\ PodcastDetails.id details = "1"
    /\ PodcastDetails.episode_insights details
       = analyzeEpisodes (raw_episodes_at weekly_times)
    /\ List.length (PodcastDetails.recent_episodes details) = 3%nat.
Proof.
  apply (proj1 (podcast_details_need_id iso8601 (podcast_of_genre (Val "News"))
                  (raw_episodes_at weekly_times)) 1).
  reflexivity.
Defined.

(* ================================================================== *)
(** * Averages over the lookback window *)

Lemma firstn_adjacent {A B : Type} (f : A -> A -> B) (K : nat) (l : list A) :
  firstn K (Spec.adjacent f l) = Spec.adjacent f (firstn (S K) l).
Proof.
  revert l. induction K as [|K IH]; intros l.
  - destruct l as [|a [|b l]]; reflexivity.
  - destruct l as [|a [|b l]]; trivial.
    change (Spec.adjacent f (a :: b :: l)) with (f a b :: Spec.adjacent f (b :: l)).
    cbn [firstn]. rewrite IH. cbn [firstn]. 
    destruct K; reflexivity.
Qed.

Lemma window_mean_prefix (K : nat) (ts : list Z) :
  Spec.window_mean K ts = Spec.mean (Spec.gaps (firstn (S K) (Spec.descending ts))).
Proof. unfold Spec.window_mean, Spec.gaps. now rewrite firstn_adjacent. Qed.

Lemma total_const (c : Q) (l : list Q) :
  Forall (fun g => g == c)%Q l ->
  (Spec.total l == c * inject_Z (Z.of_nat (List.length l)))%Q.
Proof.
  induction 1 as [|g l E _ IH]; unfold Spec.total in *.
  - simpl. now rewrite Qmult_0_r.
  - cbn [fold_right List.length]. rewrite IH, E, Nat2Z.inj_succ, <- Z.add_1_r.
    rewrite inject_Z_plus. change (inject_Z 1) with 1%Q. ring.
Qed.

Lemma mean_const (c : Q) (l : list Q) :
  l <> [] -> Forall (fun g => g == c)%Q l -> (Spec.mean l == c)%Q.
Proof.
  intros Hne F. unfold Spec.mean. rewrite (total_const c l F).
  apply Qdiv_mult_l. destruct l; [congruence |].
  cbn [List.length]. rewrite Nat2Z.inj_succ. intros E.
  unfold Qeq, inject_Z in E. cbn [Qnum Qden] in E. lia.
Qed.

Lemma Forall_firstn {A : Type} (P : A -> Prop) (n : nat) (l : list A) :
  Forall P l -> Forall P (firstn n l).
Proof.
  intros F. revert n. induction F; intros [|n]; simpl; constructor; auto.
Qed.

Section Window.
Context `{DateBuiltins}.

Lemma window_average (cap : nat) (stamps : list (nullable string)) :
  (0 < cap)%nat -> (2 <= List.length (Spec.timestamps stamps))%nat ->
  exists q,
    avgDaysBetween cap (sorted_dates stamps) = Val (Fin q)
    /\ (q == Spec.window_mean cap (Spec.timestamps stamps))%Q.
Proof.
  intros Hc Hl. rewrite sorted_dates_spec.
  apply avgDaysBetween_spec; trivial. now rewrite descending_length.
Qed.

Lemma generateEpisodeAnalytics_reported (episodes : list Episode.t) :
  (2 <= List.length (Spec.timestamps (map Episode.release_date episodes)))%nat ->
  exists a,
    generateEpisodeAnalytics episodes = Ok (Val a)
    /\ EpisodeAnalytics.average_days_between_episodes a
       = Spec.reported_days
           (Spec.window_mean 20 (Spec.timestamps (map Episode.release_date episodes)))
    /\ EpisodeAnalytics.publishing_frequency a
       = Spec.reported_label "multiple times per week"
           (Spec.window_mean 20 (Spec.timestamps (map Episode.release_date episodes))).
Proof.
  intros Hl.
  assert (Hne : episodes <> []) by (intros ->; simpl in Hl; lia).
  destruct (generateEpisodeAnalytics_value episodes Hne) as (a & E & _ & Hd & Hf & _).
  destruct (window_average 20 (map Episode.release_date episodes)) as (q & Eq & Hq);
    [lia | assumption |].
  rewrite sorted_dates_spec in Eq. rewrite Eq in Hd, Hf.
  exists a. repeat split; trivial.
  - rewrite Hd. now apply round_or_null_spec.
  - rewrite Hf. now apply estimateFrequency_spec.
Qed.

Lemma analyzeEpisodes_reported (episodes : list RawEpisode.t) :
  (2 <= List.length (Spec.timestamps (map RawEpisode.releaseDate episodes)))%nat ->
  exists a,
    analyzeEpisodes episodes = Val a
    /\ EpisodeInsights.publishing_frequency_days a
       = Spec.reported_days
           (Spec.window_mean 10 (Spec.timestamps (map RawEpisode.releaseDate episodes)))
    /\ EpisodeInsights.estimated_schedule a
       = Spec.reported_label "2-3 times per week"
           (Spec.window_mean 10 (Spec.timestamps (map RawEpisode.releaseDate episodes))).
Proof.
  intros Hl.
  assert (Hne : episodes <> []) by (intros ->; simpl in Hl; lia).
  destruct (analyzeEpisodes_value episodes Hne) as (a & E & _ & Hd & Hf & _).
  destruct (window_average 10 (map RawEpisode.releaseDate episodes)) as (q & Eq & Hq);
    [lia | assumption |].
  rewrite sorted_dates_spec in Eq. rewrite Eq in Hd, Hf.
  exists a. repeat split; trivial.
  - rewrite Hd. now apply round_or_null_spec.
  - rewrite Hf. now apply estimateSchedule_spec.
Qed.

End Window.

(* ================================================================== *)
(** * Publishing frequency of an episode list *)

Lemma reported_nonzero (few : string) (m : Q) :
  ~ (m == 0)%Q ->
  Spec.reported_days m = Val (Fin (Spec.round m))
  /\ Spec.reported_label few m = Spec.label few m.
Proof.
  intros Hm. unfold Spec.reported_days, Spec.reported_label.
  destruct (Qeq_bool m 0) eqn:E; [| split; reflexivity].
  apply Qeq_bool_iff in E. contradiction.
Qed.

Lemma reported_zero (few : string) (m : Q) :
  (m == 0)%Q ->
  Spec.reported_days m = Null /\ Spec.reported_label few m = "unknown".
Proof.
  intros Hm. unfold Spec.reported_days, Spec.reported_label.
  apply Qeq_bool_iff in Hm. rewrite Hm. split; reflexivity.
Qed.

Lemma reported_weekly (m : Q) :
  (m == 7 # 1)%Q ->
  Spec.reported_days m = Val (Fin 7)
  /\ Spec.reported_label "multiple times per week" m = "weekly".
Proof.
  intros Hm.
  assert (Hnz : ~ (m == 0)%Q) by (rewrite Hm; discriminate).
  destruct (reported_nonzero "multiple times per week" m Hnz) as [-> ->].
  rewrite (label_Qeq _ m (7 # 1) Hm). unfold Spec.round.
  rewrite (Qfloor_comp _ ((7 # 1) + (1 # 2))%Q) by now rewrite Hm.
  split; reflexivity.
Qed.




(* ================================================================== *)
(** * The cap on the lookback window *)



(* ================================================================== *)
(** * Detail-context popularity *)

(** Comparing two powers with machine-word arithmetic. *)
Lemma pow_le_by_bigZ (a b c d : Z) :
  BigZ.BigZ.leb (BigZ.BigZ.pow (BigZ.BigZ.of_Z a) (BigZ.BigZ.of_Z b))
                (BigZ.BigZ.pow (BigZ.BigZ.of_Z c) (BigZ.BigZ.of_Z d)) = true ->
  a ^ b <= c ^ d.
Proof.
  rewrite BigZ.BigZ.spec_leb, !BigZ.BigZ.spec_pow, !BigZ.BigZ.spec_of_Z.
  apply Z.leb_le.
Qed.

Lemma pow_lt_by_bigZ (a b c d : Z) :
  BigZ.BigZ.ltb (BigZ.BigZ.pow (BigZ.BigZ.of_Z a) (BigZ.BigZ.of_Z b))
                (BigZ.BigZ.pow (BigZ.BigZ.of_Z c) (BigZ.BigZ.of_Z d)) = true ->
  a ^ b < c ^ d.
Proof.
  rewrite BigZ.BigZ.spec_ltb, !BigZ.BigZ.spec_pow, !BigZ.BigZ.spec_of_Z.
  apply Z.ltb_lt.
Qed.

Lemma ln_pow_Z (x n : Z) :
  0 < x -> 0 <= n -> ln (IZR (x ^ n)) = (IZR n * ln (IZR x))%R.
Proof.
  intros Hx Hn. rewrite <- (Z2Nat.id n Hn) at 1.
  rewrite <- pow_IZR, ln_pow by now apply IZR_lt.
  now rewrite INR_IZR_INZ, Z2Nat.id.
Qed.

Lemma ln_monotone (x y : R) : (0 < x)%R -> (x <= y)%R -> (ln x <= ln y)%R.
Proof.
  intros Hx [Hlt | ->]; [| apply Rle_refl].
  now apply Rlt_le, ln_increasing.
Qed.

Lemma ln_pow_le (x n y m : Z) :
  0 < x -> 0 < y -> 0 <= n -> 0 <= m -> x ^ n <= y ^ m ->
  (IZR n * ln (IZR x) <= IZR m * ln (IZR y))%R.
Proof.
  intros Hx Hy Hn Hm Hle.
  rewrite <- !ln_pow_Z by assumption.
  apply ln_monotone; [| now apply IZR_le].
  apply IZR_lt. now apply Z.pow_pos_nonneg.
Qed.

Lemma ln_pow_lt (x n y m : Z) :
  0 < x -> 0 < y -> 0 <= n -> 0 <= m -> x ^ n < y ^ m ->
  (IZR n * ln (IZR x) < IZR m * ln (IZR y))%R.
Proof.
  intros Hx Hy Hn Hm Hlt.
  rewrite <- !ln_pow_Z by assumption.
  apply ln_increasing; [| now apply IZR_lt].
  apply IZR_lt. now apply Z.pow_pos_nonneg.
Qed.

Lemma ln_10_pos : (0 < ln 10)%R.
Proof. rewrite <- ln_1. apply ln_increasing; lra. Qed.

(** [floor(c * log10 N)] is [k] when [N^c] has [k + 1] decimal digits. *)
Lemma floor_log10 (c N k : Z) :
  0 <= c -> 0 < N -> 0 <= k -> 10 ^ k <= N ^ c -> N ^ c < 10 ^ (k + 1) ->
  Int_part (IZR c * (ln (IZR N) / ln 10))%R = k.
Proof.
  intros Hc HN Hk Hlo Hhi. symmetry. apply Int_part_spec.
  pose proof ln_10_pos as Hp.
  apply (ln_pow_le 10 k N c) in Hlo; try lia.
  apply (ln_pow_lt N c 10 (k + 1)) in Hhi; try lia.
  rewrite plus_IZR in Hhi.
  set (a := ln (IZR N)) in *. set (b := ln 10) in *.
  replace (IZR c * (a / b))%R with (IZR c * a / b)%R by (field; lra).
  split.
  - apply (Rmult_lt_reg_r b); trivial.
    replace ((IZR c * a / b - 1) * b)%R with (IZR c * a - b)%R by (field; lra).
    lra.
  - apply (Rmult_le_reg_r b); trivial.
    replace (IZR c * a / b * b)%R with (IZR c * a)%R by (field; lra).
    lra.
Qed.

Lemma weekly_true_crime_100 : Spec.weekly_listeners (5 # 2) 100 = 25054.
Proof.
  unfold Spec.weekly_listeners.
  replace (5000 * Q2R (5 # 2) * (ln (INR 100 + 1) / ln 10))%R
    with (IZR 12500 * (ln (IZR 101) / ln 10))%R.
  - apply floor_log10; [lia | lia | lia | |].
    + apply pow_le_by_bigZ. vm_compute. reflexivity.
    + apply pow_lt_by_bigZ. vm_compute. reflexivity.
  - replace (INR 100 + 1)%R with (IZR 101) by (rewrite INR_IZR_INZ; simpl; lra).
    unfold Q2R. simpl. field. pose proof ln_10_pos. lra.
Qed.

Lemma downloads_25054 : Spec.downloads 25054 = 17537.
Proof. unfold Spec.downloads. symmetry. apply Int_part_spec. lra. Qed.

Lemma detail_lookup (key : string) :
  inherited key = false ->
  or_prop (get genreMultipliers key) (get genreMultipliers "default")
  = NumProp (Spec.detail_multiplier key).
Proof.
  intros Hi. unfold get at 1. unfold genreMultipliers at 1. cbn [own].
  do 8 table_entry key.
  rewrite Hi. unfold Spec.detail_multiplier. spec_entries key. reflexivity.
Qed.

Lemma log10_succ (n : nat) :
  RNum.log10 (RNum.add (Fin (INR n)) (Fin 1%R)) = Fin (ln (INR n + 1) / ln 10)%R.
Proof.
  pose proof (pos_INR n) as Hn. cbn [RNum.add RNum.log10].
  unfold RNum.iszero, RNum.isneg.
  destruct (Req_dec_T (INR n + 1) 0) as [E | _]; [lra |].
  destruct (Rlt_dec (INR n + 1) 0) as [E | _]; [lra |].
  reflexivity.
Qed.

Lemma estimateMetrics_value (podcast : RawPodcast.t) (n : nat) :
  inherited (ToPropertyKey (RawPodcast.primaryGenreName podcast)) = false ->
  Metrics.estimated_weekly_listeners (estimateMetrics podcast n)
  = Fin (Spec.weekly_listeners
           (Spec.detail_multiplier (ToPropertyKey (RawPodcast.primaryGenreName podcast))) n)
  /\ Metrics.estimated_downloads_per_episode (estimateMetrics podcast n)
     = Fin (Spec.downloads
              (Spec.weekly_listeners
                 (Spec.detail_multiplier
                    (ToPropertyKey (RawPodcast.primaryGenreName podcast))) n))
  /\ Metrics.confidence (estimateMetrics podcast n) = "low".
Proof.
  intros Hi. unfold estimateMetrics.
  cbn [Metrics.estimated_weekly_listeners Metrics.estimated_downloads_per_episode
       Metrics.confidence].
  rewrite (detail_lookup _ Hi), log10_succ. repeat split.
Qed.

Lemma detail_multiplier_default (genre : string) :
  ~ In genre ["True Crime"; "News"; "Comedy"; "Business"; "Technology"; "Sports";
              "Health & Fitness"] ->
  Spec.detail_multiplier genre = (1 # 1)%Q.
Proof.
  intros Hn. unfold Spec.detail_multiplier.
  repeat match goal with
         | |- context [String.eqb genre ?k] =>
             destruct (String.eqb_spec genre k) as [-> | _];
             [exfalso; apply Hn; simpl; tauto |]
         end.
  reflexivity.
Qed.




(* ================================================================== *)
(** * Search-context popularity *)

Lemma search_lookup (key : string) :
  inherited key = false ->
  or_prop (get baseMultiplier key) (get baseMultiplier "default")
  = NumProp (inject_Z (Spec.search_multiplier key)).
Proof.
  intros Hi. unfold get at 1. unfold baseMultiplier at 1. cbn [own].
  do 10 table_entry key.
  rewrite Hi. unfold Spec.search_multiplier. spec_entries key. reflexivity.
Qed.

Lemma Math_min_Fin (x y : Q) :
  Math_min (Fin x) (Fin y) = Fin (if Qle_bool x y then x else y).
Proof.
  unfold Math_min. rewrite compare_Fin.
  now destruct (Qle_bool x y), (Qle_bool y x).
Qed.

Lemma Qmin_Qle_bool (x y : Q) : (Qmin x y == if Qle_bool x y then x else y)%Q.
Proof.
  destruct (Qle_bool x y) eqn:E.
  - apply Q.min_l. now apply Qle_bool_iff.
  - apply Q.min_r. apply Qlt_le_weak, Qnot_le_lt. intros C.
    apply Qle_bool_iff in C. congruence.
Qed.

(** The estimate on a finite count, for a multiplier stored in the table. *)
Lemma estimate_Fin (m : Z) (x : Q) :
  Math_floor (Fin (inject_Z m) * (lit 1 + Math_min (Fin x / lit 100) (lit 5)))%js
  = Fin (Qfloor (inject_Z m * (1 + Qmin (x / inject_Z 100) (inject_Z 5)))%Q).
Proof.
  rewrite div_Fin_pos. unfold lit. rewrite Math_min_Fin.
  cbn [Num.add Num.mul Math_floor]. f_equal. apply Qfloor_comp.
  rewrite Qmin_Qle_bool. reflexivity.
Qed.

Lemma estimateListeners_value (n : Z) (genre : nullable string) :
  inherited (ToPropertyKey genre) = false ->
  estimateListeners (Val (lit n)) genre
  = Fin (Spec.listeners (Spec.search_multiplier (ToPropertyKey genre)) n).
Proof.
  intros Hi. unfold estimateListeners. rewrite (search_lookup _ Hi).
  cbn [prop_ToNumber ToNumber]. unfold lit at 1. apply estimate_Fin.
Qed.

(** The estimate in integer arithmetic. *)
Lemma listeners_Z (m n : Z) :
  Spec.listeners m n = m * (100 + Z.min n 500) / 100.
Proof.
  unfold Spec.listeners.
  rewrite <- (Qfloor_div_pos (m * (100 + Z.min n 500)) 100). apply Qfloor_comp.
  rewrite Qmin_Qle_bool.
  destruct (Qle_bool (inject_Z n / inject_Z 100) (inject_Z 5)) eqn:E.
  - apply Qle_bool_iff in E.
    assert (Hn : n <= 500).
    { apply (Qmult_le_compat_r _ _ (inject_Z 100)) in E; [| discriminate].
      rewrite Qmult_comm, Qmult_div_r in E by discriminate.
      rewrite <- inject_Z_mult, <- Zle_Qle in E. lia. }
    rewrite Z.min_l by assumption.
    rewrite inject_Z_mult, inject_Z_plus. field.
  - assert (Hn : 500 < n).
    { apply Z.lt_nge. intros C.
      assert (L : (inject_Z n / inject_Z 100 <= inject_Z 5)%Q).
      { apply Qle_shift_div_r; [reflexivity |].
        rewrite <- inject_Z_mult, <- Zle_Qle. lia. }
      apply Qle_bool_iff in L. congruence. }
    rewrite Z.min_r by lia.
    rewrite inject_Z_mult, inject_Z_plus. field.
Qed.

Lemma search_multiplier_range (genre : string) :
  4000 <= Spec.search_multiplier genre <= 15000.
Proof.
  unfold Spec.search_multiplier.
  repeat match goal with
         | |- context [String.eqb genre ?k] => destruct (String.eqb genre k); [lia |]
         end.
  lia.
Qed.

Lemma search_multiplier_default (genre : string) :
  ~ In genre ["True Crime"; "News"; "Comedy"; "Business"; "Technology"; "Sports";
              "Health & Fitness"; "Education"; "Society & Culture"] ->
  Spec.search_multiplier genre = 4000.
Proof.
  intros Hn. unfold Spec.search_multiplier.
  repeat match goal with
         | |- context [String.eqb genre ?k] =>
             destruct (String.eqb_spec genre k) as [-> | _];
             [exfalso; apply Hn; simpl; tauto |]
         end.
  reflexivity.
Qed.



(** For a genre that is not the name of an inherited property, the
    search-context estimate does not decrease with the episode count, is
    the multiplier at 0 episodes, never exceeds 6 times the multiplier and
    equals it from 500 episodes on. *)
Theorem search_popularity_shape (genre : nullable string) :
  inherited (ToPropertyKey genre) = false ->
  (forall n n', 0 <= n <= n' ->
     exists e e',
       estimateListeners (Val (lit n)) genre = Fin e
       /\ estimateListeners (Val (lit n')) genre = Fin e'
       /\ e <= e')
  /\ estimateListeners (Val (lit 0)) genre
     = Fin (Spec.search_multiplier (ToPropertyKey genre))
  /\ (forall n, 0 <= n ->
        exists e,
          estimateListeners (Val (lit n)) genre = Fin e
          /\ e <= 6 * Spec.search_multiplier (ToPropertyKey genre))
  /\ (forall n, 500 <= n ->
        estimateListeners (Val (lit n)) genre
        = Fin (6 * Spec.search_multiplier (ToPropertyKey genre))).
Proof.
  intros Hi. pose proof (search_multiplier_range (ToPropertyKey genre)) as Hm.
  set (m := Spec.search_multiplier (ToPropertyKey genre)) in *.
  assert (V : forall n, estimateListeners (Val (lit n)) genre
                        = Fin (m * (100 + Z.min n 500) / 100)).
  { intros n. rewrite (estimateListeners_value n genre Hi). now rewrite listeners_Z. }
  repeat apply conj.
  - intros n n' Hn. do 2 eexists. rewrite !V. repeat split.
    apply Z.div_le_mono; [lia |]. apply Z.mul_le_mono_nonneg_l; lia.
  - rewrite V. f_equal. rewrite Z.min_l by lia.
    replace (m * (100 + 0)) with (m * 100) by lia. apply Z.div_mul. lia.
  - intros n Hn. eexists. rewrite V. split; [reflexivity |].
    apply Z.div_le_upper_bound; [lia |].
    assert (Z.min n 500 <= 500) by apply Z.le_min_r. nia.
  - intros n Hn. rewrite V. f_equal. rewrite Z.min_r by lia.
    replace (m * (100 + 500)) with (6 * m * 100) by lia. apply Z.div_mul. lia.
Qed.

(** The shape of the estimate for the Comedy genre. *)
Lemma search_popularity_shape_witness :
  estimateListeners (Val (lit 0)) (Val "Comedy") = Fin 10000
  /\ estimateListeners (Val (lit 750)) (Val "Comedy") = Fin 60000.
Proof.
  destruct (search_popularity_shape (Val "Comedy") eq_refl) as (_ & H0 & _ & H500).
  split.
  - exact H0.
  - apply (H500 750). lia.
Defined.

(** C6 at a genre named like an inherited property: the lookup finds the
    inherited function, the default is not used and the estimate is NaN,
    where an unlisted genre gets 8000 for 100 episodes. *)
Theorem search_popularity_inherited_name :
  get baseMultiplier "constructor" = ObjProp "constructor"
  /\ estimateListeners (Val (lit 100)) (Val "constructor") = NaN
  /\ estimateListeners (Val (lit 100)) (Val "Unknown Genre") = Fin 8000
  /\ Spec.listeners (Spec.search_multiplier "constructor") 100 = 8000.
Proof. repeat split. Qed.

(** C10 at a genre named like an inherited property: the estimate is NaN
    at every episode count, so it is neither the multiplier at 0 episodes
    nor 6 times the multiplier from 500 episodes on. *)
Theorem search_popularity_shape_inherited_name :
  estimateListeners (Val (lit 0)) (Val "toString") = NaN
  /\ estimateListeners (Val (lit 500)) (Val "toString") = NaN
  /\ (forall n, estimateListeners (Val (lit n)) (Val "toString") = NaN)
  /\ Spec.search_multiplier "toString" = 4000.
Proof. repeat split. Qed.

(* ================================================================== *)
(** * Missing fields *)

Section Missing.
Context `{DateBuiltins}.

Lemma timestamps_app (xs ys : list (nullable string)) :
  Spec.timestamps (xs ++ ys) = (Spec.timestamps xs ++ Spec.timestamps ys)%list.
Proof. unfold Spec.timestamps. apply flat_map_app. Qed.

(** A release date that is absent or does not parse adds no date. *)
Lemma invalid_date_dropped (v : nullable string) (xs ys : list (nullable string)) :
  new_Date v = None ->
  sorted_dates (xs ++ v :: ys) = sorted_dates (xs ++ ys).
Proof.
  intros Hv. rewrite !sorted_dates_spec, !timestamps_app. cbn [Spec.timestamps flat_map].
  now rewrite Hv.
Qed.

(** A duration that is absent, null or NaN adds nothing to the average. *)
Lemma invalid_duration_dropped (v : nullable (number Q)) (xs ys : list (number Q)) :
  truthy_num v = false ->
  avgDuration (xs ++ (ToNumber v / lit 1000)%js :: ys) = avgDuration (xs ++ ys).
Proof.
  intros Hv. unfold avgDuration. rewrite !filter_app. cbn [filter].
  replace ((ToNumber v / lit 1000)%js > lit 0)%js with false; trivial.
  destruct v as [| |[|s|q]]; try discriminate Hv; trivial.
  cbn in Hv. apply negb_false_iff, Qeq_bool_iff in Hv.
  cbn [ToNumber]. rewrite div_Fin_pos. unfold lit. rewrite gt_Fin.
  symmetry. apply negb_false_iff, Qle_bool_iff. rewrite Hv. discriminate.
Qed.

(** No exception leaves the episode functions when fields are absent or
    null: [generateEpisodeAnalytics] returns on every list; an episode
    without [trackTimeMillis] is normalized with that value and the
    duration ["0:00"]; an episode whose release date is absent or does not
    parse contributes no date, and one whose duration is absent or null
    contributes no duration. *)
Theorem missing_fields_tolerated :
  (forall episodes, exists r, generateEpisodeAnalytics episodes = Ok r)
  /\ (forall ep,
        RawEpisode.trackTimeMillis ep = Undefined \/ RawEpisode.trackTimeMillis ep = Null ->
        Episode.duration_ms (Episode.normalize ep) = RawEpisode.trackTimeMillis ep
        /\ Episode.duration_formatted (Episode.normalize ep) = "0:00"
        /\ SearchEpisode.duration_ms (SearchEpisode.normalize ep)
           = RawEpisode.trackTimeMillis ep
        /\ SearchEpisode.duration_formatted (SearchEpisode.normalize ep) = "0:00")
  /\ (forall v xs ys,
        v = Undefined \/ (exists s, v = Val s /\ Date_parse s = None) ->
        sorted_dates (xs ++ v :: ys) = sorted_dates (xs ++ ys))
  /\ (forall v xs ys,
        v = Undefined \/ v = Null ->
        avgDuration (xs ++ (ToNumber v / lit 1000)%js :: ys) = avgDuration (xs ++ ys)).
Proof.
  repeat apply conj.
  - intros [|ep episodes].
    + now exists Null.
    + destruct (generateEpisodeAnalytics_value (ep :: episodes)) as (a & E & _);
        [discriminate |].
      now exists (Val a).
  - intros ep Hm. cbn [Episode.normalize Episode.duration_ms Episode.duration_formatted
                       SearchEpisode.normalize SearchEpisode.duration_ms
                       SearchEpisode.duration_formatted].
    destruct Hm as [-> | ->]; repeat split.
  - intros v xs ys [-> | (s & -> & Hs)]; now apply invalid_date_dropped.
  - intros v xs ys [-> | ->]; now apply invalid_duration_dropped.
Qed.

End Missing.

(** The tolerance at an episode without release date and duration. *)
Lemma missing_fields_tolerated_witness :
  (Episode.duration_ms (Episode.normalize (raw_episode_at Undefined Undefined)) = Undefined
   /\ Episode.duration_formatted (Episode.normalize (raw_episode_at Undefined Undefined))
      = "0:00"
   /\ SearchEpisode.duration_ms (SearchEpisode.normalize (raw_episode_at Undefined Undefined))
      = Undefined
   /\ SearchEpisode.duration_formatted
        (SearchEpisode.normalize (raw_episode_at Undefined Undefined)) = "0:00")
  /\ sorted_dates ([] ++ Val "soon" :: [Val "2024-01-08T00:00:00Z"])
     = sorted_dates ([] ++ [Val "2024-01-08T00:00:00Z"]).
Proof.
  split.
  - apply (proj1 (proj2 (@missing_fields_tolerated iso8601))
             (raw_episode_at Undefined Undefined)).
    left. reflexivity.
  - apply (proj1 (proj2 (proj2 (@missing_fields_tolerated iso8601)))
             (Val "soon") [] [Val "2024-01-08T00:00:00Z"]).
    right. exists "soon". split; reflexivity.
Defined.

(** C7 at an episode whose release date is null: [new Date(null)] is the
    epoch, a valid date, so the episode is kept.  Two episodes a week apart
    are reported as weekly with 7 days between episodes; with a third
    episode whose release date is null the report is 9865 days,
    ["irregular"], and a first episode in 1970.  [analyzeEpisodes] does the
    same on the raw episodes. *)
Theorem null_release_date_counted :
  (exists a,
     generateEpisodeAnalytics (episodes_at [monday; monday - 7 * day]) = Ok (Val a)
     /\ EpisodeAnalytics.average_days_between_episodes a = Val (Fin 7)
     /\ EpisodeAnalytics.publishing_frequency a = "weekly"
     /\ EpisodeAnalytics.first_episode_date a = Val "2024-01-01T00:00:00.000Z")
  /\ (exists a,
        generateEpisodeAnalytics null_date_episodes = Ok (Val a)
        /\ EpisodeAnalytics.average_days_between_episodes a = Val (Fin 9865)
        /\ EpisodeAnalytics.publishing_frequency a = "irregular"
        /\ EpisodeAnalytics.first_episode_date a = Val "1970-01-01T00:00:00.000Z")
  /\ sorted_dates (map Episode.release_date null_date_episodes)
     = [Some monday; Some (monday - 7 * day); Some 0]
  /\ (exists a,
        analyzeEpisodes (raw_episodes_at [monday; monday - 7 * day]) = Val a
        /\ EpisodeInsights.publishing_frequency_days a = Val (Fin 7)
        /\ EpisodeInsights.estimated_schedule a = "weekly")
  /\ (exists a,
        analyzeEpisodes null_date_raw_episodes = Val a
        /\ EpisodeInsights.publishing_frequency_days a = Val (Fin 9865)
        /\ EpisodeInsights.estimated_schedule a = "irregular").
Proof.
  repeat apply conj.
  - eexists. split; [vm_compute; reflexivity |]. repeat split.
  - eexists. split; [vm_compute; reflexivity |]. repeat split.
  - vm_compute. reflexivity.
  - eexists. split; [vm_compute; reflexivity |]. repeat split.
  - eexists. split; [vm_compute; reflexivity |]. repeat split.
Qed.

(* ================================================================== *)
(** * The dates an analyzer works on *)

(** The dates an analyzer sorts are the valid time values of the release
    dates, each exactly once, most recent first. *)
Theorem sorted_dates_newest_first :
  forall (D : DateBuiltins) (stamps : list (nullable string)),
  exists ts,
    sorted_dates stamps = map Some ts
    /\ Sorted Z.ge ts
    /\ Permutation ts (Spec.timestamps stamps).
Proof.
  intros D stamps. exists (Spec.descending (Spec.timestamps stamps)).
  split; [apply sorted_dates_spec |].
  split; [apply descending_sorted | apply descending_perm].
Qed.

(* ================================================================== *)
(** * Slices and pages *)

Lemma truncate_inject_Z (z : Z) : truncate (inject_Z z) = z.
Proof.
  unfold truncate. destruct (Qle_bool 0 (inject_Z z)).
  - apply Qfloor_Z.
  - apply Qceiling_Z.
Qed.

Lemma relative_index_nonneg (len : nat) (z : Z) :
  0 <= z -> relative_index len (Num.of_int (Fin z)) = Nat.min (Z.to_nat z) len.
Proof.
  intros Hz. cbn [Num.of_int relative_index]. rewrite truncate_inject_Z.
  destruct (z <? 0) eqn:E; trivial. apply Z.ltb_lt in E. lia.
Qed.

Lemma relative_index_negative (len : nat) (z : Z) :
  z < 0 -> relative_index len (Num.of_int (Fin z)) = Z.to_nat (Z.max (Z.of_nat len + z) 0).
Proof.
  intros Hz. cbn [Num.of_int relative_index]. rewrite truncate_inject_Z.
  destruct (z <? 0) eqn:E; trivial. apply Z.ltb_ge in E. lia.
Qed.

Lemma relative_index_bound (len : nat) (i : number Q) :
  (relative_index len i <= len)%nat.
Proof.
  destruct i as [|[]|q]; cbn [relative_index]; try lia.
  destruct (truncate q <? 0) eqn:E; [| apply Nat.le_min_r].
  apply Z.ltb_lt in E. lia.
Qed.

Lemma add_int (a b : Z) :
  (Num.of_int (Fin a) + Num.of_int (Fin b))%js = Fin (inject_Z a + inject_Z b)%Q.
Proof. reflexivity. Qed.

Lemma relative_index_sum (len : nat) (a b : Z) :
  relative_index len (Num.of_int (Fin a) + Num.of_int (Fin b))%js
  = relative_index len (Num.of_int (Fin (a + b))).
Proof.
  rewrite add_int. cbn [Num.of_int relative_index].
  assert (E : truncate (inject_Z a + inject_Z b) = truncate (inject_Z (a + b))).
  { unfold truncate. rewrite <- inject_Z_plus. reflexivity. }
  now rewrite E.
Qed.

Lemma firstn_min_length {A : Type} (n : nat) (l : list A) :
  firstn (Nat.min n (List.length l)) l = firstn n l.
Proof.
  destruct (Nat.le_ge_cases n (List.length l)) as [H | H].
  - now rewrite Nat.min_l.
  - rewrite Nat.min_r by assumption. now rewrite !firstn_all2 by lia.
Qed.

Lemma slice_nonneg {A : Type} (l : list A) (a b : Z) :
  0 <= a -> 0 <= b ->
  slice l (Num.of_int (Fin a)) (Num.of_int (Fin b))
  = firstn (Z.to_nat b - Z.to_nat a) (skipn (Z.to_nat a) l).
Proof.
  intros Ha Hb. unfold slice. rewrite !relative_index_nonneg by assumption.
  destruct (Nat.le_ge_cases (List.length l) (Z.to_nat a)) as [H | H].
  - rewrite !skipn_all2 by lia. now rewrite !firstn_nil.
  - rewrite (Nat.min_l (Z.to_nat a)) by assumption.
    rewrite <- (firstn_min_length (Z.to_nat b - Z.to_nat a)).
    rewrite length_skipn. f_equal. lia.
Qed.

Lemma slice_from_1 {A : Type} (l : list A) : slice_from l (lit 1) = tl l.
Proof.
  unfold slice_from. change (lit 1) with (Num.of_int (Fin 1)).
  rewrite relative_index_nonneg by lia.
  now destruct l.
Qed.

Lemma slice_1_6 {A : Type} (l : list A) : slice l (lit 1) (lit 6) = firstn 5 (tl l).
Proof.
  change (lit 1) with (Num.of_int (Fin 1)). change (lit 6) with (Num.of_int (Fin 6)).
  rewrite slice_nonneg by lia. now destruct l.
Qed.

Lemma paginate_nonneg {A : Type} (l : list A) (offset limit : Z) :
  0 <= offset -> 0 <= limit ->
  paginate l (Fin offset) (Fin limit)
  = firstn (Z.to_nat limit) (skipn (Z.to_nat offset) l).
Proof.
  intros Ho Hl. unfold paginate, slice. rewrite relative_index_sum.
  rewrite !relative_index_nonneg by lia.
  destruct (Nat.le_ge_cases (List.length l) (Z.to_nat offset)) as [H | H].
  - rewrite !skipn_all2 by lia. now rewrite !firstn_nil.
  - rewrite (Nat.min_l (Z.to_nat offset)) by assumption.
    rewrite <- (firstn_min_length (Z.to_nat limit)).
    rewrite length_skipn. f_equal. lia.
Qed.

(** A page with a non-negative offset and limit is the window of the list
    that starts at the offset: it has at most [limit] episodes, and fewer
    only at the end of the list. *)
Theorem page_is_window :
  forall (A : Type) (episodes : list A) (offset limit : Z),
  0 <= offset -> 0 <= limit ->
  paginate episodes (Fin offset) (Fin limit)
  = firstn (Z.to_nat limit) (skipn (Z.to_nat offset) episodes)
  /\ List.length (paginate episodes (Fin offset) (Fin limit))
     = Nat.min (Z.to_nat limit) (List.length episodes - Z.to_nat offset)
  /\ (forall i, (i < List.length (paginate episodes (Fin offset) (Fin limit)))%nat ->
        nth_error (paginate episodes (Fin offset) (Fin limit)) i
        = nth_error episodes (Z.to_nat offset + i)).
Proof.
  intros A episodes offset limit Ho Hl.
  rewrite (paginate_nonneg episodes offset limit Ho Hl). repeat split.
  - now rewrite length_firstn, length_skipn.
  - intros i Hi. rewrite length_firstn in Hi.
    rewrite nth_error_firstn.
    destruct (i <? Z.to_nat limit)%nat eqn:E.
    + apply nth_error_skipn.
    + apply Nat.ltb_ge in E. lia.
Qed.

(** Consecutive pages tile the list: the page after a page continues where
    it stopped. *)
Theorem pages_tile :
  forall (A : Type) (episodes : list A) (offset limit limit' : Z),
  0 <= offset -> 0 <= limit -> 0 <= limit' ->
  (paginate episodes (Fin offset) (Fin limit)
   ++ paginate episodes (Fin (offset + limit)) (Fin limit'))%list
  = paginate episodes (Fin offset) (Fin (limit + limit')).
Proof.
  intros A episodes offset limit limit' Ho Hl Hl'.
  rewrite !paginate_nonneg by lia.
  rewrite !Z2Nat.inj_add by lia.
  set (o := Z.to_nat offset). set (n := Z.to_nat limit). set (m := Z.to_nat limit').
  rewrite Nat.add_comm, <- skipn_skipn.
  generalize (skipn o episodes). clear. intros l. revert l.
  induction n as [|n IH]; intros l; cbn [Nat.add]; trivial.
  destruct l as [|a l]; cbn [firstn skipn app].
  - now rewrite firstn_nil.
  - now rewrite IH.
Qed.

(** A page is empty when the offset or the limit is not a number, when the
    limit is zero or negative without reaching below offset zero, and when
    the offset is past the last episode. *)
Theorem page_empty :
  forall (A : Type) (episodes : list A),
  (forall limit, paginate episodes NaN limit = [])
  /\ (forall offset, paginate episodes offset NaN = [])
  /\ (forall offset limit, limit <= 0 -> 0 <= offset + limit ->
        paginate episodes (Fin offset) (Fin limit) = [])
  /\ (forall offset limit, Z.of_nat (List.length episodes) <= offset ->
        paginate episodes (Fin offset) limit = []).
Proof.
  intros A episodes. split; [| split; [| split]].
  - intros limit. unfold paginate, slice. cbn [Num.of_int Num.add relative_index].
    reflexivity.
  - intros offset. unfold paginate, slice.
    replace (Num.of_int offset + Num.of_int NaN)%js with (@NaN Q)
      by now destruct offset as [|[]|z].
    reflexivity.
  - intros offset limit Hl H. unfold paginate, slice. rewrite relative_index_sum.
    rewrite (relative_index_nonneg _ offset) by lia.
    rewrite relative_index_nonneg by assumption.
    replace (Nat.min (Z.to_nat (offset + limit)) (List.length episodes)
             - Nat.min (Z.to_nat offset) (List.length episodes))%nat with 0%nat by lia.
    reflexivity.
  - intros offset limit Ho. unfold paginate, slice.
    rewrite (relative_index_nonneg _ offset) by lia.
    rewrite Nat.min_r by lia.
    pose proof (relative_index_bound (List.length episodes)
                  (Num.of_int (Fin offset) + Num.of_int limit)%js).
    replace (_ - List.length episodes)%nat with 0%nat by lia. reflexivity.
Qed.

(** With a negative limit that reaches below offset zero, the end of the
    page is counted from the end of the list: the page runs from the offset
    to [-(offset + limit)] episodes before the end. *)
Theorem page_negative_limit :
  forall (A : Type) (episodes : list A) (offset limit : Z),
  0 <= offset -> offset + limit < 0 ->
  paginate episodes (Fin offset) (Fin limit)
  = firstn (Z.to_nat (Z.of_nat (List.length episodes) + (offset + limit))
            - Z.to_nat offset)
           (skipn (Z.to_nat offset) episodes).
Proof.
  intros A episodes offset limit Ho H. unfold paginate, slice.
  rewrite relative_index_sum, (relative_index_nonneg _ offset Ho).
  rewrite relative_index_negative by assumption.
  destruct (Nat.le_ge_cases (List.length episodes) (Z.to_nat offset)) as [L | L].
  - rewrite !skipn_all2 by lia. now rewrite !firstn_nil.
  - rewrite (Nat.min_l (Z.to_nat offset)) by assumption. f_equal. lia.
Qed.

(* ================================================================== *)
(** * The handler of the episode list *)

Lemma generateEpisodeAnalytics_total `{DateBuiltins} (episodes : list Episode.t) :
  exists r, generateEpisodeAnalytics episodes = Ok r.
Proof.
  destruct episodes as [|ep episodes].
  - now exists Null.
  - destruct (generateEpisodeAnalytics_value (ep :: episodes)) as (a & E & _);
      [discriminate |].
    now exists (Val a).
Qed.

Lemma episodes_handler_found `{DateBuiltins} `{StringBuiltins} (method : string)
    (podcast_id limit offset : nullable string) (first : Upstream.t)
    (rest : list Upstream.t) :
  method <> "OPTIONS" -> truthy_str podcast_id = true ->
  exists analytics,
    generateEpisodeAnalytics (map (fun r => Episode.normalize (Upstream.episode r)) rest)
    = Ok analytics
    /\ episodes_handler method podcast_id limit offset (Ok (Val (first :: rest)))
       = Json 200 {|
           EpisodesPage.podcast_id := ToPropertyKey podcast_id;
           EpisodesPage.total_episodes := List.length rest;
           EpisodesPage.offset := parse_param 0 offset;
           EpisodesPage.limit := parse_param 100 limit;
           EpisodesPage.episodes :=
             paginate (map (fun r => Episode.normalize (Upstream.episode r)) rest)
                      (parse_param 0 offset) (parse_param 100 limit);
           EpisodesPage.analytics := analytics
         |}.
Proof.
  intros Hm Hp. unfold episodes_handler.
  rewrite (proj2 (String.eqb_neq method "OPTIONS") Hm), Hp.
  cbn [negb bind]. cbv zeta. rewrite slice_from_1. cbn [tl].
  destruct (generateEpisodeAnalytics_total
              (map (fun r => Episode.normalize (Upstream.episode r)) rest))
    as (analytics & E).
  exists analytics. split; trivial. rewrite E. cbn [bind catch_500].
  now rewrite length_map.
Qed.

(** The episode-list handler answers 200 without content to OPTIONS, 400
    without a podcast id, 500 exactly when the lookup request fails, 404 when
    the lookup has no result, and 200 otherwise, whatever fields the results
    lack: the body counts and analyzes all episodes after the first result
    and carries the requested page of them. *)
Theorem episodes_handler_outcomes :
  forall (D : DateBuiltins) (S : StringBuiltins) (method : string)
         (podcast_id limit offset : nullable string)
         (lookup : result (nullable (list Upstream.t))),
  (method = "OPTIONS" ->
     episodes_handler method podcast_id limit offset lookup = End 200)
  /\ (method <> "OPTIONS" -> truthy_str podcast_id = false ->
        episodes_handler method podcast_id limit offset lookup
        = Fail 400 "podcast_id is required")
  /\ (method <> "OPTIONS" -> truthy_str podcast_id = true ->
        (status_of (episodes_handler method podcast_id limit offset lookup) = 500
         <-> exists e, lookup = Throw e)
        /\ (lookup = Ok Undefined \/ lookup = Ok Null \/ lookup = Ok (Val []) ->
              episodes_handler method podcast_id limit offset lookup
              = Fail 404 "Podcast not found")
        /\ (forall first rest, lookup = Ok (Val (first :: rest)) ->
              exists analytics,
                generateEpisodeAnalytics
                  (map (fun r => Episode.normalize (Upstream.episode r)) rest)
                = Ok analytics
                /\ episodes_handler method podcast_id limit offset lookup
                   = Json 200 {|
                       EpisodesPage.podcast_id := ToPropertyKey podcast_id;
                       EpisodesPage.total_episodes := List.length rest;
                       EpisodesPage.offset := parse_param 0 offset;
                       EpisodesPage.limit := parse_param 100 limit;
                       EpisodesPage.episodes :=
                         paginate
                           (map (fun r => Episode.normalize (Upstream.episode r)) rest)
                           (parse_param 0 offset) (parse_param 100 limit);
                       EpisodesPage.analytics := analytics
                     |})).
Proof.
  intros D S method podcast_id limit offset lookup.
  split; [| split].
  - intros ->. reflexivity.
  - intros Hm Hp. unfold episodes_handler.
    rewrite (proj2 (String.eqb_neq method "OPTIONS") Hm), Hp. reflexivity.
  - intros Hm Hp. split; [| split].
    + split.
      * intros St. destruct lookup as [[| |[|first rest]]|e].
        -- unfold episodes_handler in St.
           rewrite (proj2 (String.eqb_neq method "OPTIONS") Hm), Hp in St.
           discriminate St.
        -- unfold episodes_handler in St.
           rewrite (proj2 (String.eqb_neq method "OPTIONS") Hm), Hp in St.
           discriminate St.
        -- unfold episodes_handler in St.
           rewrite (proj2 (String.eqb_neq method "OPTIONS") Hm), Hp in St.
           discriminate St.
        -- destruct (episodes_handler_found method podcast_id limit offset first rest
                       Hm Hp) as (analytics & _ & E).
           rewrite E in St. discriminate St.
        -- now exists e.
      * intros (e & ->). unfold episodes_handler.
        rewrite (proj2 (String.eqb_neq method "OPTIONS") Hm), Hp. reflexivity.
    + intros Hl. unfold episodes_handler.
      rewrite (proj2 (String.eqb_neq method "OPTIONS") Hm), Hp.
      destruct Hl as [-> | [-> | ->]]; reflexivity.
    + intros first rest ->. now apply episodes_handler_found.
Qed.

(* ================================================================== *)
(** * The handler of the podcast details *)

Lemma detail_handler_found `{DateBuiltins} (method : string) (id : nullable string)
    (first : Upstream.t) (rest : list Upstream.t) :
  method <> "OPTIONS" -> truthy_str id = true ->
  detail_handler method id (Ok (Val (first :: rest)))
  = catch_500 "Failed to fetch podcast details"
      (podcastDetails <-
         PodcastDetails.normalize (Upstream.podcast first) (map Upstream.episode rest) ;;
       Ok (Json 200 podcastDetails)).
Proof.
  intros Hm Hi. unfold detail_handler.
  rewrite (proj2 (String.eqb_neq method "OPTIONS") Hm), Hi.
  cbn [negb bind]. cbv zeta. now rewrite slice_from_1.
Qed.

Lemma normalize_with_id `{DateBuiltins} (podcastInfo : RawPodcast.t)
    (episodes : list RawEpisode.t) (z : Z) :
  RawPodcast.collectionId podcastInfo = Val z ->
  exists details, PodcastDetails.normalize podcastInfo episodes = Ok details.
Proof.
  intros E. unfold PodcastDetails.normalize. rewrite E. cbn [toString_req bind].
  eexists. reflexivity.
Qed.

Lemma normalize_without_id `{DateBuiltins} (podcastInfo : RawPodcast.t)
    (episodes : list RawEpisode.t) :
  RawPodcast.collectionId podcastInfo = Undefined
  \/ RawPodcast.collectionId podcastInfo = Null ->
  exists e, PodcastDetails.normalize podcastInfo episodes = Throw e.
Proof.
  intros [E | E]; unfold PodcastDetails.normalize; rewrite E;
    cbn [toString_req bind]; eexists; reflexivity.
Qed.

(** The podcast-details handler answers 200 without content to OPTIONS,
    400 without an id, 404 when the lookup has no result, 200 with the
    details when the first result has a [collectionId], and 500 exactly when
    the lookup request fails or the first result has no [collectionId]. *)
Theorem detail_handler_outcomes :
  forall (D : DateBuiltins) (method : string) (id : nullable string)
         (lookup : result (nullable (list Upstream.t))),
  (method = "OPTIONS" -> detail_handler method id lookup = End 200)
  /\ (method <> "OPTIONS" -> truthy_str id = false ->
        detail_handler method id lookup = Fail 400 "Podcast ID is required")
  /\ (method <> "OPTIONS" -> truthy_str id = true ->
        (lookup = Ok Undefined \/ lookup = Ok Null \/ lookup = Ok (Val []) ->
           detail_handler method id lookup = Fail 404 "Podcast not found")
        /\ (forall first rest z,
              lookup = Ok (Val (first :: rest)) ->
              RawPodcast.collectionId (Upstream.podcast first) = Val z ->
              exists details,
                PodcastDetails.normalize (Upstream.podcast first)
                                         (map Upstream.episode rest) = Ok details
                /\ detail_handler method id lookup = Json 200 details)
        /\ (status_of (detail_handler method id lookup) = 500
            <-> (exists e, lookup = Throw e)
                \/ (exists first rest,
                      lookup = Ok (Val (first :: rest))
                      /\ (RawPodcast.collectionId (Upstream.podcast first) = Undefined
                          \/ RawPodcast.collectionId (Upstream.podcast first) = Null)))).
Proof.
  intros D method id lookup. split; [| split].
  - intros ->. reflexivity.
  - intros Hm Hi. unfold detail_handler.
    rewrite (proj2 (String.eqb_neq method "OPTIONS") Hm), Hi. reflexivity.
  - intros Hm Hi. split; [| split].
    + intros Hl. unfold detail_handler.
      rewrite (proj2 (String.eqb_neq method "OPTIONS") Hm), Hi.
      destruct Hl as [-> | [-> | ->]]; reflexivity.
    + intros first rest z -> Hz.
      destruct (normalize_with_id (Upstream.podcast first) (map Upstream.episode rest)
                  z Hz) as (details & E).
      exists details. split; trivial.
      rewrite (detail_handler_found method id first rest Hm Hi), E. reflexivity.
    + split.
      * intros St. destruct lookup as [[| |[|first rest]]|e].
        -- unfold detail_handler in St.
           rewrite (proj2 (String.eqb_neq method "OPTIONS") Hm), Hi in St.
           discriminate St.
        -- unfold detail_handler in St.
           rewrite (proj2 (String.eqb_neq method "OPTIONS") Hm), Hi in St.
           discriminate St.
        -- unfold detail_handler in St.
           rewrite (proj2 (String.eqb_neq method "OPTIONS") Hm), Hi in St.
           discriminate St.
        -- right. exists first, rest. split; trivial.
           destruct (RawPodcast.collectionId (Upstream.podcast first)) as [| |z] eqn:Hz;
             auto.
           destruct (normalize_with_id (Upstream.podcast first)
                       (map Upstream.episode rest) z Hz) as (details & E).
           rewrite (detail_handler_found method id first rest Hm Hi), E in St.
           discriminate St.
        -- left. now exists e.
      * intros [(e & ->) | (first & rest & -> & Hz)].
        -- unfold detail_handler.
           rewrite (proj2 (String.eqb_neq method "OPTIONS") Hm), Hi. reflexivity.
        -- destruct (normalize_without_id (Upstream.podcast first)
                       (map Upstream.episode rest) Hz) as (e & E).
           rewrite (detail_handler_found method id first rest Hm Hi), E. reflexivity.
Qed.

(* ================================================================== *)
(** * The podcast search *)

Lemma Promise_all_Ok {A : Type} (l : list (result A)) (vs : list A) :
  Promise_all l = Ok vs <-> l = map Ok vs.
Proof.
  revert vs. induction l as [|p l IH]; intros vs; cbn [Promise_all].
  - split.
    + intros [= <-]. reflexivity.
    + destruct vs; [reflexivity | discriminate].
  - destruct p as [a|e].
    + destruct (Promise_all l) as [rest|e] eqn:E.
      * split.
        -- intros [= <-]. cbn [map]. f_equal. now apply IH.
        -- destruct vs as [|v vs]; [discriminate |]. cbn [map].
           intros [= -> Hl]. apply IH in Hl. congruence.
      * split; [discriminate |].
        destruct vs as [|v vs]; [discriminate |]. cbn [map].
        intros [= -> Hl]. apply IH in Hl. discriminate Hl.
    + split; [discriminate |].
      destruct vs as [|v vs]; discriminate.
Qed.

Lemma Promise_all_Throw {A : Type} (l : list (result A)) :
  (exists e, Promise_all l = Throw e) <-> (exists e, In (Throw e) l).
Proof.
  induction l as [|p l IH]; cbn [Promise_all In].
  - split; intros (e & H); [discriminate H | contradiction H].
  - destruct p as [a|e].
    + destruct (Promise_all l) as [rest|e'] eqn:E.
      * split; [intros (e & H); discriminate H |].
        intros (e & [H | H]); [discriminate H |].
        destruct (proj2 IH (ex_intro _ e H)) as (e' & H'). discriminate H'.
      * split; intros _.
        -- destruct (proj1 IH (ex_intro _ e' eq_refl)) as (e & H). exists e. now right.
        -- now exists e'.
    + split; intros _; exists e; auto.
Qed.

Lemma mapi_from_nth {A B : Type} (f : nat -> A -> B) (l : list A) (i k : nat) :
  nth_error (mapi_from f i l) k = option_map (f (i + k)%nat) (nth_error l k).
Proof.
  revert i k. induction l as [|x l IH]; intros i k; cbn [mapi_from].
  - now destruct k.
  - destruct k as [|k]; cbn [nth_error option_map].
    + now rewrite Nat.add_0_r.
    + rewrite IH. now replace (S i + k)%nat with (i + S k)%nat by lia.
Qed.

Lemma mapi_nth {A B : Type} (f : nat -> A -> B) (l : list A) (k : nat) :
  nth_error (mapi f l) k = option_map (f k) (nth_error l k).
Proof. apply mapi_from_nth. Qed.

Lemma mapi_from_length {A B : Type} (f : nat -> A -> B) (l : list A) (i : nat) :
  List.length (mapi_from f i l) = List.length l.
Proof.
  revert i. induction l as [|x l IH]; intros i; cbn [mapi_from List.length]; auto.
Qed.

Lemma mapi_from_In {A B : Type} (f : nat -> A -> B) (l : list A) (i : nat) (y : B) :
  In y (mapi_from f i l) <-> exists k x, nth_error l k = Some x /\ y = f (i + k)%nat x.
Proof.
  split.
  - intros Hy. apply In_nth_error in Hy. destruct Hy as (k & Hk).
    rewrite mapi_from_nth in Hk.
    destruct (nth_error l k) as [x|] eqn:E; [| discriminate Hk].
    injection Hk as <-. now exists k, x.
  - intros (k & x & Hk & ->). apply nth_error_In with k.
    now rewrite mapi_from_nth, Hk.
Qed.

Module PodcastSearchFacts.
Import PodcastSearch.

Lemma attempt_with_id (podcast : podcast_t) (results : nullable (list RawEpisode.t))
    (z : Z) :
  RawPodcast.collectionId (info podcast) = Val z ->
  exists e,
    attempt podcast (Ok results) = Ok (Enriched e)
    /\ id e = Num.toString (Fin z)
    /\ recent_episodes e = map recent (firstn 5 (tl (or_nil results)))
    /\ estimated_listeners e
       = estimateListeners (RawPodcast.trackCount (info podcast))
                           (RawPodcast.primaryGenreName (info podcast))
    /\ episode_count e = or_num (RawPodcast.trackCount (info podcast)) (lit 0)
    /\ genres e = genres_of podcast.
Proof.
  intros E. unfold attempt. cbn [bind]. cbv zeta. rewrite E. cbn [toString_req bind].
  eexists. split; [reflexivity |].
  cbn [id recent_episodes estimated_listeners episode_count genres].
  repeat split.
  destruct results as [| |l]; cbn [or_nil tl firstn]; trivial.
  now rewrite slice_1_6.
Qed.

Lemma enrich_with_id (podcast : podcast_t)
    (lookup : result (nullable (list RawEpisode.t))) (z : Z) :
  RawPodcast.collectionId (info podcast) = Val z ->
  exists r, enrich podcast lookup = Ok r.
Proof.
  intros E. destruct lookup as [results|e].
  - destruct (attempt_with_id podcast results z E) as (r & H & _).
    unfold enrich. rewrite H. now eexists.
  - unfold enrich, attempt. cbn [bind]. rewrite E. cbn [toString_req bind].
    now eexists.
Qed.

Lemma enrich_without_id (podcast : podcast_t)
    (lookup : result (nullable (list RawEpisode.t))) :
  RawPodcast.collectionId (info podcast) = Undefined
  \/ RawPodcast.collectionId (info podcast) = Null ->
  exists e, enrich podcast lookup = Throw e.
Proof.
  intros E. unfold enrich, attempt.
  destruct lookup as [results|e]; cbn [bind]; cbv zeta;
    destruct E as [-> | ->]; cbn [toString_req bind]; eexists; reflexivity.
Qed.

End PodcastSearchFacts.

(** A search result with a [collectionId] is always answered: enriched, with
    the five results after the first of its lookup as recent episodes, when
    the lookup request succeeds, and as the partial record when it fails.  A
    search result without [collectionId] makes the enrichment itself fail,
    also from its [catch] block. *)
Theorem enrich_outcomes :
  forall (podcast : PodcastSearch.podcast_t)
         (lookup : result (nullable (list RawEpisode.t))),
  (forall z, RawPodcast.collectionId (PodcastSearch.info podcast) = Val z ->
     (forall results, lookup = Ok results ->
        exists e,
          PodcastSearch.enrich podcast lookup = Ok (PodcastSearch.Enriched e)
          /\ PodcastSearch.id e = Num.toString (Fin z)
          /\ PodcastSearch.recent_episodes e
             = map PodcastSearch.recent (firstn 5 (tl (or_nil results)))
          /\ (List.length (PodcastSearch.recent_episodes e) <= 5)%nat
          /\ PodcastSearch.estimated_listeners e
             = estimateListeners
                 (RawPodcast.trackCount (PodcastSearch.info podcast))
                 (RawPodcast.primaryGenreName (PodcastSearch.info podcast)))
     /\ (forall e, lookup = Throw e ->
           PodcastSearch.enrich podcast lookup
           = Ok (PodcastSearch.Partial
                   (Num.toString (Fin z))
                   (RawPodcast.collectionName (PodcastSearch.info podcast))
                   (RawPodcast.artistName (PodcastSearch.info podcast)))))
  /\ (RawPodcast.collectionId (PodcastSearch.info podcast) = Undefined
      \/ RawPodcast.collectionId (PodcastSearch.info podcast) = Null ->
      exists e, PodcastSearch.enrich podcast lookup = Throw e).
Proof.
  intros podcast lookup. split.
  - intros z E. split.
    + intros results ->.
      destruct (PodcastSearchFacts.attempt_with_id podcast results z E)
        as (e & H & Hid & Hrec & Hest & _).
      exists e. unfold PodcastSearch.enrich. rewrite H.
      repeat split; trivial.
      rewrite Hrec, length_map, length_firstn. lia.
    + intros e ->. unfold PodcastSearch.enrich, PodcastSearch.attempt.
      cbn [bind]. rewrite E. reflexivity.
  - apply PodcastSearchFacts.enrich_without_id.
Qed.

(** The podcast search answers 200 without content to OPTIONS and 400
    without a query.  Otherwise it answers 500 exactly when the search request
    fails or one of its results has no [collectionId]; when every result has
    one, it answers 200 with one item per result, in the order of the results,
    whatever the lookups of the single podcasts do. *)
Theorem podcast_search_outcomes :
  forall (method : string) (query : nullable string)
         (search : result (nullable (list PodcastSearch.podcast_t)))
         (lookup : nat -> result (nullable (list RawEpisode.t))),
  (method = "OPTIONS" -> PodcastSearch.handler method query search lookup = End 200)
  /\ (method <> "OPTIONS" -> truthy_str query = false ->
        PodcastSearch.handler method query search lookup
        = Fail 400 "Query parameter is required")
  /\ (method <> "OPTIONS" -> truthy_str query = true ->
        (status_of (PodcastSearch.handler method query search lookup) = 500
         <-> (exists e, search = Throw e)
             \/ (exists data podcast,
                   search = Ok data /\ In podcast (or_nil data)
                   /\ (RawPodcast.collectionId (PodcastSearch.info podcast) = Undefined
                       \/ RawPodcast.collectionId (PodcastSearch.info podcast) = Null)))
        /\ (forall data,
              search = Ok data ->
              (forall podcast, In podcast (or_nil data) ->
                 exists z, RawPodcast.collectionId (PodcastSearch.info podcast) = Val z) ->
              exists items,
                PodcastSearch.handler method query search lookup
                = Json 200 {|
                    PodcastSearch.results := items;
                    PodcastSearch.result_count := List.length (or_nil data);
                    PodcastSearch.query := ToPropertyKey query
                  |}
                /\ List.length items = List.length (or_nil data)
                /\ (forall i podcast, nth_error (or_nil data) i = Some podcast ->
                      exists item,
                        nth_error items i = Some item
                        /\ PodcastSearch.enrich podcast (lookup i) = Ok item))).
Proof.
  intros method query search lookup. split; [| split].
  - intros ->. reflexivity.
  - intros Hm Hq. unfold PodcastSearch.handler.
    rewrite (proj2 (String.eqb_neq method "OPTIONS") Hm), Hq. reflexivity.
  - intros Hm Hq.
    assert (Hh : PodcastSearch.handler method query search lookup
                 = catch_500 "Failed to search podcasts"
                     (data <- search ;;
                      enrichedResults <-
                        Promise_all
                          (mapi (fun i podcast => PodcastSearch.enrich podcast (lookup i))
                                (or_nil data)) ;;
                      Ok (Json 200 {|
                        PodcastSearch.results := enrichedResults;
                        PodcastSearch.result_count := List.length enrichedResults;
                        PodcastSearch.query := ToPropertyKey query
                      |}))).
    { unfold PodcastSearch.handler.
      now rewrite (proj2 (String.eqb_neq method "OPTIONS") Hm), Hq. }
    rewrite Hh. clear Hh.
    destruct search as [data|e]; cbn [bind].
    + set (l := mapi (fun i podcast => PodcastSearch.enrich podcast (lookup i))
                     (or_nil data)).
      destruct (Promise_all l) as [items|e] eqn:E; cbn [bind catch_500 status_of].
      * assert (Hl : l = map Ok items) by now apply Promise_all_Ok.
        assert (Hn : forall i podcast, nth_error (or_nil data) i = Some podcast ->
                  exists item, nth_error items i = Some item
                               /\ PodcastSearch.enrich podcast (lookup i) = Ok item).
        { intros i podcast Hi.
          assert (Hi' : nth_error l i = Some (PodcastSearch.enrich podcast (lookup i))).
          { unfold l. now rewrite mapi_nth, Hi. }
          rewrite Hl, nth_error_map in Hi'.
          destruct (nth_error items i) as [item|]; [| discriminate Hi'].
          injection Hi' as Hi'. now exists item. }
        assert (Hlen : List.length items = List.length (or_nil data)).
        { transitivity (List.length l).
          - now rewrite Hl, length_map.
          - apply mapi_from_length. }
        split.
        -- split; [discriminate |].
           intros [(e & He) | (data' & podcast & [= <-] & Hin & Hid)]; [discriminate He |].
           apply In_nth_error in Hin. destruct Hin as (i & Hi).
           destruct (Hn i podcast Hi) as (item & _ & Hitem).
           destruct (PodcastSearchFacts.enrich_without_id podcast (lookup i) Hid)
             as (e & He).
           congruence.
        -- intros data' [= <-] _. exists items. rewrite Hlen. auto.
      * split.
        -- split; [| reflexivity]. intros _. right.
           destruct (proj1 (Promise_all_Throw l) (ex_intro _ e E)) as (e' & Hin).
           apply mapi_from_In in Hin. destruct Hin as (k & podcast & Hk & Hthrow).
           exists data, podcast. split; trivial. split; [now apply nth_error_In with k |].
           destruct (RawPodcast.collectionId (PodcastSearch.info podcast))
             as [| |z] eqn:Hz; auto.
           destruct (PodcastSearchFacts.enrich_with_id podcast (lookup (0 + k)%nat) z Hz)
             as (r & Hr).
           congruence.
        -- intros data' [= <-] Hall. exfalso.
           destruct (proj1 (Promise_all_Throw l) (ex_intro _ e E)) as (e' & Hin).
           apply mapi_from_In in Hin. destruct Hin as (k & podcast & Hk & Hthrow).
           destruct (Hall podcast (nth_error_In _ _ Hk)) as (z & Hz).
           destruct (PodcastSearchFacts.enrich_with_id podcast (lookup (0 + k)%nat) z Hz)
             as (r & Hr).
           congruence.
    + cbn [catch_500 status_of]. split.
      * split; [| reflexivity]. intros _. left. now exists e.
      * intros data [=].
Qed.

(* ================================================================== *)
(** * The episode search *)

Section SortFacts.
Context {A : Type} (cmp : A -> A -> number Q).

Lemma insert_perm (x : A) (l : list A) : Permutation (insert cmp x l) (x :: l).
Proof.
  induction l as [|y l IH]; cbn [insert]; trivial.
  destruct (cmp x y > lit 0)%js; trivial.
  rewrite IH. apply perm_swap.
Qed.

Lemma sort_perm (l : list A) : Permutation (sort cmp l) l.
Proof.
  induction l as [|x l IH]; [constructor |].
  unfold sort in *. cbn [fold_right]. rewrite insert_perm. now constructor.
Qed.

(** A comparator that orders by a key, largest first. *)
Context (key : A -> Z).

Lemma insert_sorted (x : A) (l : list A) :
  (forall y, In y l -> (cmp x y > lit 0)%js = (key x <? key y)) ->
  Sorted (fun a b => key b <= key a) l ->
  Sorted (fun a b => key b <= key a) (insert cmp x l).
Proof.
  intros Hc Hs. induction l as [|y l IH]; cbn [insert].
  - repeat constructor.
  - rewrite (Hc y) by now left.
    destruct (key x <? key y) eqn:E.
    + apply Z.ltb_lt in E. inversion Hs as [|? ? Hs' Hd]; subst.
      constructor.
      * apply IH; trivial. intros z Hz. apply Hc. now right.
      * destruct l as [|z l]; cbn [insert].
        -- constructor. lia.
        -- rewrite (Hc z) by (right; now left).
           destruct (key x <? key z); constructor; trivial.
           ++ now inversion Hd.
           ++ lia.
    + apply Z.ltb_ge in E. constructor; trivial. now constructor.
Qed.

Lemma insert_stable (x : A) (l : list A) (t : Z) :
  (forall y, In y l -> (cmp x y > lit 0)%js = (key x <? key y)) ->
  filter (fun a => key a =? t) (insert cmp x l)
  = filter (fun a => key a =? t) (x :: l).
Proof.
  intros Hc. induction l as [|y l IH]; cbn [insert]; trivial.
  rewrite (Hc y) by now left.
  destruct (key x <? key y) eqn:E; trivial.
  apply Z.ltb_lt in E. cbn [filter] in *.
  rewrite IH by (intros z Hz; apply Hc; now right).
  destruct (key x =? t) eqn:Ex, (key y =? t) eqn:Ey; trivial.
  apply Z.eqb_eq in Ex, Ey. lia.
Qed.

Lemma sort_sorted_stable (l : list A) :
  (forall a b, In a l -> In b l -> (cmp a b > lit 0)%js = (key a <? key b)) ->
  Sorted (fun a b => key b <= key a) (sort cmp l)
  /\ (forall t, filter (fun a => key a =? t) (sort cmp l)
                = filter (fun a => key a =? t) l).
Proof.
  intros Hc. induction l as [|x l IH]; [split; [constructor | reflexivity] |].
  destruct IH as (Hs & Hf).
  { intros a b Ha Hb. apply Hc; now right. }
  assert (Hx : forall y, In y (sort cmp l) -> (cmp x y > lit 0)%js = (key x <? key y)).
  { intros y Hy. apply Hc; [now left |]. right.
    now apply (Permutation_in _ (sort_perm l)). }
  unfold sort in *. cbn [fold_right]. split.
  - now apply insert_sorted.
  - intros t. rewrite insert_stable by assumption. cbn [filter]. now rewrite Hf.
Qed.

End SortFacts.

Section EpisodeSearchFacts.
Context `{DateBuiltins} `{StringBuiltins}.

Lemma candidates_incl (query : string) (podcast_id : nullable string)
    (data : list RawEpisode.t) (ep : SearchEpisode.t) :
  In ep (EpisodeSearch.candidates query podcast_id data) ->
  exists item,
    In item data /\ SearchEpisode.is_episode item = true
    /\ ep = SearchEpisode.normalize item.
Proof.
  unfold EpisodeSearch.candidates, SearchEpisode.normalize_all. cbv zeta.
  intros Hin.
  assert (Hin' : In ep (map SearchEpisode.normalize
                            (filter SearchEpisode.is_episode data))).
  { destruct (_ && _); trivial. now apply filter_In in Hin. }
  apply in_map_iff in Hin'. destruct Hin' as (item & <- & Hi).
  apply filter_In in Hi. now exists item.
Qed.

Lemma by_release_by_key (l : list SearchEpisode.t) :
  (forall ep, In ep l -> new_Date (SearchEpisode.release_date ep) <> None) ->
  forall a b, In a l -> In b l ->
  (EpisodeSearch.by_release a b > lit 0)%js
  = (EpisodeSearch.release_time a <? EpisodeSearch.release_time b).
Proof.
  intros Hv a b Ha Hb. unfold EpisodeSearch.by_release, EpisodeSearch.release_time.
  pose proof (Hv a Ha) as Va. pose proof (Hv b Hb) as Vb.
  destruct (new_Date (SearchEpisode.release_date a)) as [t|]; [| contradiction].
  destruct (new_Date (SearchEpisode.release_date b)) as [u|]; [| contradiction].
  apply newest_first_gt.
Qed.

Lemma select_sorted_stable (l : list SearchEpisode.t) :
  (forall ep, In ep l -> new_Date (SearchEpisode.release_date ep) <> None) ->
  Sorted EpisodeSearch.not_older (sort EpisodeSearch.by_release l)
  /\ (forall t, filter (EpisodeSearch.released_at t) (sort EpisodeSearch.by_release l)
                = filter (EpisodeSearch.released_at t) l).
Proof.
  intros Hv.
  destruct (sort_sorted_stable EpisodeSearch.by_release EpisodeSearch.release_time l
              (by_release_by_key l Hv)) as (Hs & Hf).
  assert (Hv' : forall ep, In ep (sort EpisodeSearch.by_release l) ->
                  new_Date (SearchEpisode.release_date ep) <> None).
  { intros ep Hin. apply Hv. now apply (Permutation_in _ (sort_perm EpisodeSearch.by_release l)). }
  split.
  - apply Sorted_StronglySorted in Hs; [| intros a b c; lia].
    apply StronglySorted_Sorted.
    revert Hs Hv'. generalize (sort EpisodeSearch.by_release l). intros s Hs Hv'.
    induction Hs as [|a s Hs IH Ha]; constructor.
    + apply IH. intros ep Hin. apply Hv'. now right.
    + rewrite Forall_forall. intros b Hb.
      rewrite Forall_forall in Ha. specialize (Ha b Hb). unfold EpisodeSearch.release_time in Ha.
      pose proof (Hv' a (or_introl eq_refl)) as Va.
      pose proof (Hv' b (or_intror Hb)) as Vb.
      unfold EpisodeSearch.not_older.
      destruct (new_Date (SearchEpisode.release_date a)) as [t|]; [| contradiction].
      destruct (new_Date (SearchEpisode.release_date b)) as [u|]; [| contradiction].
      now exists t, u.
  - intros t.
    assert (Hk : forall s, (forall ep, In ep s ->
                              new_Date (SearchEpisode.release_date ep) <> None) ->
                 filter (EpisodeSearch.released_at t) s
                 = filter (fun a => EpisodeSearch.release_time a =? t) s).
    { intros s Hvs. apply filter_ext_in. intros ep Hin.
      unfold EpisodeSearch.released_at, EpisodeSearch.release_time.
      pose proof (Hvs ep Hin) as V.
      now destruct (new_Date (SearchEpisode.release_date ep)). }
    rewrite !Hk by assumption. apply Hf.
Qed.

Lemma handler_found (method : string) (query podcast_id : nullable string)
    (data : nullable (list RawEpisode.t)) :
  method <> "OPTIONS" -> truthy_str query = true ->
  exists body,
    EpisodeSearch.handler method query podcast_id (Ok data) = Json 200 body
    /\ EpisodeSearch.results body
       = EpisodeSearch.select (ToPropertyKey query) podcast_id (or_nil data)
    /\ EpisodeSearch.result_count body = List.length (EpisodeSearch.results body)
    /\ EpisodeSearch.query body = ToPropertyKey query.
Proof.
  intros Hm Hq. unfold EpisodeSearch.handler.
  rewrite (proj2 (String.eqb_neq method "OPTIONS") Hm), Hq.
  cbn [negb bind].
  assert (Hnil : EpisodeSearch.select (ToPropertyKey query) podcast_id [] = []).
  { unfold EpisodeSearch.select, EpisodeSearch.candidates. cbv zeta.
    now destruct (_ && _). }
  destruct data as [| |[|first rest]]; cbn [catch_500 or_nil];
    eexists; (split; [reflexivity |]);
    cbn [EpisodeSearch.results EpisodeSearch.result_count EpisodeSearch.query];
    rewrite ?Hnil; auto.
Qed.

End EpisodeSearchFacts.


(** When every upstream episode has a valid release date, the results of
    the episode search are in the order of their release, newest first, and
    episodes released at the same instant keep the order the upstream results
    have them in. *)
Theorem episode_search_newest_first :
  forall (D : DateBuiltins) (S : StringBuiltins) (query : string)
         (podcast_id : nullable string) (data : list RawEpisode.t),
  (forall item, In item data -> SearchEpisode.is_episode item = true ->
     new_Date (RawEpisode.releaseDate item) <> None) ->
  Sorted EpisodeSearch.not_older (EpisodeSearch.select query podcast_id data)
  /\ (forall t,
        filter (EpisodeSearch.released_at t) (EpisodeSearch.select query podcast_id data)
        = filter (EpisodeSearch.released_at t)
                 (EpisodeSearch.candidates query podcast_id data)).
Proof.
  intros D S query podcast_id data Hv. unfold EpisodeSearch.select.
  apply select_sorted_stable.
  intros ep Hin. apply candidates_incl in Hin.
  destruct Hin as (item & Hi & He & ->). now apply Hv.
Qed.

Lemma episode_search_newest_first_witness :
  map SearchEpisode.title
      (@EpisodeSearch.select iso8601 ascii_strings "news" (Val "1") search_hits)
  = [Val "News"; Val "More NEWS"; Val "Older news"]
  /\ Sorted (@EpisodeSearch.not_older iso8601)
            (@EpisodeSearch.select iso8601 ascii_strings "news" (Val "1") search_hits).
Proof.
  split; [vm_compute; reflexivity |].
  apply (episode_search_newest_first iso8601 ascii_strings "news" (Val "1") search_hits).
  intros item [<- | [<- | [<- | [<- | []]]]] E; try discriminate E;
    vm_compute; discriminate.
Defined.

(* ================================================================== *)
(** * What the analyzers do not depend on *)

Lemma sorted_perm_eq (l l' : list Z) :
  Sorted Z.ge l -> Sorted Z.ge l' -> Permutation l l' -> l = l'.
Proof.
  intros Hs Hs'.
  apply Sorted_StronglySorted in Hs; [| intros a b c; lia].
  apply Sorted_StronglySorted in Hs'; [| intros a b c; lia].
  revert l' Hs'. induction Hs as [|a l Hs IH Ha]; intros l' Hs' Hp.
  - now apply Permutation_nil in Hp.
  - destruct Hs' as [|b l' Hs' Hb].
    + symmetry in Hp. now apply Permutation_nil in Hp.
    + assert (a = b).
      { rewrite Forall_forall in Ha, Hb.
        assert (Hin : In a (b :: l')) by (apply (Permutation_in _ Hp); now left).
        assert (Hin' : In b (a :: l))
          by (apply (Permutation_in _ (Permutation_sym Hp)); now left).
        destruct Hin as [-> | Hin]; trivial.
        destruct Hin' as [-> | Hin']; trivial.
        specialize (Ha b Hin'). specialize (Hb a Hin). lia. }
      subst b. f_equal. apply IH; trivial. now apply Permutation_cons_inv in Hp.
Qed.

Lemma descending_unique (l l' : list Z) :
  Permutation l l' -> Spec.descending l = Spec.descending l'.
Proof.
  intros Hp. apply sorted_perm_eq; try apply descending_sorted.
  rewrite !descending_perm. exact Hp.
Qed.

Lemma descending_bounds (l : list Z) (t : Z) (ts : list Z) :
  Spec.descending l = t :: ts ->
  In t l /\ In (last (t :: ts) 0) l
  /\ (forall u, In u l -> last (t :: ts) 0 <= u <= t).
Proof.
  intros E.
  pose proof (descending_sorted l) as Hs. pose proof (descending_perm l) as Hp.
  rewrite E in Hs, Hp.
  apply Sorted_StronglySorted in Hs; [| intros a b c; lia].
  assert (Hlast : forall s : list Z, StronglySorted Z.ge s -> s <> [] ->
            In (last s 0) s /\ forall u, In u s -> last s 0 <= u).
  { clear. intros s Hs. induction Hs as [|a s Hs IH Ha]; [congruence |]. intros _.
    destruct s as [|b s].
    - cbn [last]. split; [now left |]. intros u [<- | []]. lia.
    - destruct IH as (Hi & Hm); [discriminate |].
      change (last (a :: b :: s) 0) with (last (b :: s) 0).
      split; [now right |].
      intros u [<- | Hu]; [| now apply Hm].
      rewrite Forall_forall in Ha. specialize (Ha _ Hi). lia. }
  destruct (Hlast (t :: ts) Hs) as (Hi & Hm); [discriminate |].
  split; [apply (Permutation_in _ Hp); now left |].
  split; [now apply (Permutation_in _ Hp) |].
  intros u Hu. apply (Permutation_in _ (Permutation_sym Hp)) in Hu.
  split; [now apply Hm |].
  destruct Hu as [<- | Hu]; [lia |].
  inversion Hs as [|? ? _ Ha]; subst. rewrite Forall_forall in Ha.
  specialize (Ha u Hu). lia.
Qed.

Section OrderFacts.
Context `{DateBuiltins}.

Lemma timestamps_perm {A : Type} (f : A -> nullable string) (l l' : list A) :
  Permutation l l' ->
  Spec.descending (Spec.timestamps (map f l))
  = Spec.descending (Spec.timestamps (map f l')).
Proof.
  intros Hp. apply descending_unique. unfold Spec.timestamps.
  apply Permutation_flat_map. now apply Permutation_map.
Qed.

End OrderFacts.

(** The dates and the publishing frequency of the episode analytics do not
    depend on the order the episodes are listed in. *)
Theorem analytics_order_independent :
  forall (D : DateBuiltins) (episodes episodes' : list Episode.t),
  Permutation episodes episodes' -> episodes <> [] ->
  exists a a',
    generateEpisodeAnalytics episodes = Ok (Val a)
    /\ generateEpisodeAnalytics episodes' = Ok (Val a')
    /\ EpisodeAnalytics.total_episodes a = EpisodeAnalytics.total_episodes a'
    /\ EpisodeAnalytics.first_episode_date a = EpisodeAnalytics.first_episode_date a'
    /\ EpisodeAnalytics.latest_episode_date a = EpisodeAnalytics.latest_episode_date a'
    /\ EpisodeAnalytics.average_days_between_episodes a
       = EpisodeAnalytics.average_days_between_episodes a'
    /\ EpisodeAnalytics.publishing_frequency a
       = EpisodeAnalytics.publishing_frequency a'.
Proof.
  intros D episodes episodes' Hp Hne.
  assert (Hne' : episodes' <> []).
  { intros ->. now apply Permutation_sym, Permutation_nil in Hp. }
  destruct (generateEpisodeAnalytics_value episodes Hne)
    as (a & E & Ht & Hd & Hf & _ & _ & Hfirst & Hlatest).
  destruct (generateEpisodeAnalytics_value episodes' Hne')
    as (a' & E' & Ht' & Hd' & Hf' & _ & _ & Hfirst' & Hlatest').
  exists a, a'.
  rewrite <- (timestamps_perm Episode.release_date episodes episodes' Hp)
    in Hd', Hf', Hfirst', Hlatest'.
  rewrite Ht, Ht', Hd, Hd', Hf, Hf', Hfirst, Hfirst', Hlatest, Hlatest'.
  repeat split; trivial. now apply Permutation_length.
Qed.

Lemma analytics_order_independent_witness :
  match @generateEpisodeAnalytics iso8601 (episodes_at weekly_times),
        @generateEpisodeAnalytics iso8601 (rev (episodes_at weekly_times)) with
  | Ok (Val a), Ok (Val a') =>
      EpisodeAnalytics.first_episode_date a = EpisodeAnalytics.first_episode_date a'
      /\ EpisodeAnalytics.average_days_between_episodes a = Val (Fin 7)
      /\ EpisodeAnalytics.average_days_between_episodes a' = Val (Fin 7)
  | _, _ => False
  end.
Proof.
  destruct (analytics_order_independent iso8601 (episodes_at weekly_times)
              (rev (episodes_at weekly_times)))
    as (a & a' & E & E' & _ & Hfirst & _ & Hd & _).
  - apply Permutation_rev.
  - discriminate.
  - rewrite E, E'. split; [exact Hfirst |].
    assert (Ha : EpisodeAnalytics.average_days_between_episodes a = Val (Fin 7)).
    { assert (Ev : @generateEpisodeAnalytics iso8601 (episodes_at weekly_times)
                   = Ok (Val a)) by exact E.
      vm_compute in Ev. injection Ev as <-. reflexivity. }
    split; [exact Ha |]. now rewrite <- Hd.
Defined.

(** The schedule of the episode insights does not depend on the order the
    episodes are listed in. *)
Theorem insights_order_independent :
  forall (D : DateBuiltins) (episodes episodes' : list RawEpisode.t),
  Permutation episodes episodes' -> episodes <> [] ->
  exists a a',
    analyzeEpisodes episodes = Val a
    /\ analyzeEpisodes episodes' = Val a'
    /\ EpisodeInsights.total_analyzed a = EpisodeInsights.total_analyzed a'
    /\ EpisodeInsights.publishing_frequency_days a
       = EpisodeInsights.publishing_frequency_days a'
    /\ EpisodeInsights.estimated_schedule a = EpisodeInsights.estimated_schedule a'.
Proof.
  intros D episodes episodes' Hp Hne.
  assert (Hne' : episodes' <> []).
  { intros ->. now apply Permutation_sym, Permutation_nil in Hp. }
  destruct (analyzeEpisodes_value episodes Hne) as (a & E & Ht & Hd & Hf & _).
  destruct (analyzeEpisodes_value episodes' Hne') as (a' & E' & Ht' & Hd' & Hf' & _).
  exists a, a'.
  rewrite <- (timestamps_perm RawEpisode.releaseDate episodes episodes' Hp) in Hd', Hf'.
  rewrite Ht, Ht', Hd, Hd', Hf, Hf'.
  repeat split; trivial. now apply Permutation_length.
Qed.

Lemma insights_order_independent_witness :
  match @analyzeEpisodes iso8601 (raw_episodes_at weekly_times),
        @analyzeEpisodes iso8601 (rev (raw_episodes_at weekly_times)) with
  | Val a, Val a' =>
      EpisodeInsights.estimated_schedule a = EpisodeInsights.estimated_schedule a'
  | _, _ => False
  end.
Proof.
  destruct (insights_order_independent iso8601 (raw_episodes_at weekly_times)
              (rev (raw_episodes_at weekly_times)))
    as (a & a' & E & E' & _ & _ & Hs).
  - apply Permutation_rev.
  - discriminate.
  - rewrite E, E'. exact Hs.
Defined.



(* ================================================================== *)
(** * The average duration and its two renderings *)

Lemma sum_nonneg (qs : list Q) (a : Q) :
  (0 <= a)%Q -> Forall (fun q => 0 < q)%Q qs -> (0 <= fold_left Qplus qs a)%Q.
Proof.
  intros Ha Hq. revert a Ha. induction Hq as [|q qs Hq _ IH]; intros a Ha; cbn; trivial.
  apply IH. Lqa.lra.
Qed.

Lemma positive_durations (seconds : list (number Q)) :
  Forall (fun d => d = NaN \/ exists q, d = Fin q) seconds ->
  exists qs,
    filter (fun d => (d > lit 0)%js) seconds = map Fin qs
    /\ Forall (fun q => 0 < q)%Q qs.
Proof.
  induction 1 as [|d seconds Hd _ (qs & E & Hq)]; [now exists [] |].
  cbn [filter]. rewrite E. destruct Hd as [-> | (q & ->)].
  - now exists qs.
  - unfold lit. rewrite gt_Fin. destruct (Qle_bool q (inject_Z 0)) eqn:L; cbn [negb].
    + now exists qs.
    + exists (q :: qs). cbn [map]. split; trivial. constructor; trivial.
      apply Qnot_le_lt. intros C. apply Qle_bool_iff in C.
      change (inject_Z 0) with 0%Q in L. congruence.
Qed.

Lemma avgDuration_finite (seconds : list (number Q)) :
  Forall (fun d => d = NaN \/ exists q, d = Fin q) seconds ->
  exists q, avgDuration seconds = Fin q /\ (0 <= q)%Q.
Proof.
  intros Hf. destruct (positive_durations seconds Hf) as (qs & E & Hq).
  assert (Ea : avgDuration seconds
               = if (0 <? List.length qs)%nat
                 then (sum (map Fin qs) / length_num qs)%js else lit 0).
  { unfold avgDuration. cbv zeta. rewrite E. unfold length_num.
    now rewrite length_map. }
  rewrite Ea. clear Ea.
  destruct (0 <? List.length qs)%nat eqn:L.
  - apply Nat.ltb_lt in L. unfold sum, length_num, lit. rewrite sum_Fin.
    rewrite (div_Fin_length _ _ L). eexists. split; [reflexivity |].
    apply Qle_shift_div_l.
    + change 0%Q with (inject_Z 0). rewrite <- Zlt_Qlt. lia.
    + rewrite Qmult_0_l. apply sum_nonneg; trivial. discriminate.
  - exists (inject_Z 0). split; [reflexivity | discriminate].
Qed.

Lemma seconds_of_finite (v : nullable (number Q)) :
  v = Undefined \/ v = Null \/ (exists q, v = Val (Fin q)) ->
  (ToNumber v / lit 1000)%js = NaN \/ exists q, (ToNumber v / lit 1000)%js = Fin q.
Proof.
  intros [-> | [-> | (q & ->)]]; [now left | right | right].
  - eexists. reflexivity.
  - eexists. cbn [ToNumber]. apply div_Fin_pos.
Qed.

Lemma floor_round (q : Q) :
  Qfloor q <= Qfloor (q + (1 # 2)) <= Qfloor q + 1.
Proof.
  split.
  - apply Qfloor_resp_le. Lqa.lra.
  - pose proof (Qfloor_le (q + (1 # 2))) as Hlo.
    pose proof (Qlt_floor q) as Hhi.
    assert (Hlt : (inject_Z (Qfloor (q + (1 # 2))) < inject_Z (Qfloor q + 2))%Q).
    { rewrite inject_Z_plus in Hhi |- *. change (inject_Z 1) with 1%Q in Hhi.
      change (inject_Z 2) with 2%Q. Lqa.lra. }
    rewrite <- Zlt_Qlt in Hlt. lia.
Qed.



(* ================================================================== *)
(** * Search results with missing fields *)

Lemma estimateListeners_undefined (genre : nullable string) :
  estimateListeners Undefined genre = NaN.
Proof.
  unfold estimateListeners. cbn [ToNumber Num.div]. cbv zeta.
  change (Math_min (NaN / lit 100)%js (lit 5)) with (@NaN Q).
  now destruct (prop_ToNumber _) as [|[]|q].
Qed.

Lemma estimateListeners_null (genre : nullable string) :
  inherited (ToPropertyKey genre) = false ->
  estimateListeners Null genre = Fin (Spec.search_multiplier (ToPropertyKey genre)).
Proof.
  intros Hi. change (estimateListeners Null genre)
    with (estimateListeners (Val (lit 0)) genre).
  rewrite (estimateListeners_value 0 genre Hi), listeners_Z. f_equal.
  rewrite Z.min_l by lia. replace (100 + 0) with 100 by lia.
  apply Z.div_mul. lia.
Qed.

(** A search result without [trackCount] is listed with episode count 0
    and with an estimate that is not a number; when [trackCount] is null the
    estimate is the multiplier of the genre. *)
Theorem listeners_without_track_count :
  forall (podcast : PodcastSearch.podcast_t) (results : nullable (list RawEpisode.t))
         (z : Z),
  RawPodcast.collectionId (PodcastSearch.info podcast) = Val z ->
  exists e,
    PodcastSearch.enrich podcast (Ok results) = Ok (PodcastSearch.Enriched e)
    /\ (RawPodcast.trackCount (PodcastSearch.info podcast) = Undefined ->
          PodcastSearch.episode_count e = lit 0
          /\ PodcastSearch.estimated_listeners e = NaN)
    /\ (RawPodcast.trackCount (PodcastSearch.info podcast) = Null ->
        inherited (ToPropertyKey (RawPodcast.primaryGenreName (PodcastSearch.info podcast)))
        = false ->
          PodcastSearch.episode_count e = lit 0
          /\ PodcastSearch.estimated_listeners e
             = Fin (Spec.search_multiplier
                      (ToPropertyKey
                         (RawPodcast.primaryGenreName (PodcastSearch.info podcast))))).
Proof.
  intros podcast results z E.
  destruct (PodcastSearchFacts.attempt_with_id podcast results z E)
    as (e & H & _ & _ & Hest & Hcount & _).
  exists e. unfold PodcastSearch.enrich. rewrite H. split; [reflexivity |].
  rewrite Hest, Hcount. split.
  - intros ->. split; [reflexivity | apply estimateListeners_undefined].
  - intros -> Hi. split; [reflexivity | now apply estimateListeners_null].
Qed.

Lemma listeners_without_track_count_witness :
  match PodcastSearch.enrich (found_podcast (Val 7) Undefined) (Ok Undefined),
        PodcastSearch.enrich (found_podcast (Val 7) Null) (Ok Undefined) with
  | Ok (PodcastSearch.Enriched e), Ok (PodcastSearch.Enriched e') =>
      PodcastSearch.estimated_listeners e = NaN
      /\ PodcastSearch.estimated_listeners e' = Fin 12000
  | _, _ => False
  end.
Proof.
  destruct (listeners_without_track_count (found_podcast (Val 7) Undefined) Undefined 7
              eq_refl) as (e & E & Hu & _).
  destruct (listeners_without_track_count (found_podcast (Val 7) Null) Undefined 7
              eq_refl) as (e' & E' & _ & Hn).
  rewrite E, E'. split.
  - now apply Hu.
  - now apply Hn.
Defined.

Lemma skipn_step {A : Type} (g : list A) (i : nat) :
  match nth_error g i with
  | Some s => skipn i g = s :: skipn (S i) g
  | None => skipn i g = [] /\ skipn (S i) g = []
  end.
Proof.
  revert i. induction g as [|a g IH]; intros i.
  - now destruct i.
  - destruct i as [|i]; [reflexivity |]. apply (IH i).
Qed.

Lemma names_by_position (ids g : list string) (i : nat) :
  mapi_from (fun idx (_ : string) =>
               match nth_error g idx with
               | Some s => Val s
               | None => Undefined
               end) i ids
  = (map Val (firstn (List.length ids) (skipn i g))
     ++ repeat Undefined (List.length ids - List.length (skipn i g)))%list.
Proof.
  revert i. induction ids as [|x ids IH]; intros i; [reflexivity |].
  cbn [mapi_from List.length]. rewrite IH.
  pose proof (skipn_step g i) as Hs.
  destruct (nth_error g i) as [s|].
  - rewrite Hs. reflexivity.
  - destruct Hs as (-> & ->). rewrite !firstn_nil. cbn [List.length map app].
    now rewrite !Nat.sub_0_r.
Qed.

(** The genres of an enriched search result follow [genreIds]: one entry
    per id, the genre names by position, undefined where a name is missing;
    there are none when [genreIds] is missing. *)
Theorem genres_follow_ids :
  forall (podcast : PodcastSearch.podcast_t),
  (PodcastSearch.genreIds podcast = Undefined \/ PodcastSearch.genreIds podcast = Null ->
     PodcastSearch.genres_of podcast = [])
  /\ (forall ids,
        PodcastSearch.genreIds podcast = Val ids ->
        List.length (PodcastSearch.genres_of podcast) = List.length ids
        /\ (RawPodcast.genres (PodcastSearch.info podcast) = Undefined
            \/ RawPodcast.genres (PodcastSearch.info podcast) = Null ->
              PodcastSearch.genres_of podcast = repeat Undefined (List.length ids))
        /\ (forall g,
              RawPodcast.genres (PodcastSearch.info podcast) = Val g ->
              PodcastSearch.genres_of podcast
              = (map Val (firstn (List.length ids) g)
                 ++ repeat Undefined (List.length ids - List.length g))%list)).
Proof.
  intros podcast. split.
  - unfold PodcastSearch.genres_of. now intros [-> | ->].
  - intros ids E. unfold PodcastSearch.genres_of. rewrite E. split; [| split].
    + apply mapi_from_length.
    + assert (Hu : forall (l : list string) i,
                mapi_from (fun _ (_ : string) => @Undefined string) i l
                = repeat Undefined (List.length l)).
      { clear. induction l as [|x l IH]; intros i; cbn; [reflexivity |].
        now rewrite IH. }
      intros [-> | ->]; apply Hu.
    + intros g ->. unfold mapi. now rewrite names_by_position.
Qed.

(* ================================================================== *)
(** * The shape of the detail-context estimate *)

Lemma Int_part_monotone (x y : R) : (x <= y)%R -> Int_part x <= Int_part y.
Proof.
  intros Hxy.
  destruct (base_Int_part x) as (Hx & _). destruct (base_Int_part y) as (_ & Hy).
  assert (Hlt : (IZR (Int_part x) < IZR (Int_part y + 1))%R)
    by (rewrite plus_IZR; lra).
  apply lt_IZR in Hlt. lia.
Qed.

Lemma Int_part_IZR (z : Z) : Int_part (IZR z) = z.
Proof. symmetry. apply Int_part_spec. lra. Qed.

Lemma detail_multiplier_pos (genre : string) : (0 < Q2R (Spec.detail_multiplier genre))%R.
Proof.
  replace 0%R with (Q2R 0) by (unfold Q2R; simpl; lra).
  apply Qlt_Rlt. unfold Spec.detail_multiplier.
  repeat match goal with
         | |- context [String.eqb genre ?k] => destruct (String.eqb genre k); [reflexivity |]
         end.
  reflexivity.
Qed.

Lemma log10_monotone (n n' : nat) :
  (n <= n')%nat ->
  (0 <= ln (INR n + 1) / ln 10 <= ln (INR n' + 1) / ln 10)%R.
Proof.
  intros Hn. pose proof ln_10_pos as Hp. pose proof (pos_INR n) as H0.
  assert (Hle : (INR n <= INR n')%R) by now apply le_INR.
  assert (Hl0 : (0 <= ln (INR n + 1))%R).
  { rewrite <- ln_1. apply ln_monotone; lra. }
  assert (Hl : (ln (INR n + 1) <= ln (INR n' + 1))%R) by (apply ln_monotone; lra).
  split.
  - apply Rmult_le_reg_r with (ln 10); trivial.
    replace (ln (INR n + 1) / ln 10 * ln 10)%R with (ln (INR n + 1)) by (field; lra).
    lra.
  - apply Rmult_le_reg_r with (ln 10); trivial.
    replace (ln (INR n + 1) / ln 10 * ln 10)%R with (ln (INR n + 1)) by (field; lra).
    replace (ln (INR n' + 1) / ln 10 * ln 10)%R with (ln (INR n' + 1)) by (field; lra).
    exact Hl.
Qed.

Lemma weekly_listeners_monotone (genre : string) (n n' : nat) :
  (n <= n')%nat ->
  0 <= Spec.weekly_listeners (Spec.detail_multiplier genre) n
    <= Spec.weekly_listeners (Spec.detail_multiplier genre) n'.
Proof.
  intros Hn. unfold Spec.weekly_listeners.
  pose proof (detail_multiplier_pos genre) as Hm.
  destruct (log10_monotone n n' Hn) as (H0 & Hle).
  set (m := Q2R (Spec.detail_multiplier genre)) in *.
  set (x := (ln (INR n + 1) / ln 10)%R) in *.
  set (y := (ln (INR n' + 1) / ln 10)%R) in *.
  split.
  - rewrite <- (Int_part_IZR 0). apply Int_part_monotone.
    apply Rmult_le_pos; lra.
  - apply Int_part_monotone. apply Rmult_le_compat_l; lra.
Qed.

Lemma downloads_monotone (w w' : Z) :
  0 <= w <= w' ->
  0 <= Spec.downloads w <= Spec.downloads w' /\ Spec.downloads w <= w.
Proof.
  intros (H0 & Hle). unfold Spec.downloads.
  assert (R0 : (0 <= IZR w)%R) by now apply IZR_le.
  assert (Rle : (IZR w <= IZR w')%R) by now apply IZR_le.
  repeat split.
  - rewrite <- (Int_part_IZR 0). apply Int_part_monotone. lra.
  - apply Int_part_monotone. lra.
  - rewrite <- (Int_part_IZR w) at 2. apply Int_part_monotone. lra.
Qed.

(** For a genre that is not the name of an inherited property, the
    detail-context estimate is zero for a podcast without episodes and does
    not decrease when the episode count grows; the downloads per episode are
    never negative and never exceed the weekly listeners. *)
Theorem detail_popularity_shape :
  forall (podcast : RawPodcast.t),
  inherited (ToPropertyKey (RawPodcast.primaryGenreName podcast)) = false ->
  Metrics.estimated_weekly_listeners (estimateMetrics podcast 0) = Fin 0
  /\ Metrics.estimated_downloads_per_episode (estimateMetrics podcast 0) = Fin 0
  /\ (forall n n', (n <= n')%nat ->
        exists w w' d d',
          Metrics.estimated_weekly_listeners (estimateMetrics podcast n) = Fin w
          /\ Metrics.estimated_weekly_listeners (estimateMetrics podcast n') = Fin w'
          /\ Metrics.estimated_downloads_per_episode (estimateMetrics podcast n) = Fin d
          /\ Metrics.estimated_downloads_per_episode (estimateMetrics podcast n') = Fin d'
          /\ 0 <= w <= w' /\ 0 <= d <= d' /\ d <= w).
Proof.
  intros podcast Hi.
  set (genre := ToPropertyKey (RawPodcast.primaryGenreName podcast)) in *.
  assert (Hzero : Spec.weekly_listeners (Spec.detail_multiplier genre) 0 = 0).
  { unfold Spec.weekly_listeners. cbn [INR].
    replace (0 + 1)%R with 1%R by lra. rewrite ln_1.
    replace (5000 * Q2R (Spec.detail_multiplier genre) * (0 / ln 10))%R with (IZR 0).
    - apply Int_part_IZR.
    - pose proof ln_10_pos. field. lra. }
  split; [| split].
  - destruct (estimateMetrics_value podcast 0 Hi) as (-> & _). fold genre.
    now rewrite Hzero.
  - destruct (estimateMetrics_value podcast 0 Hi) as (_ & -> & _). fold genre.
    rewrite Hzero. f_equal. unfold Spec.downloads.
    replace (0 * (7 / 10))%R with (IZR 0) by lra. apply Int_part_IZR.
  - intros n n' Hn.
    destruct (estimateMetrics_value podcast n Hi) as (Hw & Hd & _).
    destruct (estimateMetrics_value podcast n' Hi) as (Hw' & Hd' & _).
    fold genre in Hw, Hd, Hw', Hd'.
    pose proof (weekly_listeners_monotone genre n n' Hn) as Hmono.
    destruct (downloads_monotone _ _ Hmono) as (Hdm & Hdw).
    do 4 eexists. rewrite Hw, Hw', Hd, Hd'.
    repeat split; lia.
Qed.

Lemma detail_popularity_shape_witness :
  Metrics.estimated_weekly_listeners
    (estimateMetrics (podcast_of_genre (Val "Comedy")) 0) = Fin 0
  /\ Metrics.estimated_downloads_per_episode
       (estimateMetrics (podcast_of_genre (Val "Comedy")) 0) = Fin 0.
Proof.
  destruct (detail_popularity_shape (podcast_of_genre (Val "Comedy")) eq_refl)
    as (H0 & H1 & _).
  now split.
Defined.

(* ================================================================== *)
(** * Sample pages *)

Lemma page_is_window_witness :
  List.length (paginate (episodes_at daily_times) (Fin 5) (Fin 10)) = 10%nat
  /\ nth_error (paginate (episodes_at daily_times) (Fin 5) (Fin 10)) 0
     = nth_error (episodes_at daily_times) 5.
Proof.
  destruct (page_is_window Episode.t (episodes_at daily_times) 5 10)
    as (_ & Hlen & Hnth); [lia | lia |].
  split.
  - rewrite Hlen. reflexivity.
  - apply (Hnth 0%nat). rewrite Hlen. vm_compute. lia.
Defined.

Lemma pages_tile_witness :
  (paginate (episodes_at daily_times) (Fin 0) (Fin 10)
   ++ paginate (episodes_at daily_times) (Fin (0 + 10)) (Fin 10))%list
  = paginate (episodes_at daily_times) (Fin 0) (Fin (10 + 10)).
Proof.
  apply (pages_tile Episode.t (episodes_at daily_times) 0 10 10); lia.
Defined.

(** Offset 2 and limit -5 on 21 episodes: the page ends three episodes
    before the end and has 16 episodes. *)
Lemma page_negative_limit_witness :
  List.length (paginate (episodes_at daily_times) (Fin 2) (Fin (-5))) = 16%nat.
Proof.
  rewrite (page_negative_limit Episode.t (episodes_at daily_times) 2 (-5))
    by lia.
  reflexivity.
Defined.

(* ================================================================== *)
(** * Sample requests *)

(** The second and third of three episodes, asked for with [offset=1] and
    [limit=2]. *)
Lemma episodes_handler_outcomes_witness :
  match @episodes_handler iso8601 ascii_strings "GET" (Val "1") (Val "2") (Val "1")
          (Ok (Val (lookup_of (podcast_of_genre (Val "News"))
                              (raw_episodes_at weekly_times)))) with
  | Json 200 body =>
      EpisodesPage.total_episodes body = 3%nat
      /\ List.length (EpisodesPage.episodes body) = 2%nat
  | _ => False
  end.
Proof.
  destruct (episodes_handler_outcomes iso8601 ascii_strings "GET" (Val "1") (Val "2")
              (Val "1")
              (Ok (Val (lookup_of (podcast_of_genre (Val "News"))
                                  (raw_episodes_at weekly_times)))))
    as (_ & _ & H).
  destruct H as (_ & _ & H); [discriminate | reflexivity |].
  destruct (H _ _ eq_refl) as (analytics & _ & ->).
  split; reflexivity.
Defined.

(** A lookup whose first result has no [collectionId] is answered 500. *)
Lemma detail_handler_outcomes_witness :
  status_of (@detail_handler iso8601 "GET" (Val "1")
               (Ok (Val (lookup_of (PodcastSearch.info (found_podcast Undefined Undefined))
                                   (raw_episodes_at weekly_times)))))
  = 500.
Proof.
  destruct (detail_handler_outcomes iso8601 "GET" (Val "1")
              (Ok (Val (lookup_of (PodcastSearch.info (found_podcast Undefined Undefined))
                                  (raw_episodes_at weekly_times)))))
    as (_ & _ & H).
  destruct H as (_ & _ & H); [discriminate | reflexivity |].
  apply H. right. do 2 eexists. split; [reflexivity |]. now left.
Defined.

(** A lookup that fails leaves the partial record. *)
Lemma enrich_outcomes_witness :
  PodcastSearch.enrich (found_podcast (Val 7) (Val (lit 250)))
                       (Throw (TypeError "fetch failed"))
  = Ok (PodcastSearch.Partial "7" (Val "A podcast") Undefined).
Proof.
  destruct (enrich_outcomes (found_podcast (Val 7) (Val (lit 250)))
              (Throw (TypeError "fetch failed"))) as (H & _).
  destruct (H 7 eq_refl) as (_ & H'). rewrite (H' _ eq_refl). reflexivity.
Defined.

(** One search result without [collectionId] among two: the search is
    answered 500 although the lookups succeed. *)
Lemma podcast_search_outcomes_witness :
  status_of (PodcastSearch.handler "GET" (Val "news")
               (Ok (Val [found_podcast (Val 7) (Val (lit 250));
                         found_podcast Undefined (Val (lit 250))]))
               (fun _ => Ok (Val (raw_episodes_at weekly_times))))
  = 500.
Proof.
  destruct (podcast_search_outcomes "GET" (Val "news")
              (Ok (Val [found_podcast (Val 7) (Val (lit 250));
                        found_podcast Undefined (Val (lit 250))]))
              (fun _ => Ok (Val (raw_episodes_at weekly_times))))
    as (_ & _ & H).
  destruct H as (H & _); [discriminate | reflexivity |].
  apply H. right. exists (Val [found_podcast (Val 7) (Val (lit 250));
                               found_podcast Undefined (Val (lit 250))]),
                         (found_podcast Undefined (Val (lit 250))).
  split; [reflexivity |]. split; [right; now left | now left].
Defined.


(** Three genre ids and two genre names. *)
Lemma genres_follow_ids_witness :
  PodcastSearch.genres_of (found_podcast (Val 7) Undefined)
  = [Val "News"; Val "Podcasts"; Undefined].
Proof.
  destruct (genres_follow_ids (found_podcast (Val 7) Undefined)) as (_ & H).
  destruct (H _ eq_refl) as (_ & _ & H').
  rewrite (H' _ eq_refl). reflexivity.
Defined.

(** An offset past the last of 21 episodes. *)
Lemma page_empty_witness :
  paginate (episodes_at daily_times) (Fin 21) (Fin 100) = [].
Proof.
  destruct (page_empty Episode.t (episodes_at daily_times)) as (_ & _ & _ & H).
  apply H. vm_compute. discriminate.
Defined.
